(** * Infrastructure DCF valuation engine

    A shallow embedding of [src/infrastructure_dcf.py]: the financial record
    and its validation, the business-model classifier, the expansion-phase
    detector, the FCF normalizer, the WACC estimator and the projection and
    terminal-value engine, followed by the properties of the specification
    that concern them.

    Conventions.
    - Python's [float] is kept abstract behind the class [Number]; the
      instance [float_number] is IEEE binary64 (Rocq's primitive floats, the
      arithmetic Python runs on).  What depends on the shape of the code
      only is proved for an arbitrary [Number]; what depends on the
      arithmetic is proved on [float_number], from the specification of
      binary64, signed zeros, infinities and NaN included.
    - NumPy's reductions and Python's [**] live behind the class [Library];
      [float_library] is an executable instance of it.
    - A method of [InfrastructureDCF] is a function from the engine to a
      result and the engine it leaves behind; a Python exception is [Raise]. *)

From Stdlib Require Import String Ascii Floats ZArith QArith Bool Lia.
From Stdlib Require Import List.
Import ListNotations.

Close Scope Q_scope.

Set Implicit Arguments.

(** ** Exceptions and results *)

Inductive exception : Type :=
| ValueError
| ZeroDivisionError
| IndexError
| OverflowError
| TypeError.

Inductive result (A : Type) : Type :=
| Ok (a : A)
| Raise (e : exception).

Arguments Ok {A} a.
Arguments Raise {A} e.

Definition bind {A B : Type} (c : result A) (k : A -> result B) : result B :=
  match c with
  | Ok a => k a
  | Raise e => Raise e
  end.

Notation "'let*' x ':=' c 'in' k" := (bind c (fun x => k))
  (at level 10, x pattern, c at level 100, k at level 200).

(** ** Numbers *)

(** The arithmetic of Python's [float].  [fdiv] is the division of the
    arithmetic itself (IEEE: a zero divisor gives an infinity or a NaN); the
    [ZeroDivisionError] of Python's [/] is added by [truediv] below.
    [of_int] is the conversion of a Python [int], [lit] a decimal literal of
    the source. *)
Class Number : Type := {
  num : Type;
  fadd : num -> num -> num;
  fsub : num -> num -> num;
  fmul : num -> num -> num;
  fdiv : num -> num -> num;
  flt : num -> num -> bool;
  feqb : num -> num -> bool;
  of_int : Z -> num;
  lit : Q -> num
}.

(** [a > b] in the source. *)
Definition fgt {N : Number} (a b : num) : bool := flt b a.

(** IEEE binary64. *)
Definition float_of_Z (z : Z) : float :=
  match z with
  | Z0 => PrimFloat.zero
  | Zpos _ => PrimFloat.of_uint63 (Uint63.of_Z z)
  | Zneg p => PrimFloat.opp (PrimFloat.of_uint63 (Uint63.of_Z (Zpos p)))
  end.

Definition float_lit (q : Q) : float :=
  PrimFloat.div (float_of_Z (Qnum q)) (float_of_Z (Zpos (Qden q))).

#[export] Instance float_number : Number := {|
  num := float;
  fadd := PrimFloat.add;
  fsub := PrimFloat.sub;
  fmul := PrimFloat.mul;
  fdiv := PrimFloat.div;
  flt := PrimFloat.ltb;
  feqb := PrimFloat.eqb;
  of_int := float_of_Z;
  lit := float_lit
|}.

(** [math.isfinite] *)
Definition finite (x : float) : bool :=
  PrimFloat.ltb (PrimFloat.abs x) PrimFloat.infinity.

(** Two floats that are the same number bit for bit, but for a [-0.0] that
    an addition of [+0.0] has turned into [+0.0]. *)
Definition same_number (w x : float) : Prop :=
  w = x \/ (x = PrimFloat.neg_zero /\ w = PrimFloat.zero).

(** Python scalars.  [np.mean], [np.std] and [np.percentile] return
    [numpy.float64], and so does arithmetic with one: the difference shows in
    [/], which raises on a zero divisor for two Python floats only. *)
Inductive scalar {N : Number} : Type :=
| PyFloat (x : num)
| NpFloat (x : num).

Definition value {N : Number} (s : scalar) : num :=
  match s with PyFloat x | NpFloat x => x end.

Definition is_numpy {N : Number} (s : scalar) : bool :=
  match s with PyFloat _ => false | NpFloat _ => true end.

Definition scalar_op {N : Number} (op : num -> num -> num) (a b : scalar) : scalar :=
  if is_numpy a || is_numpy b
  then NpFloat (op (value a) (value b))
  else PyFloat (op (value a) (value b)).

Definition sadd {N : Number} := scalar_op fadd.
Definition ssub {N : Number} := scalar_op fsub.
Definition smul {N : Number} := scalar_op fmul.

(** [a / b] of the source. *)
Definition truediv {N : Number} (a b : scalar) : result scalar :=
  if is_numpy a || is_numpy b
  then Ok (NpFloat (fdiv (value a) (value b)))
  else if feqb (value b) (of_int 0)
       then Raise ZeroDivisionError
       else Ok (PyFloat (fdiv (value a) (value b))).

(** What the source takes from outside the repository. *)
Class Library (N : Number) : Type := {
  np_mean : list num -> num;
  np_std : list num -> num;
  np_percentile : list num -> num -> num;
  (** [x ** k] on a Python float and a Python int. *)
  float_pow : num -> Z -> result num
}.

(** ** Python lists *)

(** [xs[-1]] *)
Fixpoint last_item {A : Type} (xs : list A) : result A :=
  match xs with
  | [] => Raise IndexError
  | [x] => Ok x
  | _ :: tl => last_item tl
  end.

(** [xs[-n:]] *)
Definition last_n {A : Type} (n : nat) (xs : list A) : list A :=
  skipn (length xs - n) xs.

(** [xs[:k]] for an integer [k] of either sign. *)
Definition slice_to {A : Type} (k : Z) (xs : list A) : list A :=
  if (k <? 0)%Z
  then firstn (length xs - Z.to_nat (- k)) xs
  else firstn (Z.to_nat k) xs.

(** [zip(xs, ys)] *)
Fixpoint zip {A B : Type} (xs : list A) (ys : list B) : list (A * B) :=
  match xs, ys with
  | x :: xs', y :: ys' => (x, y) :: zip xs' ys'
  | _, _ => []
  end.

(** [sum(1 for x in xs if p x)] *)
Definition count_if {A : Type} (p : A -> bool) (xs : list A) : nat :=
  length (filter p xs).

(** ** Strings *)

(** [str.lower] on ASCII text. *)
Definition lower_ascii (c : ascii) : ascii :=
  let n := nat_of_ascii c in
  if (65 <=? n)%nat && (n <=? 90)%nat then ascii_of_nat (n + 32) else c.

Fixpoint lower (s : string) : string :=
  match s with
  | EmptyString => EmptyString
  | String c s' => String (lower_ascii c) (lower s')
  end.

(** [key in s] *)
Fixpoint contains (key s : string) : bool :=
  String.prefix key s ||
  match s with
  | EmptyString => false
  | String _ s' => contains key s'
  end.

(** ** Data model *)

Inductive InfrastructureSector : Type :=
| TOWERS
| TELECOM_INFRA
| REITS
| UTILITIES
| PIPELINES
| TOLL_ROADS
| AIRPORTS
| DATA_CENTERS
| OTHER.

(** [InfrastructureSector.value] *)
Definition sector_value (s : InfrastructureSector) : string :=
  match s with
  | TOWERS => "towers"
  | TELECOM_INFRA => "telecom_infrastructure"
  | REITS => "reits"
  | UTILITIES => "utilities"
  | PIPELINES => "pipelines"
  | TOLL_ROADS => "toll_roads"
  | AIRPORTS => "airports"
  | DATA_CENTERS => "data_centers"
  | OTHER => "other"
  end.

Definition sector_eqb (a b : InfrastructureSector) : bool :=
  match a, b with
  | TOWERS, TOWERS | TELECOM_INFRA, TELECOM_INFRA | REITS, REITS
  | UTILITIES, UTILITIES | PIPELINES, PIPELINES | TOLL_ROADS, TOLL_ROADS
  | AIRPORTS, AIRPORTS | DATA_CENTERS, DATA_CENTERS | OTHER, OTHER => true
  | _, _ => false
  end.

(** [ValuationMethod.DCF_FCFF.value] *)
Definition DCF_FCFF_value : string := "dcf_fcff".

Section Engine.

Context {N : Number} {L : Library N}.

Record CompanyFinancials : Type := {
  company_name : string;
  sector : string;
  revenues : list num;
  ebitda : list num;
  depreciation : list num;
  interest_expense : list num;
  capex : list num;
  operating_cash_flow : option (list num);
  total_debt : num;
  cash : num;
  total_assets : num;
  total_equity : num;
  market_cap : num;
  shares_outstanding : num;
  current_price : num;
  risk_free_rate : num;
  market_risk_premium : num;
  effective_tax_rate : num;
  maintenance_capex_guidance : option num;
  revenue_growth_rate : num;
  terminal_growth_rate : num;
  avg_contract_duration : option num;
  asset_beta : option num;
  dividend_per_share : num;
  net_debt : num
}.

(** Attribute assignments [self.f = v] on a record. *)
Definition set_sector (v : string) (d : CompanyFinancials) : CompanyFinancials :=
  {| company_name := company_name d; sector := v; revenues := revenues d;
     ebitda := ebitda d; depreciation := depreciation d;
     interest_expense := interest_expense d; capex := capex d;
     operating_cash_flow := operating_cash_flow d; total_debt := total_debt d;
     cash := cash d; total_assets := total_assets d;
     total_equity := total_equity d; market_cap := market_cap d;
     shares_outstanding := shares_outstanding d;
     current_price := current_price d; risk_free_rate := risk_free_rate d;
     market_risk_premium := market_risk_premium d;
     effective_tax_rate := effective_tax_rate d;
     maintenance_capex_guidance := maintenance_capex_guidance d;
     revenue_growth_rate := revenue_growth_rate d;
     terminal_growth_rate := terminal_growth_rate d;
     avg_contract_duration := avg_contract_duration d;
     asset_beta := asset_beta d; dividend_per_share := dividend_per_share d;
     net_debt := net_debt d |}.

Definition set_net_debt (v : num) (d : CompanyFinancials) : CompanyFinancials :=
  {| company_name := company_name d; sector := sector d; revenues := revenues d;
     ebitda := ebitda d; depreciation := depreciation d;
     interest_expense := interest_expense d; capex := capex d;
     operating_cash_flow := operating_cash_flow d; total_debt := total_debt d;
     cash := cash d; total_assets := total_assets d;
     total_equity := total_equity d; market_cap := market_cap d;
     shares_outstanding := shares_outstanding d;
     current_price := current_price d; risk_free_rate := risk_free_rate d;
     market_risk_premium := market_risk_premium d;
     effective_tax_rate := effective_tax_rate d;
     maintenance_capex_guidance := maintenance_capex_guidance d;
     revenue_growth_rate := revenue_growth_rate d;
     terminal_growth_rate := terminal_growth_rate d;
     avg_contract_duration := avg_contract_duration d;
     asset_beta := asset_beta d; dividend_per_share := dividend_per_share d;
     net_debt := v |}.

Definition set_total_debt (v : num) (d : CompanyFinancials) : CompanyFinancials :=
  {| company_name := company_name d; sector := sector d; revenues := revenues d;
     ebitda := ebitda d; depreciation := depreciation d;
     interest_expense := interest_expense d; capex := capex d;
     operating_cash_flow := operating_cash_flow d; total_debt := v;
     cash := cash d; total_assets := total_assets d;
     total_equity := total_equity d; market_cap := market_cap d;
     shares_outstanding := shares_outstanding d;
     current_price := current_price d; risk_free_rate := risk_free_rate d;
     market_risk_premium := market_risk_premium d;
     effective_tax_rate := effective_tax_rate d;
     maintenance_capex_guidance := maintenance_capex_guidance d;
     revenue_growth_rate := revenue_growth_rate d;
     terminal_growth_rate := terminal_growth_rate d;
     avg_contract_duration := avg_contract_duration d;
     asset_beta := asset_beta d; dividend_per_share := dividend_per_share d;
     net_debt := net_debt d |}.

Definition set_cash (v : num) (d : CompanyFinancials) : CompanyFinancials :=
  {| company_name := company_name d; sector := sector d; revenues := revenues d;
     ebitda := ebitda d; depreciation := depreciation d;
     interest_expense := interest_expense d; capex := capex d;
     operating_cash_flow := operating_cash_flow d; total_debt := total_debt d;
     cash := v; total_assets := total_assets d;
     total_equity := total_equity d; market_cap := market_cap d;
     shares_outstanding := shares_outstanding d;
     current_price := current_price d; risk_free_rate := risk_free_rate d;
     market_risk_premium := market_risk_premium d;
     effective_tax_rate := effective_tax_rate d;
     maintenance_capex_guidance := maintenance_capex_guidance d;
     revenue_growth_rate := revenue_growth_rate d;
     terminal_growth_rate := terminal_growth_rate d;
     avg_contract_duration := avg_contract_duration d;
     asset_beta := asset_beta d; dividend_per_share := dividend_per_share d;
     net_debt := net_debt d |}.

Definition set_terminal_growth_rate (v : num) (d : CompanyFinancials)
  : CompanyFinancials :=
  {| company_name := company_name d; sector := sector d; revenues := revenues d;
     ebitda := ebitda d; depreciation := depreciation d;
     interest_expense := interest_expense d; capex := capex d;
     operating_cash_flow := operating_cash_flow d; total_debt := total_debt d;
     cash := cash d; total_assets := total_assets d;
     total_equity := total_equity d; market_cap := market_cap d;
     shares_outstanding := shares_outstanding d;
     current_price := current_price d; risk_free_rate := risk_free_rate d;
     market_risk_premium := market_risk_premium d;
     effective_tax_rate := effective_tax_rate d;
     maintenance_capex_guidance := maintenance_capex_guidance d;
     revenue_growth_rate := revenue_growth_rate d;
     terminal_growth_rate := v;
     avg_contract_duration := avg_contract_duration d;
     asset_beta := asset_beta d; dividend_per_share := dividend_per_share d;
     net_debt := net_debt d |}.

(** [self.operating_cash_flow = v] *)
Definition set_operating_cash_flow (v : option (list num))
    (d : CompanyFinancials) : CompanyFinancials :=
  {| company_name := company_name d; sector := sector d; revenues := revenues d;
     ebitda := ebitda d; depreciation := depreciation d;
     interest_expense := interest_expense d; capex := capex d;
     operating_cash_flow := v; total_debt := total_debt d;
     cash := cash d; total_assets := total_assets d;
     total_equity := total_equity d; market_cap := market_cap d;
     shares_outstanding := shares_outstanding d;
     current_price := current_price d; risk_free_rate := risk_free_rate d;
     market_risk_premium := market_risk_premium d;
     effective_tax_rate := effective_tax_rate d;
     maintenance_capex_guidance := maintenance_capex_guidance d;
     revenue_growth_rate := revenue_growth_rate d;
     terminal_growth_rate := terminal_growth_rate d;
     avg_contract_duration := avg_contract_duration d;
     asset_beta := asset_beta d; dividend_per_share := dividend_per_share d;
     net_debt := net_debt d |}.

(** [CompanyFinancials._validate_data]: the five series of
    [time_series_fields] have one length, and it is at least 3. *)
Definition _validate_data (self : CompanyFinancials) : result unit :=
  let lengths :=
    [ length (revenues self); length (ebitda self); length (depreciation self);
      length (capex self); length (interest_expense self) ] in
  if (1 <? length (nodup Nat.eq_dec lengths))%nat
  then Raise ValueError
  else if (length (revenues self) <? 3)%nat
       then Raise ValueError
       else Ok tt.

(** [CompanyFinancials.__post_init__], run by the generated [__init__] once
    the declared fields are assigned; [net_debt] is [field(init=False)], so
    whatever the argument holds there is overwritten. *)
Definition __post_init__ (self : CompanyFinancials) : result CompanyFinancials :=
  let self := set_net_debt (fsub (total_debt self) (cash self)) self in
  let* _ := _validate_data self in
  Ok self.

Record ValuationResult : Type := {
  enterprise_value : scalar;
  equity_value : scalar;
  intrinsic_value_per_share : scalar;
  normalized_fcf : scalar;
  wacc : num;
  method : string;
  forward_fcf_used : bool;
  flags : list string;
  pv_explicit_period : scalar;
  pv_terminal_value : scalar;
  projected_fcf : list scalar;
  terminal_value : scalar;
  result_company_name : string;
  result_sector : string;
  sector_override : bool;
  original_sector : string
}.

(** The dictionary [self.validation_results], one field per key. *)
Record ValidationResults : Type := {
  vr_use_forward_fcf : bool;
  vr_flags : list string;
  vr_sector : string;
  vr_sector_override : bool;
  vr_original_sector : string
}.

(** The dictionary returned by [_analyze_business_model]. *)
Record Characteristics : Type := {
  ebitda_margin : num;
  asset_intensity : num;
  revenue_volatility : num;
  leverage : num;
  capex_intensity : num
}.

(** The engine: [self.data] is the caller's record itself, not a copy, so a
    write to [data] is a write to the caller's record. *)
Record InfrastructureDCF : Type := {
  data : CompanyFinancials;
  validation_results : option ValidationResults;
  _sector_enum : option InfrastructureSector
}.

(** [InfrastructureDCF.__init__] *)
Definition new_engine (financials : CompanyFinancials) : InfrastructureDCF :=
  {| data := financials; validation_results := None; _sector_enum := None |}.

(** [MAINTENANCE_CAPEX_BENCHMARKS] *)
Definition MAINTENANCE_CAPEX_BENCHMARKS (s : InfrastructureSector) : option num :=
  match s with
  | TOWERS => Some (lit 0.06)
  | TELECOM_INFRA => Some (lit 0.07)
  | REITS => Some (lit 0.12)
  | UTILITIES => Some (lit 0.45)
  | PIPELINES => Some (lit 0.25)
  | TOLL_ROADS => Some (lit 0.15)
  | AIRPORTS => Some (lit 0.20)
  | DATA_CENTERS => Some (lit 0.10)
  | OTHER => None
  end.

(** [ASSET_BETA_BENCHMARKS] *)
Definition ASSET_BETA_BENCHMARKS (s : InfrastructureSector) : option num :=
  match s with
  | TOWERS => Some (lit 0.6)
  | TELECOM_INFRA => Some (lit 0.65)
  | REITS => Some (lit 0.55)
  | UTILITIES => Some (lit 0.40)
  | PIPELINES => Some (lit 0.50)
  | TOLL_ROADS => Some (lit 0.70)
  | AIRPORTS => Some (lit 0.75)
  | DATA_CENTERS => Some (lit 0.65)
  | OTHER => None
  end.

(** ** Business-model classifier *)

(** [a / b if b > 0 else 0]: under its guard Python's [/] meets no zero
    divisor, so it is the division of the arithmetic. *)
Definition guarded_ratio (a b : num) : num :=
  if fgt b (of_int 0) then fdiv a b else of_int 0.

(** [np.diff(a)] *)
Fixpoint np_diff (a : list num) : list num :=
  match a with
  | x :: ((y :: _) as tl) => fsub y x :: np_diff tl
  | _ => []
  end.

(** [a / b] on two arrays; NumPy refuses shapes that do not match (the
    broadcast of a one-element array does not arise on a validated record). *)
Definition np_divide (a b : list num) : result (list num) :=
  if (length a =? length b)%nat
  then Ok (map (fun p => fdiv (fst p) (snd p)) (zip a b))
  else Raise ValueError.

Definition _calculate_revenue_volatility (self : InfrastructureDCF) : result num :=
  let revenues := revenues (data self) in
  if (length revenues <? 2)%nat
  then Ok (lit 0.0)
  else
    let* yoy_growth := np_divide (np_diff revenues) (removelast revenues) in
    Ok (np_std yoy_growth).

Definition _analyze_business_model (self : InfrastructureDCF) : result Characteristics :=
  let* latest_ebitda := last_item (ebitda (data self)) in
  let* latest_revenue := last_item (revenues (data self)) in
  let ebitda_margin := guarded_ratio latest_ebitda latest_revenue in
  let asset_intensity := guarded_ratio (total_assets (data self)) latest_revenue in
  let* revenue_volatility := _calculate_revenue_volatility self in
  let leverage := guarded_ratio (total_debt (data self)) latest_ebitda in
  let avg_capex := np_mean (last_n 3 (capex (data self))) in
  let avg_revenue := np_mean (last_n 3 (revenues (data self))) in
  let capex_intensity := guarded_ratio avg_capex avg_revenue in
  Ok {| ebitda_margin := ebitda_margin;
        asset_intensity := asset_intensity;
        revenue_volatility := revenue_volatility;
        leverage := leverage;
        capex_intensity := capex_intensity |}.

(** The dictionary [sector_mapping], in its insertion order. *)
Definition sector_mapping : list (string * InfrastructureSector) :=
  [ ("towers", TOWERS); ("tower", TOWERS); ("reit", REITS); ("reits", REITS);
    ("utilities", UTILITIES); ("utility", UTILITIES);
    ("pipeline", PIPELINES); ("pipelines", PIPELINES); ("toll", TOLL_ROADS);
    ("airport", AIRPORTS); ("airports", AIRPORTS);
    ("data center", DATA_CENTERS); ("datacenter", DATA_CENTERS);
    ("telecom", TELECOM_INFRA); ("telecommunications", TELECOM_INFRA) ]%string.

(** The loop over [sector_mapping.items()]: the first key found in the
    lower-cased label. *)
Fixpoint match_label (mapping : list (string * InfrastructureSector))
    (sector_lower : string) : option InfrastructureSector :=
  match mapping with
  | [] => None
  | (key, sector_enum) :: rest =>
      if contains key sector_lower then Some sector_enum
      else match_label rest sector_lower
  end.

(** [self._sector_enum = e; self.data.sector = e.value] *)
Definition assign_sector (e : InfrastructureSector) (self : InfrastructureDCF)
  : InfrastructureDCF :=
  {| data := set_sector (sector_value e) (data self);
     validation_results := validation_results self;
     _sector_enum := Some e |}.

Definition tower_fingerprint (c : Characteristics) : bool :=
  fgt (ebitda_margin c) (lit 0.50) &&
  fgt (asset_intensity c) (lit 3.0) &&
  flt (asset_intensity c) (lit 15.0) &&
  flt (revenue_volatility c) (lit 0.15) &&
  fgt (leverage c) (lit 4.0).

Definition reit_fingerprint (c : Characteristics) : bool :=
  fgt (ebitda_margin c) (lit 0.60) &&
  fgt (asset_intensity c) (lit 8.0).

Definition _classify_sector (self : InfrastructureDCF) : result InfrastructureDCF :=
  let* characteristics := _analyze_business_model self in
  if tower_fingerprint characteristics then Ok (assign_sector TOWERS self)
  else if reit_fingerprint characteristics then Ok (assign_sector REITS self)
  else
    let sector_lower := lower (sector (data self)) in
    match match_label sector_mapping sector_lower with
    | Some sector_enum => Ok (assign_sector sector_enum self)
    | None =>
        Ok {| data := data self;
              validation_results := validation_results self;
              _sector_enum := Some OTHER |}
    end.

(** ** Historical free cash flow *)

(** The fallback loop of [_calculate_historical_fcf]: [i] ranges over the
    EBITDA series and indexes the other two. *)
Fixpoint approximate_fcf (tax_rate : num) (ebitda depreciation capex : list num)
  : result (list num) :=
  match ebitda with
  | [] => Ok []
  | e :: ebitda' =>
      match depreciation, capex with
      | d :: depreciation', c :: capex' =>
          let ebit := fsub e d in
          let tax := if fgt ebit (of_int 0) then fmul ebit tax_rate else of_int 0 in
          let ocf_approx := fsub e tax in
          let fcf_year := fsub ocf_approx c in
          let* rest := approximate_fcf tax_rate ebitda' depreciation' capex' in
          Ok (fcf_year :: rest)
      | _, _ => Raise IndexError
      end
  end.

(** A list is true when it is not empty; [None] is false. *)
Definition supplied (ocf : option (list num)) : option (list num) :=
  match ocf with
  | Some ((_ :: _) as l) => Some l
  | _ => None
  end.

Definition _calculate_historical_fcf (self : InfrastructureDCF) : result (list num) :=
  match supplied (operating_cash_flow (data self)) with
  | Some ocf =>
      Ok (map (fun p => fsub (fst p) (snd p)) (zip ocf (capex (data self))))
  | None =>
      approximate_fcf (effective_tax_rate (data self)) (ebitda (data self))
        (depreciation (data self)) (capex (data self))
  end.

(** ** Expansion-phase detector *)

(** The window rule shared by rules 1 and 2: over the last five entries at
    least three satisfy [p], or over the last three at least two. *)
Definition window_rule {A : Type} (p : A -> bool) (xs : list A) : bool :=
  if (5 <=? length xs)%nat then (3 <=? count_if p (last_n 5 xs))%nat
  else if (3 <=? length xs)%nat then (2 <=? count_if p (last_n 3 xs))%nat
  else false.

(** [flags.append(name)] when [b] holds. *)
Definition append_if (b : bool) (name : string) (flags : list string) : list string :=
  if b then flags ++ [name] else flags.

Definition infrastructure_sectors : list InfrastructureSector :=
  [ TOWERS; TELECOM_INFRA; UTILITIES; PIPELINES; REITS; TOLL_ROADS; AIRPORTS;
    DATA_CENTERS ].

(** [self._sector_enum in sectors] *)
Definition sector_in (e : option InfrastructureSector)
    (sectors : list InfrastructureSector) : bool :=
  match e with
  | Some s => existsb (sector_eqb s) sectors
  | None => false
  end.

(** [if self._sector_enum is None: self._classify_sector()] *)
Definition ensure_classified (self : InfrastructureDCF) : result InfrastructureDCF :=
  match _sector_enum self with
  | None => _classify_sector self
  | Some _ => Ok self
  end.

(** Truth value of an optional number: [None] and zero are false. *)
Definition truthy (x : option num) : bool :=
  match x with
  | Some v => negb (feqb v (of_int 0))
  | None => false
  end.

Definition _should_use_forward_fcf (historical_fcf : list num)
    (self : InfrastructureDCF) : result (bool * list string * InfrastructureDCF) :=
  let* self := ensure_classified self in
  let flags := [] in
  (* Rule 1 *)
  let flags :=
    append_if (window_rule (fun fcf => flt fcf (of_int 0)) historical_fcf)
      "sustained_negative_fcf" flags in
  (* Rule 2 *)
  let* capex_to_ebitda := np_divide (capex (data self)) (ebitda (data self)) in
  let flags :=
    append_if (window_rule (fun ratio => fgt ratio (lit 1.0)) capex_to_ebitda)
      "high_growth_capex" flags in
  (* Rule 3 *)
  let flags :=
    append_if (sector_in (_sector_enum self) infrastructure_sectors)
      "infrastructure_sector" flags in
  (* Rule 4 *)
  let* latest_ebitda := last_item (ebitda (data self)) in
  let* latest_fcf := last_item historical_fcf in
  let flags :=
    append_if (fgt latest_ebitda (of_int 0) && flt latest_fcf (of_int 0))
      "ebitda_fcf_divergence" flags in
  (* Rule 5 *)
  let flags :=
    append_if
      (truthy (avg_contract_duration (data self)) &&
       match avg_contract_duration (data self) with
       | Some d => fgt d (of_int 5)
       | None => false
       end)
      "contracted_revenues" flags in
  (* Rule 6 *)
  let flags :=
    if (5 <=? length (capex (data self)))%nat
    then
      let capex_std := np_std (last_n 5 (capex (data self))) in
      let capex_mean := np_mean (last_n 5 (capex (data self))) in
      let capex_cv := guarded_ratio capex_std capex_mean in
      append_if (fgt capex_cv (lit 0.5)) "high_capex_volatility" flags
    else flags in
  let use_forward := (2 <=? length flags)%nat in
  Ok (use_forward, flags, self).

(** [validate_and_classify]; [errors] stays empty. *)
Definition validate_and_classify (self : InfrastructureDCF)
  : result (bool * list string * InfrastructureDCF) :=
  let errors : list string := [] in
  let original_sector := sector (data self) in
  let* self := _classify_sector self in
  let* historical_fcf := _calculate_historical_fcf self in
  let* (use_forward, flags, self) := _should_use_forward_fcf historical_fcf self in
  let self :=
    {| data := data self;
       validation_results :=
         Some {| vr_use_forward_fcf := use_forward;
                 vr_flags := flags;
                 vr_sector :=
                   match _sector_enum self with
                   | Some e => sector_value e
                   | None => sector (data self)
                   end;
                 vr_sector_override :=
                   negb (String.eqb original_sector (sector (data self)));
                 vr_original_sector := original_sector |};
       _sector_enum := _sector_enum self |} in
  Ok ((length errors =? 0)%nat, errors, self).

(** ** FCF normalizer *)

Definition _get_ebitda_baseline (self : InfrastructureDCF) : result scalar :=
  let* latest_ebitda := last_item (ebitda (data self)) in
  if (3 <=? length (ebitda (data self)))%nat
  then
    let ebitda_recent := last_n 3 (ebitda (data self)) in
    let ebitda_std := np_std ebitda_recent in
    let ebitda_mean := np_mean ebitda_recent in
    let cv := guarded_ratio ebitda_std ebitda_mean in
    if fgt cv (lit 0.15) then Ok (NpFloat ebitda_mean)
    else Ok (PyFloat latest_ebitda)
  else Ok (PyFloat latest_ebitda).

Definition _estimate_maintenance_capex (self : InfrastructureDCF) : result scalar :=
  match maintenance_capex_guidance (data self) with
  | Some guidance => Ok (PyFloat guidance)
  | None =>
      match
        match _sector_enum self with
        | Some e => MAINTENANCE_CAPEX_BENCHMARKS e
        | None => None
        end
      with
      | Some benchmark_rate =>
          let* latest_revenue := last_item (revenues (data self)) in
          Ok (PyFloat (fmul latest_revenue benchmark_rate))
      | None =>
          Ok (NpFloat (np_percentile (capex (data self)) (of_int 25)))
      end
  end.

Definition zero_wc_sectors : list InfrastructureSector :=
  [ TOWERS; TELECOM_INFRA; UTILITIES; PIPELINES ].

Definition _estimate_wc_change (self : InfrastructureDCF) : result scalar :=
  if sector_in (_sector_enum self) zero_wc_sectors
  then Ok (PyFloat (lit 0.0))
  else
    let* latest_revenue := last_item (revenues (data self)) in
    let revenue_growth := revenue_growth_rate (data self) in
    Ok (PyFloat (fmul (fmul latest_revenue revenue_growth) (lit 0.02))).

Definition _calculate_forward_fcf (self : InfrastructureDCF)
  : result (scalar * InfrastructureDCF) :=
  let* self := ensure_classified self in
  let* ebitda_base := _get_ebitda_baseline self in
  let* maintenance_capex := _estimate_maintenance_capex self in
  let* latest_depreciation := last_item (depreciation (data self)) in
  let ebit := ssub ebitda_base (PyFloat latest_depreciation) in
  let normalized_tax :=
    if fgt (value ebit) (of_int 0)
    then smul ebit (PyFloat (effective_tax_rate (data self)))
    else PyFloat (of_int 0) in
  let* delta_wc := _estimate_wc_change self in
  let normalized_fcf :=
    ssub (ssub (ssub ebitda_base maintenance_capex) normalized_tax) delta_wc in
  Ok (normalized_fcf, self).

Definition _calculate_historical_average_fcf (self : InfrastructureDCF)
  : result scalar :=
  let* historical_fcf := _calculate_historical_fcf self in
  if (3 <=? length historical_fcf)%nat
  then Ok (NpFloat (np_mean (last_n 3 historical_fcf)))
  else Ok (NpFloat (np_mean historical_fcf)).

(** [if self.validation_results is None: self.validate_and_classify()] *)
Definition ensure_validated (self : InfrastructureDCF)
  : result (ValidationResults * InfrastructureDCF) :=
  match validation_results self with
  | Some v => Ok (v, self)
  | None =>
      let* (_, _, self) := validate_and_classify self in
      match validation_results self with
      | Some v => Ok (v, self)
      | None => Raise TypeError
      end
  end.

Definition calculate_normalized_fcf (self : InfrastructureDCF)
  : result (scalar * string * InfrastructureDCF) :=
  let* (v, self) := ensure_validated self in
  if vr_use_forward_fcf v
  then
    let* (fcf, self) := _calculate_forward_fcf self in
    Ok (fcf, "forward_ebitda_based"%string, self)
  else
    let* fcf := _calculate_historical_average_fcf self in
    Ok (fcf, "historical_average"%string, self).

(** ** Capital-cost estimator *)

Definition capm_asset_beta (self : InfrastructureDCF) : num :=
  match asset_beta (data self) with
  | Some b => b
  | None =>
      match
        match _sector_enum self with
        | Some e => ASSET_BETA_BENCHMARKS e
        | None => None
        end
      with
      | Some b => b
      | None => lit 0.60
      end
  end.

Definition cost_of_equity (self : InfrastructureDCF) : num :=
  fadd (risk_free_rate (data self))
       (fmul (capm_asset_beta self) (market_risk_premium (data self))).

Definition calculate_wacc (self : InfrastructureDCF) : result num :=
  let risk_free := risk_free_rate (data self) in
  let cost_of_equity := cost_of_equity self in
  let* latest_interest := last_item (interest_expense (data self)) in
  let total_debt := total_debt (data self) in
  let cost_of_debt :=
    if fgt total_debt (of_int 0)
    then
      let cost_of_debt_pretax := fdiv latest_interest total_debt in
      fmul cost_of_debt_pretax
           (fsub (of_int 1) (effective_tax_rate (data self)))
    else fadd risk_free (lit 0.02) in
  let market_value_equity := market_cap (data self) in
  let market_value_debt := total_debt in
  let total_value := fadd market_value_equity market_value_debt in
  let '(weight_equity, weight_debt) :=
    if fgt total_value (of_int 0)
    then (fdiv market_value_equity total_value,
          fdiv market_value_debt total_value)
    else (lit 0.5, lit 0.5) in
  Ok (fadd (fmul weight_equity cost_of_equity) (fmul weight_debt cost_of_debt)).

(** ** Projection, terminal value and assembly *)

(** [range(1, n + 1)] *)
Definition years_of (n : Z) : list Z :=
  map Z.of_nat (seq 1 (Z.to_nat n)).

(** The schedule read by the custom-growth loop. *)
Definition extend_rates (custom_growth_rates : list num)
    (growth_rate_terminal : num) (projection_years : Z) : list num :=
  if (Z.of_nat (length custom_growth_rates) <? projection_years)%Z
  then custom_growth_rates ++
       repeat growth_rate_terminal
         (Z.to_nat (projection_years - Z.of_nat (length custom_growth_rates)))
  else slice_to projection_years custom_growth_rates.

(** The growth rate of one year: [extended_rates[year - 1]] under a custom
    schedule, the linear taper otherwise. *)
Definition growth_of_year (extended_rates : option (list num))
    (growth_rate_high growth_rate_terminal : num) (projection_years year : Z)
  : result num :=
  match extended_rates with
  | Some rates =>
      match nth_error rates (Z.to_nat (year - 1)) with
      | Some growth_rate => Ok growth_rate
      | None => Raise IndexError
      end
  | None =>
      let share := fdiv (of_int year) (of_int projection_years) in
      Ok (fadd (fmul growth_rate_high (fsub (of_int 1) share))
               (fmul growth_rate_terminal share))
  end.

(** The body shared by the two [for year in range(...)] loops. *)
Fixpoint project (growth : Z -> result num) (years : list Z) (fcf_prev : scalar)
  : result (list scalar) :=
  match years with
  | [] => Ok []
  | year :: rest =>
      let* growth_rate := growth year in
      let fcf_year := smul fcf_prev (PyFloat (fadd (of_int 1) growth_rate)) in
      let* projected := project growth rest fcf_year in
      Ok (fcf_year :: projected)
  end.

(** [sum(fcf / ((1 + wacc) ** (i + 1)) for i, fcf in enumerate(...))],
    [acc] being the running total and [i] the index reached. *)
Fixpoint sum_discounted (wacc : num) (acc : scalar) (i : Z)
    (projected_fcf : list scalar) : result scalar :=
  match projected_fcf with
  | [] => Ok acc
  | fcf :: rest =>
      let* factor := float_pow (fadd (of_int 1) wacc) (i + 1) in
      let* term := truediv fcf (PyFloat factor) in
      sum_discounted wacc (sadd acc term) (i + 1) rest
  end.

Definition calculate_valuation (projection_years : Z)
    (custom_growth_rates : option (list num)) (self : InfrastructureDCF)
  : result (ValuationResult * InfrastructureDCF) :=
  (* Step 1 *)
  let* self :=
    match validation_results self with
    | None =>
        let* (valid, errors, self) := validate_and_classify self in
        if negb valid then Raise ValueError else Ok self
    | Some _ => Ok self
    end in
  (* Step 2 *)
  let* (normalized_fcf, fcf_method, self) := calculate_normalized_fcf self in
  (* Step 3 *)
  let* wacc := calculate_wacc self in
  (* Step 4 *)
  let growth_rate_high := revenue_growth_rate (data self) in
  let growth_rate_terminal := terminal_growth_rate (data self) in
  let extended_rates :=
    option_map
      (fun rates => extend_rates rates growth_rate_terminal projection_years)
      custom_growth_rates in
  let* projected_fcf :=
    project
      (growth_of_year extended_rates growth_rate_high growth_rate_terminal
         projection_years)
      (years_of projection_years) normalized_fcf in
  (* Step 5 *)
  let* final_fcf := last_item projected_fcf in
  let terminal_fcf :=
    smul final_fcf (PyFloat (fadd (of_int 1) growth_rate_terminal)) in
  let* terminal_value :=
    truediv terminal_fcf (PyFloat (fsub wacc growth_rate_terminal)) in
  (* Step 6 *)
  let* pv_fcf := sum_discounted wacc (PyFloat (of_int 0)) 0 projected_fcf in
  let* terminal_factor := float_pow (fadd (of_int 1) wacc) projection_years in
  let* pv_terminal := truediv terminal_value (PyFloat terminal_factor) in
  (* Step 7 *)
  let enterprise_value := sadd pv_fcf pv_terminal in
  (* Step 8 *)
  let equity_value := ssub enterprise_value (PyFloat (net_debt (data self))) in
  (* Step 9 *)
  let intrinsic_value_per_share :=
    if fgt (shares_outstanding (data self)) (of_int 0)
    then scalar_op fdiv equity_value (PyFloat (shares_outstanding (data self)))
    else PyFloat (lit 0.0) in
  match validation_results self with
  | None => Raise TypeError
  | Some v =>
      Ok ({| enterprise_value := enterprise_value;
             equity_value := equity_value;
             intrinsic_value_per_share := intrinsic_value_per_share;
             normalized_fcf := normalized_fcf;
             wacc := wacc;
             method := DCF_FCFF_value;
             forward_fcf_used := vr_use_forward_fcf v;
             flags := vr_flags v;
             pv_explicit_period := pv_fcf;
             pv_terminal_value := pv_terminal;
             projected_fcf := projected_fcf;
             terminal_value := terminal_value;
             result_company_name := company_name (data self);
             result_sector := vr_sector v;
             sector_override := vr_sector_override v;
             original_sector := vr_original_sector v |}, self)
  end.

End Engine.

(** ** An executable library on binary64

    An instance of [Library] to evaluate the engine on concrete records.
    It agrees with NumPy and Python on the records evaluated in this file
    up to the last bits of a power, and is an approximation beyond them:
    - [np.mean] and [np.std] (the population deviation) sum from the left,
      as NumPy does on fewer than 8 entries; NumPy sums longer arrays
      pairwise;
    - [np.percentile] is the default linear interpolation, NaN when an
      entry is NaN;
    - [**] is repeated multiplication, with Python's [OverflowError] when a
      finite base overflows; C's [pow], which Python calls, rounds once and
      can differ from it in the last bit.
    No theorem rests on these values: every theorem about the engine is
    stated for an arbitrary [Library], and the evaluations of a full
    valuation assert that a result exists, the exception raised, a sign or
    an infinity, not the digits of a power. *)

Definition float_sum (xs : list float) : float :=
  fold_left PrimFloat.add xs PrimFloat.zero.

Definition float_of_nat (n : nat) : float := float_of_Z (Z.of_nat n).

Definition float_mean (xs : list float) : float :=
  PrimFloat.div (float_sum xs) (float_of_nat (length xs)).

Definition float_std (xs : list float) : float :=
  let m := float_mean xs in
  let deviation x := PrimFloat.sub x m in
  PrimFloat.sqrt
    (float_mean (map (fun x => PrimFloat.mul (deviation x) (deviation x)) xs)).

Fixpoint float_insert (x : float) (xs : list float) : list float :=
  match xs with
  | [] => [x]
  | y :: ys => if PrimFloat.leb x y then x :: xs else y :: float_insert x ys
  end.

Definition float_sort (xs : list float) : list float :=
  fold_right float_insert [] xs.

Definition float_percentile (xs : list float) (q : float) : float :=
  if existsb (fun x => negb (PrimFloat.eqb x x)) xs then PrimFloat.nan else
  let sorted := float_sort xs in
  let n := length xs in
  let slots := (n - 1)%nat in
  (* position q/100 * (n - 1), split into the slot below and the remainder *)
  let position :=
    PrimFloat.mul (PrimFloat.div q (float_of_Z 100)) (float_of_nat slots) in
  let below :=
    last (filter (fun k => PrimFloat.leb (float_of_nat k) position)
                 (seq 0 n)) 0%nat in
  let gamma := PrimFloat.sub position (float_of_nat below) in
  let a := nth below sorted PrimFloat.nan in
  let b := nth (Nat.min (S below) slots) sorted PrimFloat.nan in
  let diff := PrimFloat.sub b a in
  if PrimFloat.leb (float_lit 0.5) gamma
  then PrimFloat.sub b (PrimFloat.mul diff (PrimFloat.sub PrimFloat.one gamma))
  else PrimFloat.add a (PrimFloat.mul diff gamma).

Fixpoint float_power (x : float) (n : nat) : float :=
  match n with
  | O => PrimFloat.one
  | S n' => PrimFloat.mul x (float_power x n')
  end.

Definition python_float_pow (x : float) (k : Z) : result float :=
  if (k <? 0)%Z
  then
    if PrimFloat.eqb x PrimFloat.zero then Raise ZeroDivisionError
    else Ok (PrimFloat.div PrimFloat.one (float_power x (Z.to_nat (- k))))
  else
    let r := float_power x (Z.to_nat k) in
    if PrimFloat.is_infinity r && negb (PrimFloat.is_infinity x)
    then Raise OverflowError
    else Ok r.

#[export] Instance float_library : Library float_number := {|
  np_mean := float_mean;
  np_std := float_std;
  np_percentile := float_percentile;
  float_pow := python_float_pow
|}.

(** ** The growth schedule as the specification words it *)

(** Year [i] (counted from 0) takes entry [i] of the supplied schedule while
    there is one and the terminal rate after it. *)
Definition scheduled_rate {N : Number} (schedule : list num) (terminal : num)
    (i : nat) : num :=
  nth i schedule terminal.

(** Each year's FCF is the previous year's times one plus that year's rate,
    starting from the base. *)
Fixpoint compound {N : Number} (fcf_prev : scalar) (rates : list num)
  : list scalar :=
  match rates with
  | [] => []
  | rate :: rest =>
      let fcf_year := smul fcf_prev (PyFloat (fadd (of_int 1) rate)) in
      fcf_year :: compound fcf_year rest
  end.

(** ** Outcomes of classification *)

Section Outcomes.

Context {N : Number}.

(** The outcome of [_classify_sector], branch by branch. *)
Inductive classified (self : InfrastructureDCF) (c : Characteristics)
  : InfrastructureDCF -> Prop :=
| classified_towers :
    tower_fingerprint c = true ->
    classified self c (assign_sector TOWERS self)
| classified_reits :
    tower_fingerprint c = false -> reit_fingerprint c = true ->
    classified self c (assign_sector REITS self)
| classified_label (e : InfrastructureSector) :
    tower_fingerprint c = false -> reit_fingerprint c = false ->
    match_label sector_mapping (lower (sector (data self))) = Some e ->
    classified self c (assign_sector e self)
| classified_other :
    tower_fingerprint c = false -> reit_fingerprint c = false ->
    match_label sector_mapping (lower (sector (data self))) = None ->
    classified self c
      {| data := data self;
         validation_results := validation_results self;
         _sector_enum := Some OTHER |}.

(** [d'] is [d] up to its sector string. *)
Definition sector_only (d d' : CompanyFinancials) : Prop :=
  d' = set_sector (sector d') d.

End Outcomes.

(** ** Concrete records *)

(** The record of the tests: flat three-year series, sector label
    ["towers"]. *)
Definition test_record : @CompanyFinancials float_number :=
  {| company_name := "Test";
     sector := "towers";
     revenues := [1000; 1000; 1000]%float;
     ebitda := [500; 500; 500]%float;
     depreciation := [100; 100; 100]%float;
     interest_expense := [50; 50; 50]%float;
     capex := [300; 300; 300]%float;
     operating_cash_flow := None;
     total_debt := 2000%float;
     cash := 100%float;
     total_assets := 0%float;
     total_equity := 0%float;
     market_cap := 5000%float;
     shares_outstanding := 100%float;
     current_price := 0%float;
     risk_free_rate := float_lit 0.025;
     market_risk_premium := float_lit 0.06;
     effective_tax_rate := float_lit 0.25;
     maintenance_capex_guidance := None;
     revenue_growth_rate := float_lit 0.03;
     terminal_growth_rate := float_lit 0.02;
     avg_contract_duration := None;
     asset_beta := None;
     dividend_per_share := 0%float;
     net_debt := 0%float |}.

(** The same record under the label ["infrastructure"], the default of
    [quick_valuation], as [__post_init__] returns it. *)
Definition infrastructure_record : @CompanyFinancials float_number :=
  set_net_debt 1900%float (set_sector "infrastructure" test_record).

(** The engine on [infrastructure_record] once classification and
    detection are cached: no signal is raised and the sector is [OTHER]. *)
Definition infrastructure_engine : @InfrastructureDCF float_number :=
  {| data := infrastructure_record;
     validation_results :=
       Some {| vr_use_forward_fcf := false;
               vr_flags := [];
               vr_sector := "other";
               vr_sector_override := false;
               vr_original_sector := "infrastructure" |};
     _sector_enum := Some OTHER |}.

(** The same record under the label ["Towers"]: no fingerprint matches (the
    asset intensity is 0) and the key ["towers"] is found in the lower-cased
    label. *)
Definition tower_label_record : @CompanyFinancials float_number :=
  set_net_debt 1900%float (set_sector "Towers" test_record).

(** The test record with a one-entry operating cash flow beside its
    three-entry series, as [__post_init__] returns it. *)
Definition short_cash_flow_record : @CompanyFinancials float_number :=
  set_operating_cash_flow (Some [450%float])
    (set_net_debt 1900%float test_record).

(** The test record with maintenance-capex guidance and long contracts: the
    flags [infrastructure_sector] and [contracted_revenues] put it on the
    forward path. *)
Definition guided_record : @CompanyFinancials float_number :=
  {| company_name := "Test";
     sector := "towers";
     revenues := [1000; 1000; 1000]%float;
     ebitda := [500; 500; 500]%float;
     depreciation := [100; 100; 100]%float;
     interest_expense := [50; 50; 50]%float;
     capex := [300; 300; 300]%float;
     operating_cash_flow := None;
     total_debt := 2000%float;
     cash := 100%float;
     total_assets := 0%float;
     total_equity := 0%float;
     market_cap := 5000%float;
     shares_outstanding := 100%float;
     current_price := 0%float;
     risk_free_rate := float_lit 0.025;
     market_risk_premium := float_lit 0.06;
     effective_tax_rate := float_lit 0.25;
     maintenance_capex_guidance := Some 60%float;
     revenue_growth_rate := float_lit 0.03;
     terminal_growth_rate := float_lit 0.02;
     avg_contract_duration := Some 10%float;
     asset_beta := None;
     dividend_per_share := 0%float;
     net_debt := 1900%float |}.

(** The engine on [guided_record] once classification and detection are
    cached. *)
Definition guided_engine : @InfrastructureDCF float_number :=
  {| data := guided_record;
     validation_results :=
       Some {| vr_use_forward_fcf := true;
               vr_flags := ["infrastructure_sector"; "contracted_revenues"]%string;
               vr_sector := "towers";
               vr_sector_override := false;
               vr_original_sector := "towers" |};
     _sector_enum := Some TOWERS |}.

(** A record whose EBITDA is zero in every period; its operating cash flow
    is supplied, so historical FCF is positive, its label matches no key and
    its contracts are long. *)
Definition zero_ebitda_record : @CompanyFinancials float_number :=
  {| company_name := "Test";
     sector := "infrastructure";
     revenues := [1000; 1000; 1000]%float;
     ebitda := [0; 0; 0]%float;
     depreciation := [100; 100; 100]%float;
     interest_expense := [50; 50; 50]%float;
     capex := [300; 300; 300]%float;
     operating_cash_flow := Some [400; 400; 400]%float;
     total_debt := 2000%float;
     cash := 100%float;
     total_assets := 0%float;
     total_equity := 0%float;
     market_cap := 5000%float;
     shares_outstanding := 100%float;
     current_price := 0%float;
     risk_free_rate := float_lit 0.025;
     market_risk_premium := float_lit 0.06;
     effective_tax_rate := float_lit 0.25;
     maintenance_capex_guidance := None;
     revenue_growth_rate := float_lit 0.03;
     terminal_growth_rate := float_lit 0.02;
     avg_contract_duration := Some 10%float;
     asset_beta := None;
     dividend_per_share := 0%float;
     net_debt := 1900%float |}.

(** The record of [test_wacc_zero_debt], for a given market
    capitalisation. *)
Definition zero_debt_record (market_cap : float)
  : @CompanyFinancials float_number :=
  {| company_name := "Test";
     sector := "towers";
     revenues := [1000; 1000; 1000]%float;
     ebitda := [500; 500; 500]%float;
     depreciation := [100; 100; 100]%float;
     interest_expense := [0; 0; 0]%float;
     capex := [300; 300; 300]%float;
     operating_cash_flow := None;
     total_debt := 0%float;
     cash := 0%float;
     total_assets := 0%float;
     total_equity := 0%float;
     market_cap := market_cap;
     shares_outstanding := 0%float;
     current_price := 0%float;
     risk_free_rate := float_lit 0.03;
     market_risk_premium := float_lit 0.06;
     effective_tax_rate := float_lit 0.25;
     maintenance_capex_guidance := None;
     revenue_growth_rate := float_lit 0.03;
     terminal_growth_rate := float_lit 0.02;
     avg_contract_duration := None;
     asset_beta := Some (float_lit 0.6);
     dividend_per_share := 0%float;
     net_debt := 0%float |}.

(** A debt-free record on the forward path whose WACC equals its terminal
    growth rate: with asset beta 0 the cost of equity is the risk-free rate,
    0.03, the weights are 1 and 0, and the terminal growth rate is 0.03 too.
    Its normalized FCF is a Python float (flat EBITDA, guidance supplied). *)
Definition equal_rates_record : @CompanyFinancials float_number :=
  {| company_name := "Test";
     sector := "towers";
     revenues := [1000; 1000; 1000]%float;
     ebitda := [500; 500; 500]%float;
     depreciation := [100; 100; 100]%float;
     interest_expense := [0; 0; 0]%float;
     capex := [300; 300; 300]%float;
     operating_cash_flow := None;
     total_debt := 0%float;
     cash := 0%float;
     total_assets := 0%float;
     total_equity := 0%float;
     market_cap := 5000%float;
     shares_outstanding := 100%float;
     current_price := 0%float;
     risk_free_rate := float_lit 0.03;
     market_risk_premium := float_lit 0.06;
     effective_tax_rate := float_lit 0.25;
     maintenance_capex_guidance := Some 60%float;
     revenue_growth_rate := float_lit 0.03;
     terminal_growth_rate := float_lit 0.03;
     avg_contract_duration := Some 10%float;
     asset_beta := Some 0%float;
     dividend_per_share := 0%float;
     net_debt := 0%float |}.

(** The test record under the label ["Data Center Co"]. *)
Definition data_center_record : @CompanyFinancials float_number :=
  set_net_debt 1900%float (set_sector "Data Center Co" test_record).

(** ** Detection signals *)

(** The six signal names in the order the detector examines them. *)
Definition all_flags : list string :=
  [ "sustained_negative_fcf"; "high_growth_capex"; "infrastructure_sector";
    "ebitda_fcf_divergence"; "contracted_revenues";
    "high_capex_volatility" ]%string.

(** [l] is [p] with some entries left out, the others in their order. *)
Inductive subsequence {A : Type} : list A -> list A -> Prop :=
| subsequence_nil : subsequence [] []
| subsequence_skip (x : A) (l p : list A) :
    subsequence l p -> subsequence l (x :: p)
| subsequence_take (x : A) (l p : list A) :
    subsequence l p -> subsequence (x :: l) (x :: p).

(** The debt-free record with its terminal growth rate set to its own WACC
    (the cost of equity, 0.03 + 0.6 * 0.06): only [infrastructure_sector] is
    raised, so it is valued by the historical method. *)
Definition trusted_equal_rates_record : @CompanyFinancials float_number :=
  set_terminal_growth_rate
    (PrimFloat.add (float_lit 0.03)
       (PrimFloat.mul (float_lit 0.6) (float_lit 0.06)))
    (zero_debt_record 5000%float).

(** The default growth schedule: a straight line in [year / horizon] from
    the record's [revenue_growth_rate] towards its [terminal_growth_rate]. *)
Definition taper_rate {N : Number} (high terminal : num) (horizon year : Z)
  : num :=
  fadd (fmul high (fsub (of_int 1) (fdiv (of_int year) (of_int horizon))))
       (fmul terminal (fdiv (of_int year) (of_int horizon))).

(** The keys of [sector_mapping] that can be the first one found: each of
    ["towers"], ["reits"], ["pipelines"], ["airports"] and
    ["telecommunications"] holds a key of the same sector that is tried no
    later than the next key of another sector. *)
Definition deciding_keys : list (string * InfrastructureSector) :=
  [ ("tower", TOWERS); ("reit", REITS);
    ("utilities", UTILITIES); ("utility", UTILITIES);
    ("pipeline", PIPELINES); ("toll", TOLL_ROADS); ("airport", AIRPORTS);
    ("data center", DATA_CENTERS); ("datacenter", DATA_CENTERS);
    ("telecom", TELECOM_INFRA) ]%string.

(** ** [quick_valuation] *)

(** The keyword arguments [**kwargs] that [CompanyFinancials] accepts
    beside the ones [quick_valuation] passes itself; a key that is absent is
    [None].  (Any other key makes the constructor raise [TypeError]; such
    calls are left out.) *)
Record QuickKwargs {N : Number} : Type := {
  kw_capex : option (list num);
  kw_total_assets : option num;
  kw_total_equity : option num;
  kw_operating_cash_flow : option (list num);
  kw_risk_free_rate : option num;
  kw_market_risk_premium : option num;
  kw_effective_tax_rate : option num;
  kw_maintenance_capex_guidance : option num;
  kw_revenue_growth_rate : option num;
  kw_terminal_growth_rate : option num;
  kw_avg_contract_duration : option num;
  kw_asset_beta : option num;
  kw_dividend_per_share : option num
}.

(** [kwargs.get(key, default)], and a field left to its declared default. *)
Definition get_or {A : Type} (given : option A) (default : A) : A :=
  match given with
  | Some v => v
  | None => default
  end.

(** The arguments [quick_valuation] hands to the constructor. *)
Definition quick_financials {N : Number} (company_name : string)
    (ebitda_ttm revenues_ttm total_debt cash market_cap shares_outstanding
       current_price : num)
    (sector : string) (kwargs : QuickKwargs) : CompanyFinancials :=
  {| company_name := company_name;
     sector := sector;
     revenues :=
       [ fmul revenues_ttm (lit 0.9); fmul revenues_ttm (lit 0.95);
         revenues_ttm ];
     ebitda :=
       [ fmul ebitda_ttm (lit 0.9); fmul ebitda_ttm (lit 0.95); ebitda_ttm ];
     depreciation := repeat (fmul ebitda_ttm (lit 0.15)) 3;
     interest_expense := repeat (fmul total_debt (lit 0.04)) 3;
     capex := get_or (kw_capex kwargs) (repeat (fmul revenues_ttm (lit 0.5)) 3);
     operating_cash_flow := kw_operating_cash_flow kwargs;
     total_debt := total_debt;
     cash := cash;
     total_assets := get_or (kw_total_assets kwargs) (fadd total_debt market_cap);
     total_equity := get_or (kw_total_equity kwargs) market_cap;
     market_cap := market_cap;
     shares_outstanding := shares_outstanding;
     current_price := current_price;
     risk_free_rate := get_or (kw_risk_free_rate kwargs) (lit 0.025);
     market_risk_premium := get_or (kw_market_risk_premium kwargs) (lit 0.06);
     effective_tax_rate := get_or (kw_effective_tax_rate kwargs) (lit 0.25);
     maintenance_capex_guidance := kw_maintenance_capex_guidance kwargs;
     revenue_growth_rate := get_or (kw_revenue_growth_rate kwargs) (lit 0.03);
     terminal_growth_rate := get_or (kw_terminal_growth_rate kwargs) (lit 0.02);
     avg_contract_duration := kw_avg_contract_duration kwargs;
     asset_beta := kw_asset_beta kwargs;
     dividend_per_share := get_or (kw_dividend_per_share kwargs) (lit 0.0);
     net_debt := fsub total_debt cash |}.

(** The default of the parameter [sector]. *)
Definition quick_valuation_default_sector : string := "infrastructure".

Definition quick_valuation {N : Number} {L : Library N} (company_name : string)
    (ebitda_ttm revenues_ttm total_debt cash market_cap shares_outstanding
       current_price : num)
    (sector : string) (kwargs : QuickKwargs) : result ValuationResult :=
  let* financials :=
    __post_init__
      (quick_financials company_name ebitda_ttm revenues_ttm total_debt cash
         market_cap shares_outstanding current_price sector kwargs) in
  let dcf := new_engine financials in
  let* (result, _) := calculate_valuation 10 None dcf in
  Ok result.

(** No keyword argument at all. *)
Definition no_kwargs : @QuickKwargs float_number :=
  {| kw_capex := None; kw_total_assets := None; kw_total_equity := None;
     kw_operating_cash_flow := None; kw_risk_free_rate := None;
     kw_market_risk_premium := None; kw_effective_tax_rate := None;
     kw_maintenance_capex_guidance := None; kw_revenue_growth_rate := None;
     kw_terminal_growth_rate := None; kw_avg_contract_duration := None;
     kw_asset_beta := None; kw_dividend_per_share := None |}.

(** Only [capex], with two entries. *)
Definition short_capex_kwargs : @QuickKwargs float_number :=
  {| kw_capex := Some [300; 300]%float;
     kw_total_assets := None; kw_total_equity := None;
     kw_operating_cash_flow := None; kw_risk_free_rate := None;
     kw_market_risk_premium := None; kw_effective_tax_rate := None;
     kw_maintenance_capex_guidance := None; kw_revenue_growth_rate := None;
     kw_terminal_growth_rate := None; kw_avg_contract_duration := None;
     kw_asset_beta := None; kw_dividend_per_share := None |}.


(** A record with the tower fingerprint under a label that matches no key
    (EBITDA margin 0.6, asset intensity 5, leverage 5), for a given first
    revenue. *)
Definition tower_shaped_record (first_revenue : float)
  : @CompanyFinancials float_number :=
  {| company_name := "Test";
     sector := "infrastructure";
     revenues := [first_revenue; 1000; 1000]%float;
     ebitda := [600; 600; 600]%float;
     depreciation := [100; 100; 100]%float;
     interest_expense := [50; 50; 50]%float;
     capex := [300; 300; 300]%float;
     operating_cash_flow := None;
     total_debt := 3000%float;
     cash := 100%float;
     total_assets := 5000%float;
     total_equity := 0%float;
     market_cap := 5000%float;
     shares_outstanding := 100%float;
     current_price := 0%float;
     risk_free_rate := float_lit 0.025;
     market_risk_premium := float_lit 0.06;
     effective_tax_rate := float_lit 0.25;
     maintenance_capex_guidance := None;
     revenue_growth_rate := float_lit 0.03;
     terminal_growth_rate := float_lit 0.02;
     avg_contract_duration := None;
     asset_beta := None;
     dividend_per_share := 0%float;
     net_debt := 2900%float |}.

(** The test record with [market_cap] left to its default, [0.0], as
    [__post_init__] returns it. *)
Definition no_equity_record : @CompanyFinancials float_number :=
  {| company_name := "Test";
     sector := "towers";
     revenues := [1000; 1000; 1000]%float;
     ebitda := [500; 500; 500]%float;
     depreciation := [100; 100; 100]%float;
     interest_expense := [50; 50; 50]%float;
     capex := [300; 300; 300]%float;
     operating_cash_flow := None;
     total_debt := 2000%float;
     cash := 100%float;
     total_assets := 0%float;
     total_equity := 0%float;
     market_cap := 0%float;
     shares_outstanding := 100%float;
     current_price := 0%float;
     risk_free_rate := float_lit 0.025;
     market_risk_premium := float_lit 0.06;
     effective_tax_rate := float_lit 0.25;
     maintenance_capex_guidance := None;
     revenue_growth_rate := float_lit 0.03;
     terminal_growth_rate := float_lit 0.02;
     avg_contract_duration := None;
     asset_beta := None;
     dividend_per_share := 0%float;
     net_debt := 1900%float |}.

(** * Properties *)

(** ** Reasoning about results *)

Lemma bind_Ok {A B : Type} (c : result A) (k : A -> result B) (b : B) :
  bind c k = Ok b -> exists a, c = Ok a /\ k a = Ok b.
Proof.
  destruct c as [a|e]; simpl; intros H; [exists a; auto | discriminate].
Qed.

Lemma Ok_inj {A : Type} (a b : A) : Ok a = Ok b -> a = b.
Proof.
  intros E.
  exact (f_equal (fun r => match r with Ok x => x | Raise _ => a end) E).
Qed.

(** Splits a hypothesis [bind c k = Ok b] into the two steps it records. *)
Ltac bind_inv H :=
  let a := fresh "a" in
  let Ha := fresh "H" a in
  apply bind_Ok in H; destruct H as [a [Ha H]].

(** Two floats that [==] tells apart are different (the first is not NaN). *)
Lemma float_neq (x y : float) :
  PrimFloat.eqb x x = true -> PrimFloat.eqb x y = false -> x <> y.
Proof. intros Hxx Hxy E. subst y. congruence. Qed.

Lemma nodup_single (l : list nat) :
  length (nodup Nat.eq_dec l) <= 1 ->
  forall x y, In x l -> In y l -> x = y.
Proof.
  intros Hn x y Hx Hy.
  apply (nodup_In Nat.eq_dec) in Hx, Hy.
  destruct (nodup Nat.eq_dec l) as [|u [|v t]]; simpl in *.
  - tauto.
  - destruct Hx as [Hx|[]], Hy as [Hy|[]]; congruence.
  - lia.
Qed.

Section Construction.

Context {N : Number}.

Lemma validate_data_lengths (self : CompanyFinancials) :
  _validate_data self = Ok tt ->
  length (ebitda self) = length (revenues self) /\
  length (depreciation self) = length (revenues self) /\
  length (capex self) = length (revenues self) /\
  length (interest_expense self) = length (revenues self) /\
  3 <= length (revenues self).
Proof.
  unfold _validate_data.
  set (a := length (revenues self)). set (b := length (ebitda self)).
  set (c := length (depreciation self)). set (d := length (capex self)).
  set (e := length (interest_expense self)).
  destruct (1 <? length (nodup Nat.eq_dec [a; b; c; d; e])) eqn:Hn;
    [discriminate|].
  destruct (a <? 3) eqn:H3; [discriminate|]. intros _.
  apply Nat.ltb_ge in Hn, H3.
  pose proof (nodup_single [a; b; c; d; e] Hn) as Hall.
  assert (b = a) by (apply Hall; simpl; auto).
  assert (c = a) by (apply Hall; simpl; auto).
  assert (d = a) by (apply Hall; simpl; auto 10).
  assert (e = a) by (apply Hall; simpl; auto 10).
  repeat split; lia.
Qed.

Lemma post_init_inv (d r : CompanyFinancials) :
  __post_init__ d = Ok r ->
  r = set_net_debt (fsub (total_debt d) (cash d)) d /\ _validate_data r = Ok tt.
Proof.
  unfold __post_init__. intros H. bind_inv H. inversion H; subst.
  destruct a. auto.
Qed.

(** C1 (as amended).  A record that [__post_init__] accepts holds
    [net_debt = total_debt - cash]; the field is computed there once and is an
    ordinary stored attribute afterwards: assigning [total_debt] or [cash]
    leaves it as it was. *)
Theorem net_debt_set_at_construction (d r : CompanyFinancials) :
  __post_init__ d = Ok r ->
  net_debt r = fsub (total_debt r) (cash r) /\
  forall v : num,
    net_debt (set_total_debt v r) = net_debt r /\
    net_debt (set_cash v r) = net_debt r.
Proof.
  intros H. apply post_init_inv in H. destruct H as [-> _].
  split; [reflexivity | intros v; split; reflexivity].
Qed.

End Construction.

Lemma net_debt_set_at_construction_witness :
  __post_init__ test_record = Ok (set_net_debt 1900%float test_record) /\
  net_debt (set_net_debt 1900%float test_record) = 1900%float.
Proof.
  assert (H : __post_init__ test_record = Ok (set_net_debt 1900%float test_record))
    by reflexivity.
  split; [exact H|].
  destruct (net_debt_set_at_construction test_record H) as [Hn _].
  rewrite Hn. reflexivity.
Defined.

(** C1 as stated fails: after [total_debt] is assigned on a constructed
    record, [net_debt] keeps its old value (1900) while
    [total_debt - cash] is 2900. *)
Lemma net_debt_stale_after_assignment :
  ~ (forall (d r : @CompanyFinancials float_number) (v : float),
        __post_init__ d = Ok r ->
        net_debt (set_total_debt v r) =
        fsub (total_debt (set_total_debt v r)) (cash (set_total_debt v r))).
Proof.
  intros H.
  specialize (H test_record (set_net_debt 1900%float test_record) 3000%float
                eq_refl).
  revert H. apply float_neq; reflexivity.
Qed.

(** ** Classification *)

Lemma match_label_In (mapping : list (string * InfrastructureSector))
    (label : string) (e : InfrastructureSector) :
  match_label mapping label = Some e -> exists key, In (key, e) mapping.
Proof.
  induction mapping as [|[key e'] rest IH]; simpl; [discriminate|].
  destruct (contains key label).
  - intros H. inversion H; subst. exists key. auto.
  - intros H. destruct (IH H) as [k Hk]. exists k. auto.
Qed.

Lemma sector_mapping_not_other (label : string) (e : InfrastructureSector) :
  match_label sector_mapping label = Some e -> e <> OTHER.
Proof.
  intros H. apply match_label_In in H. destruct H as [key H].
  unfold sector_mapping in H. simpl in H.
  repeat (destruct H as [H|H]; [inversion H; discriminate|]).
  contradiction.
Qed.

Section Classification.

Context {N : Number} {L : Library N}.

Lemma set_sector_same (d : CompanyFinancials) : set_sector (sector d) d = d.
Proof. destruct d; reflexivity. Qed.

Lemma set_sector_twice (s t : string) (d : CompanyFinancials) :
  set_sector s (set_sector t d) = set_sector s d.
Proof. reflexivity. Qed.

Lemma classify_sector_inv (self self' : InfrastructureDCF) :
  _classify_sector self = Ok self' ->
  exists c, _analyze_business_model self = Ok c /\ classified self c self'.
Proof.
  unfold _classify_sector. intros H. bind_inv H. exists a. split; [exact Ha|].
  destruct (tower_fingerprint a) eqn:Ht.
  { inversion H; subst. now constructor. }
  destruct (reit_fingerprint a) eqn:Hr.
  { inversion H; subst. now constructor. }
  destruct (match_label sector_mapping (lower (sector (data self)))) eqn:Hm;
    inversion H; subst; now constructor.
Qed.

(** What classification leaves behind: a sector is cached, the cached
    validation is untouched, and of the record only [sector] can change;
    it changes to the canonical label exactly when the sector is not
    [OTHER]. *)
Lemma classified_frame (self self' : InfrastructureDCF) (c : Characteristics) :
  classified self c self' ->
  validation_results self' = validation_results self /\
  exists e, _sector_enum self' = Some e /\
    ((e <> OTHER /\ data self' = set_sector (sector_value e) (data self)) \/
     (e = OTHER /\ data self' = data self)).
Proof.
  intros H. destruct H as [Ht|Ht Hr|e Ht Hr Hm|Ht Hr Hm]; simpl;
    (split; [reflexivity|]).
  - exists TOWERS. split; [reflexivity|]. left. split; [discriminate|reflexivity].
  - exists REITS. split; [reflexivity|]. left. split; [discriminate|reflexivity].
  - exists e. split; [reflexivity|]. left.
    split; [eapply sector_mapping_not_other; eassumption | reflexivity].
  - exists OTHER. split; [reflexivity|]. right. split; reflexivity.
Qed.

Lemma ensure_classified_inv (self self' : InfrastructureDCF) :
  ensure_classified self = Ok self' ->
  (self' = self /\ exists e, _sector_enum self = Some e) \/
  (_sector_enum self = None /\ _classify_sector self = Ok self').
Proof.
  unfold ensure_classified. destruct (_sector_enum self) as [e|] eqn:He.
  - intros H. inversion H; subst. left. split; [reflexivity|]. now exists e.
  - intros H. right. split; [reflexivity|exact H].
Qed.

Lemma ensure_classified_cached (self : InfrastructureDCF) (e : InfrastructureSector) :
  _sector_enum self = Some e -> ensure_classified self = Ok self.
Proof. unfold ensure_classified. now intros ->. Qed.

Lemma should_use_forward_fcf_state (h : list num) (self self' : InfrastructureDCF)
    (u : bool) (f : list string) :
  _should_use_forward_fcf h self = Ok (u, f, self') ->
  ensure_classified self = Ok self'.
Proof.
  unfold _should_use_forward_fcf. intros H. bind_inv H.
  bind_inv H. bind_inv H. bind_inv H. inversion H; subst. exact Ha.
Qed.

(** The state [validate_and_classify] leaves, in terms of the classification
    it performs. *)
Lemma validate_and_classify_inv (self self' : InfrastructureDCF) (b : bool)
    (errs : list string) :
  validate_and_classify self = Ok (b, errs, self') ->
  b = true /\ errs = [] /\
  exists c cl e u f,
    _analyze_business_model self = Ok c /\ classified self c cl /\
    _sector_enum cl = Some e /\
    data self' = data cl /\ _sector_enum self' = Some e /\
    validation_results self' =
      Some {| vr_use_forward_fcf := u;
              vr_flags := f;
              vr_sector := sector_value e;
              vr_sector_override :=
                negb (String.eqb (sector (data self)) (sector (data cl)));
              vr_original_sector := sector (data self) |}.
Proof.
  unfold validate_and_classify. intros H.
  bind_inv H. rename a into cl. bind_inv H. rename a into hist.
  bind_inv H. destruct a as [[u f] self2].
  apply should_use_forward_fcf_state in Ha1.
  apply classify_sector_inv in Ha. destruct Ha as [c [Hc Hcl]].
  destruct (classified_frame Hcl) as [_ [e [He _]]].
  rewrite (ensure_classified_cached _ He) in Ha1. inversion Ha1; subst self2.
  inversion H; subst. simpl. rewrite He.
  repeat split. exists c, cl, e, u, f. repeat split; auto.
Qed.

(** C3 (as amended).  After [validate_and_classify] the override flag is
    true exactly when the record's sector string was rewritten to something
    else.  When the sector assigned is not [OTHER] (a fingerprint or a label
    match) that is: exactly when its canonical label differs from the
    caller's string.  When nothing matches the sector is [OTHER], the
    record's string is left alone and the flag is false, whatever the
    caller's string was. *)
Theorem override_flag_characterised (self self' : InfrastructureDCF) (b : bool)
    (errs : list string) :
  validate_and_classify self = Ok (b, errs, self') ->
  exists v e,
    validation_results self' = Some v /\ _sector_enum self' = Some e /\
    vr_sector v = sector_value e /\
    vr_original_sector v = sector (data self) /\
    (vr_sector_override v = true <->
     sector (data self') <> sector (data self)) /\
    (e <> OTHER ->
     (vr_sector_override v = true <-> sector_value e <> sector (data self))) /\
    (e = OTHER -> vr_sector_override v = false).
Proof.
  intros H. apply validate_and_classify_inv in H.
  destruct H as [_ [_ [c [cl [e [u [f [Hc [Hcl [He [Hd [He' Hv]]]]]]]]]]]].
  eexists. exists e. split; [exact Hv|]. split; [exact He'|]. simpl.
  split; [reflexivity|]. split; [reflexivity|].
  assert (Hneg : forall s t : string,
             negb (String.eqb s t) = true <-> t <> s).
  { intros s t. rewrite negb_true_iff. split.
    - intros Hn E. subst t. rewrite String.eqb_refl in Hn. discriminate.
    - intros Hn. apply String.eqb_neq. congruence. }
  destruct (classified_frame Hcl) as [_ [e0 [He0 Hcase]]].
  rewrite He in He0. inversion He0; subst e0.
  rewrite Hd. split; [apply Hneg|].
  destruct Hcase as [[Hne Hdata]|[Heq Hdata]]; rewrite Hdata.
  - split; [intros _; simpl; apply Hneg | contradiction].
  - split; [contradiction|]. intros _. rewrite String.eqb_refl. reflexivity.
Qed.

End Classification.

Example infrastructure_record_constructed :
  __post_init__ (set_sector "infrastructure" test_record) =
  Ok infrastructure_record.
Proof. reflexivity. Qed.

(** The label ["infrastructure"] (the default of [quick_valuation]) matches
    no fingerprint and no key: the sector is [OTHER], reported as ["other"],
    and the override flag is false. *)
Example infrastructure_record_classification :
  match validate_and_classify (new_engine infrastructure_record) with
  | Ok (_, _, self') =>
      (_sector_enum self',
       option_map
         (fun v => (vr_sector v, vr_sector_override v, vr_original_sector v))
         (validation_results self'))
  | Raise _ => (None, None)
  end = (Some OTHER, Some ("other", false, "infrastructure"))%string.
Proof. vm_compute. reflexivity. Qed.

Lemma override_flag_characterised_witness :
  validate_and_classify (new_engine infrastructure_record) =
    Ok (true, [], infrastructure_engine) /\
  exists v e,
    validation_results infrastructure_engine = Some v /\
    _sector_enum infrastructure_engine = Some e /\
    vr_sector v = sector_value e /\
    (e = OTHER -> vr_sector_override v = false).
Proof.
  assert (H : validate_and_classify (new_engine infrastructure_record) =
              Ok (true, [], infrastructure_engine)) by reflexivity.
  split; [exact H|].
  destruct (@override_flag_characterised float_number float_library _ _ _ _ H)
    as [v [e [Hv [He [Hs [_ [_ [_ Hother]]]]]]]].
  exists v, e. auto.
Defined.

(** C3 as stated fails in the default case: for the label
    ["infrastructure"] the sector assigned is [OTHER], whose canonical label
    ["other"] differs from the caller's string, and the flag is false. *)
Lemma override_flag_false_for_other :
  ~ (forall (self self' : @InfrastructureDCF float_number) (b : bool)
            (errs : list string) (v : ValidationResults)
            (e : InfrastructureSector),
        validate_and_classify self = Ok (b, errs, self') ->
        validation_results self' = Some v ->
        _sector_enum self' = Some e ->
        (vr_sector_override v = true <->
         sector_value e <> sector (data self))).
Proof.
  intros H.
  pose proof infrastructure_record_classification as Hc.
  destruct (validate_and_classify (new_engine infrastructure_record))
    as [[[b errs] self']|] eqn:Hv; [|discriminate].
  destruct (validation_results self') as [v|] eqn:Hvr; [|discriminate].
  simpl in Hc. inversion Hc as [[He Hsec Hov Horig]].
  specialize (H _ _ _ _ v OTHER Hv Hvr He).
  rewrite Hov in H. destruct H as [_ H].
  assert (Hf : false = true) by (apply H; simpl; discriminate).
  discriminate.
Qed.

(** ** Cached state and the caller's record *)

Section Caching.

Context {N : Number} {L : Library N}.

Lemma sector_only_refl (d : CompanyFinancials) : sector_only d d.
Proof. unfold sector_only. now rewrite set_sector_same. Qed.

Lemma sector_only_trans (d1 d2 d3 : CompanyFinancials) :
  sector_only d1 d2 -> sector_only d2 d3 -> sector_only d1 d3.
Proof.
  unfold sector_only. intros H12 H23. rewrite H23 at 1. rewrite H12.
  reflexivity.
Qed.

Lemma classify_sector_frame (self self' : InfrastructureDCF) :
  _classify_sector self = Ok self' ->
  validation_results self' = validation_results self /\
  (exists e, _sector_enum self' = Some e) /\
  sector_only (data self) (data self').
Proof.
  intros H. apply classify_sector_inv in H. destruct H as [c [_ Hcl]].
  destruct (classified_frame Hcl) as [Hv [e [He Hd]]].
  split; [exact Hv|]. split; [now exists e|].
  destruct Hd as [[_ ->]|[_ ->]]; [reflexivity | apply sector_only_refl].
Qed.

Lemma ensure_classified_frame (self self' : InfrastructureDCF) :
  ensure_classified self = Ok self' ->
  validation_results self' = validation_results self /\
  (exists e, _sector_enum self' = Some e) /\
  sector_only (data self) (data self').
Proof.
  intros H. apply ensure_classified_inv in H.
  destruct H as [[-> He]|[_ H]].
  - split; [reflexivity|]. split; [exact He | apply sector_only_refl].
  - now apply classify_sector_frame.
Qed.

Lemma validate_and_classify_frame (self self' : InfrastructureDCF) (b : bool)
    (errs : list string) :
  validate_and_classify self = Ok (b, errs, self') ->
  b = true /\
  (exists v, validation_results self' = Some v) /\
  (exists e, _sector_enum self' = Some e) /\
  sector_only (data self) (data self').
Proof.
  intros H. apply validate_and_classify_inv in H.
  destruct H as [Hb [_ [c [cl [e [u [f [_ [Hcl [_ [Hd [He Hv]]]]]]]]]]]].
  split; [exact Hb|]. split; [eexists; exact Hv|]. split; [now exists e|].
  rewrite Hd. destruct (classified_frame Hcl) as [_ [e0 [_ Hc]]].
  destruct Hc as [[_ ->]|[_ ->]]; [reflexivity | apply sector_only_refl].
Qed.

Lemma forward_fcf_state (self self' : InfrastructureDCF) (f : scalar) :
  _calculate_forward_fcf self = Ok (f, self') ->
  ensure_classified self = Ok self'.
Proof.
  unfold _calculate_forward_fcf. intros H.
  bind_inv H. bind_inv H. bind_inv H. bind_inv H. bind_inv H.
  inversion H; subst. exact Ha.
Qed.

(** Once the sector is cached, the forward computation runs again to the
    same value on the state it left. *)
Lemma forward_fcf_rerun (self self' : InfrastructureDCF) (f : scalar) :
  _calculate_forward_fcf self = Ok (f, self') ->
  _calculate_forward_fcf self' = Ok (f, self').
Proof.
  intros H. pose proof (forward_fcf_state _ H) as Hs.
  destruct (ensure_classified_frame _ Hs) as [_ [[e He] _]].
  unfold _calculate_forward_fcf in *.
  rewrite Hs in H. rewrite (ensure_classified_cached _ He). exact H.
Qed.

Lemma ensure_validated_cached (self : InfrastructureDCF) (v : ValidationResults) :
  validation_results self = Some v -> ensure_validated self = Ok (v, self).
Proof. unfold ensure_validated. now intros ->. Qed.

Lemma ensure_validated_frame (self self' : InfrastructureDCF)
    (v : ValidationResults) :
  ensure_validated self = Ok (v, self') ->
  validation_results self' = Some v /\ sector_only (data self) (data self').
Proof.
  unfold ensure_validated.
  destruct (validation_results self) as [v0|] eqn:Hv.
  - intros H. inversion H; subst. split; [exact Hv | apply sector_only_refl].
  - intros H. bind_inv H. destruct a as [[b errs] s1].
    apply validate_and_classify_frame in Ha.
    destruct Ha as [_ [_ [_ Hd]]].
    destruct (validation_results s1) as [v1|] eqn:Hv1; [|discriminate].
    inversion H; subst. split; [exact Hv1 | exact Hd].
Qed.

Lemma normalized_fcf_rerun (self self' : InfrastructureDCF) (f : scalar)
    (m : string) :
  calculate_normalized_fcf self = Ok (f, m, self') ->
  (exists v, validation_results self' = Some v) /\
  sector_only (data self) (data self') /\
  calculate_normalized_fcf self' = Ok (f, m, self').
Proof.
  unfold calculate_normalized_fcf. intros H.
  bind_inv H. destruct a as [v s1].
  destruct (ensure_validated_frame _ Ha) as [Hv1 Hd1].
  destruct (vr_use_forward_fcf v) eqn:Hu.
  - bind_inv H. destruct a as [f0 s2]. inversion H; subst.
    pose proof (forward_fcf_state _ Ha0) as Hs.
    destruct (ensure_classified_frame _ Hs) as [Hv2 [_ Hd2]].
    rewrite Hv1 in Hv2.
    split; [now exists v|]. split; [eapply sector_only_trans; eassumption|].
    rewrite (ensure_validated_cached _ Hv2). simpl. rewrite Hu.
    rewrite (forward_fcf_rerun _ Ha0). reflexivity.
  - bind_inv H. inversion H; subst.
    split; [now exists v|]. split; [exact Hd1|].
    rewrite (ensure_validated_cached _ Hv1). simpl. rewrite Hu.
    rewrite Ha0. reflexivity.
Qed.

(** The first step of [calculate_valuation] and what follows it. *)
Lemma calculate_valuation_steps (h : Z) (c : option (list num))
    (self self' : InfrastructureDCF) (res : ValuationResult) :
  calculate_valuation h c self = Ok (res, self') ->
  exists s1 f m,
    ((validation_results self = None /\
      validate_and_classify self = Ok (true, [], s1)) \/
     (validation_results self <> None /\ s1 = self)) /\
    calculate_normalized_fcf s1 = Ok (f, m, self') /\
    normalized_fcf res = f /\
    result_company_name res = company_name (data self') /\
    exists v, validation_results self' = Some v /\
      forward_fcf_used res = vr_use_forward_fcf v /\
      flags res = vr_flags v /\
      result_sector res = vr_sector v /\
      sector_override res = vr_sector_override v /\
      original_sector res = vr_original_sector v.
Proof.
  unfold calculate_valuation. intros H.
  bind_inv H. rename a into s1. bind_inv H. destruct a as [[f m] s2].
  exists s1, f, m.
  assert (Hs1 : (validation_results self = None /\
                 validate_and_classify self = Ok (true, [], s1)) \/
                (validation_results self <> None /\ s1 = self)).
  { destruct (validation_results self) as [v|] eqn:Hv.
    - right. inversion Ha; subst. split; [discriminate|reflexivity].
    - left. split; [reflexivity|]. bind_inv Ha. destruct a as [[b errs] s].
      pose proof (validate_and_classify_inv _ Ha1) as [-> [-> _]].
      simpl in Ha. inversion Ha; subst. exact Ha1. }
  bind_inv H. bind_inv H. bind_inv H. bind_inv H. bind_inv H. bind_inv H.
  bind_inv H.
  destruct (validation_results s2) as [v|] eqn:Hv; [|discriminate].
  inversion H; subst. simpl.
  split; [exact Hs1|]. split; [exact Ha0|]. split; [reflexivity|].
  split; [reflexivity|]. exists v. repeat split; auto.
Qed.

End Caching.

Section CachingTheorems.

Context {N : Number} {L : Library N}.

Lemma normalized_fcf_cached_state (self self' : InfrastructureDCF) (f : scalar)
    (m : string) (v : ValidationResults) (e : InfrastructureSector) :
  validation_results self = Some v -> _sector_enum self = Some e ->
  calculate_normalized_fcf self = Ok (f, m, self') -> self' = self.
Proof.
  intros Hv He. unfold calculate_normalized_fcf.
  rewrite (ensure_validated_cached _ Hv). simpl.
  destruct (vr_use_forward_fcf v).
  - intros H. bind_inv H. destruct a as [f0 s]. inversion H; subst.
    apply forward_fcf_state in Ha.
    rewrite (ensure_classified_cached _ He) in Ha. now inversion Ha.
  - intros H. bind_inv H. now inversion H.
Qed.

(** C8.  A second call of [calculate_valuation] with the same arguments, on
    the engine as the first call left it, returns the same result and leaves
    the engine as it is: the cached classification and detection, and the
    sector string written into the record, do not change the outcome. *)
Theorem calculate_valuation_idempotent (h : Z) (c : option (list num))
    (self self' : InfrastructureDCF) (res : ValuationResult) :
  calculate_valuation h c self = Ok (res, self') ->
  calculate_valuation h c self' = Ok (res, self').
Proof.
  intros H. unfold calculate_valuation in H.
  bind_inv H. rename a into s1. bind_inv H. destruct a as [[f m] s2].
  assert (Hs : self' = s2).
  { pose proof H as H'.
    bind_inv H'. bind_inv H'. bind_inv H'. bind_inv H'. bind_inv H'.
    bind_inv H'. bind_inv H'.
    destruct (validation_results s2); [|discriminate].
    now inversion H'. }
  subst self'.
  destruct (normalized_fcf_rerun _ Ha0) as [[v Hv] [_ Hrerun]].
  unfold calculate_valuation.
  match goal with
  | |- bind ?step _ = _ =>
      replace step with (Ok s2) by (rewrite Hv; reflexivity)
  end.
  simpl. rewrite Hrerun. exact H.
Qed.

Lemma calculate_valuation_record_frame (h : Z) (c : option (list num))
    (self self' : InfrastructureDCF) (res : ValuationResult) :
  calculate_valuation h c self = Ok (res, self') ->
  sector_only (data self) (data self').
Proof.
  intros H. apply calculate_valuation_steps in H.
  destruct H as [s1 [f [m [Hs1 [Hn _]]]]].
  destruct (normalized_fcf_rerun _ Hn) as [_ [Hd _]].
  destruct Hs1 as [[_ Hv]|[_ ->]]; [|exact Hd].
  apply validate_and_classify_frame in Hv. destruct Hv as [_ [_ [_ Hd1]]].
  exact (sector_only_trans Hd1 Hd).
Qed.

(** C9.  After [calculate_valuation] the caller's record is the record it
    passed in up to the sector string.  On a fresh engine that string is the
    canonical label of the sector whenever a fingerprint or a key of the
    label dictionary matches, and is left as it was when nothing matches. *)
Theorem classification_writes_sector_only (h : Z) (c : option (list num))
    (self self' : InfrastructureDCF) (res : ValuationResult) :
  calculate_valuation h c self = Ok (res, self') ->
  data self' = set_sector (sector (data self')) (data self) /\
  (validation_results self = None ->
   forall ch, _analyze_business_model self = Ok ch ->
     (tower_fingerprint ch = true ->
      sector (data self') = sector_value TOWERS) /\
     (tower_fingerprint ch = false -> reit_fingerprint ch = true ->
      sector (data self') = sector_value REITS) /\
     (tower_fingerprint ch = false -> reit_fingerprint ch = false ->
      forall e,
        match_label sector_mapping (lower (sector (data self))) = Some e ->
        sector (data self') = sector_value e) /\
     (tower_fingerprint ch = false -> reit_fingerprint ch = false ->
      match_label sector_mapping (lower (sector (data self))) = None ->
      sector (data self') = sector (data self))).
Proof.
  intros H. split; [exact (calculate_valuation_record_frame _ _ _ H)|].
  apply calculate_valuation_steps in H.
  destruct H as [s1 [f [m [Hs1 [Hn _]]]]].
  - intros Hnone ch Hch.
    destruct Hs1 as [[_ Hv]|[Hsome _]]; [|contradiction].
    pose proof (validate_and_classify_inv _ Hv)
      as [_ [_ [c0 [cl [e [u [fl [Hc0 [Hcl [_ [Hdcl [He Hvr]]]]]]]]]]]].
    rewrite Hch in Hc0. inversion Hc0; subst c0.
    rewrite (normalized_fcf_cached_state _ Hvr He Hn), Hdcl.
    destruct Hcl as [Ht|Ht Hr|e' Ht Hr Hm|Ht Hr Hm];
      cbn [data assign_sector sector set_sector];
      repeat split; intros; congruence.
Qed.

End CachingTheorems.

Lemma calculate_valuation_idempotent_witness :
  exists res self',
    calculate_valuation 10 None (new_engine tower_label_record) =
      Ok (res, self') /\
    calculate_valuation 10 None self' = Ok (res, self').
Proof.
  assert (H : exists p,
             calculate_valuation 10 None (new_engine tower_label_record) = Ok p)
    by (vm_compute; eexists; reflexivity).
  destruct H as [[res self'] H]. exists res, self'.
  split; [exact H | exact (calculate_valuation_idempotent _ _ _ H)].
Defined.

Lemma classification_writes_sector_only_witness :
  exists res self',
    calculate_valuation 10 None (new_engine tower_label_record) =
      Ok (res, self') /\
    sector tower_label_record = "Towers"%string /\
    data self' = set_sector "towers" tower_label_record.
Proof.
  assert (H : exists p,
             calculate_valuation 10 None (new_engine tower_label_record) = Ok p)
    by (vm_compute; eexists; reflexivity).
  destruct H as [[res self'] H]. exists res, self'.
  split; [exact H|]. split; [reflexivity|].
  destruct (classification_writes_sector_only _ _ _ H) as [Hd Hs].
  assert (Hc : exists ch,
             _analyze_business_model (new_engine tower_label_record) = Ok ch /\
             tower_fingerprint ch = false /\ reit_fingerprint ch = false)
    by (vm_compute; eexists; repeat split; reflexivity).
  destruct Hc as [ch [Hch [Ht Hr]]].
  destruct (Hs eq_refl ch Hch) as [_ [_ [Hlabel _]]].
  rewrite (Hlabel Ht Hr TOWERS eq_refl) in Hd. exact Hd.
Defined.

(** ** Operating cash flow *)

Lemma zip_length {A B : Type} (xs : list A) (ys : list B) :
  length (zip xs ys) = Nat.min (length xs) (length ys).
Proof.
  revert ys. induction xs as [|x xs IH]; intros [|y ys]; simpl; auto.
Qed.

Lemma zip_nth_error {A B : Type} (xs : list A) (ys : list B) (i : nat)
    (x : A) (y : B) :
  nth_error xs i = Some x -> nth_error ys i = Some y ->
  nth_error (zip xs ys) i = Some (x, y).
Proof.
  revert ys i. induction xs as [|x0 xs IH]; intros [|y0 ys] [|i]; simpl;
    try discriminate.
  - intros Hx Hy. inversion Hx; inversion Hy; subst. reflexivity.
  - apply IH.
Qed.

Section OperatingCashFlow.

Context {N : Number} {L : Library N}.

(** C10.  [__post_init__] accepts a record whatever its
    [operating_cash_flow] is: the series is not among the validated ones.
    A non-empty series makes historical FCF the differences
    [operating_cash_flow[i] - capex[i]] over the indices both series have
    (as many as the shorter one); an empty list, like [None], falls back to
    the EBITDA-based approximation. *)
Theorem operating_cash_flow_not_validated (d r : CompanyFinancials)
    (ocf : option (list num)) (self : InfrastructureDCF) :
  __post_init__ d = Ok r ->
  data self = set_operating_cash_flow ocf r ->
  __post_init__ (set_operating_cash_flow ocf d) = Ok (data self) /\
  match ocf with
  | Some (x :: xs) =>
      exists fcf,
        _calculate_historical_fcf self = Ok fcf /\
        length fcf = Nat.min (length (x :: xs)) (length (capex r)) /\
        forall i o c,
          nth_error (x :: xs) i = Some o -> nth_error (capex r) i = Some c ->
          nth_error fcf i = Some (fsub o c)
  | _ =>
      _calculate_historical_fcf self =
      approximate_fcf (effective_tax_rate r) (ebitda r) (depreciation r)
        (capex r)
  end.
Proof.
  intros Hr Hself. apply post_init_inv in Hr. destruct Hr as [-> Hvalid].
  split.
  - rewrite Hself. unfold __post_init__.
    assert (Hv : _validate_data
                   (set_net_debt
                      (fsub (total_debt (set_operating_cash_flow ocf d))
                            (cash (set_operating_cash_flow ocf d)))
                      (set_operating_cash_flow ocf d)) = Ok tt)
      by exact Hvalid.
    rewrite Hv. reflexivity.
  - unfold _calculate_historical_fcf. rewrite Hself.
    destruct ocf as [[|x xs]|]; try reflexivity.
    cbn [operating_cash_flow set_operating_cash_flow supplied capex
         set_net_debt].
    eexists. split; [reflexivity|]. split.
    + rewrite length_map, zip_length. reflexivity.
    + intros i o c Ho Hc. rewrite nth_error_map.
      rewrite (zip_nth_error _ _ _ Ho Hc). reflexivity.
Qed.

End OperatingCashFlow.

Lemma operating_cash_flow_not_validated_witness :
  __post_init__ (set_operating_cash_flow (Some [450%float]) test_record) =
    Ok short_cash_flow_record /\
  _calculate_historical_fcf (new_engine short_cash_flow_record) =
    Ok [150%float].
Proof.
  destruct (@operating_cash_flow_not_validated float_number
              test_record (@set_net_debt float_number 1900%float test_record)
              (Some [450%float]) (new_engine short_cash_flow_record)
              eq_refl eq_refl) as [Hc _].
  split; [exact Hc | reflexivity].
Defined.

(** ** Projection under a custom growth schedule *)

Section Projection.

Context {N : Number} {L : Library N}.

Lemma sector_only_terminal_growth (d d' : CompanyFinancials) :
  sector_only d d' -> terminal_growth_rate d' = terminal_growth_rate d.
Proof. unfold sector_only. intros ->. reflexivity. Qed.

(** The schedule the loop reads agrees with [scheduled_rate] on every year
    of the horizon. *)
Lemma extend_rates_nth (schedule : list num) (g : num) (h : Z) (i : nat) :
  i < Z.to_nat h ->
  nth_error (extend_rates schedule g h) i = Some (scheduled_rate schedule g i).
Proof.
  intros Hi. unfold extend_rates, scheduled_rate.
  destruct (Z.of_nat (length schedule) <? h)%Z eqn:Hlen.
  - apply Z.ltb_lt in Hlen.
    destruct (Nat.lt_ge_cases i (length schedule)) as [Hlt|Hge].
    + rewrite nth_error_app1 by exact Hlt.
      apply nth_error_nth'. exact Hlt.
    + rewrite nth_error_app2 by exact Hge.
      rewrite nth_overflow by exact Hge.
      rewrite nth_error_repeat; [reflexivity|lia].
  - apply Z.ltb_ge in Hlen. unfold slice_to.
    destruct (h <? 0)%Z eqn:Hneg; [apply Z.ltb_lt in Hneg; lia|].
    rewrite nth_error_firstn.
    destruct (i <? Z.to_nat h) eqn:Hlt; [|apply Nat.ltb_ge in Hlt; lia].
    apply nth_error_nth'. lia.
Qed.

(** The loop over [range(a + 1, a + n + 1)] compounds the rates of the years
    [a, ..., a + n - 1]. *)
Lemma project_compound (schedule : list num) (high g : num) (h : Z)
    (n a : nat) (base : scalar) :
  a + n <= Z.to_nat h ->
  project (growth_of_year (Some (extend_rates schedule g h)) high g h)
          (map Z.of_nat (seq (S a) n)) base =
  Ok (compound base (map (scheduled_rate schedule g) (seq a n))).
Proof.
  revert a base. induction n as [|n IH]; intros a base Hn; [reflexivity|].
  cbn [seq map project growth_of_year].
  replace (Z.to_nat (Z.of_nat (S a) - 1)) with a by lia.
  rewrite extend_rates_nth by lia. cbn [bind].
  rewrite IH by lia. reflexivity.
Qed.

(** C7.  Under a supplied growth schedule the projected FCFs compound from
    the normalized base with, for each year of the horizon, the schedule's
    entry for that year while there is one and the terminal growth rate
    after it; entries beyond the horizon are not read. *)
Theorem custom_schedule_projection (h : Z) (schedule : list num)
    (self self' : InfrastructureDCF) (res : ValuationResult) :
  calculate_valuation h (Some schedule) self = Ok (res, self') ->
  projected_fcf res =
  compound (normalized_fcf res)
    (map (scheduled_rate schedule (terminal_growth_rate (data self)))
         (seq 0 (Z.to_nat h))).
Proof.
  intros H.
  assert (Hg : terminal_growth_rate (data self') =
               terminal_growth_rate (data self)).
  { apply sector_only_terminal_growth.
    exact (calculate_valuation_record_frame _ _ _ H). }
  unfold calculate_valuation in H.
  bind_inv H. rename a into s1. bind_inv H. destruct a as [[f m] s2].
  bind_inv H. rename a into w. bind_inv H. rename a into projected.
  cbn [option_map] in Ha2. unfold years_of in Ha2.
  rewrite project_compound in Ha2 by lia. inversion Ha2; subst projected.
  bind_inv H. bind_inv H. bind_inv H. bind_inv H. bind_inv H.
  destruct (validation_results s2); [|discriminate].
  inversion H; subst. cbn [projected_fcf normalized_fcf].
  cbn [data] in Hg. rewrite Hg. reflexivity.
Qed.

End Projection.

Lemma custom_schedule_projection_witness :
  exists res self',
    calculate_valuation 4 (Some [float_lit 0.08; float_lit 0.10])
      (new_engine tower_label_record) = Ok (res, self') /\
    projected_fcf res =
    compound (normalized_fcf res)
      [float_lit 0.08; float_lit 0.10; float_lit 0.02; float_lit 0.02].
Proof.
  assert (H : exists p,
             calculate_valuation 4 (Some [float_lit 0.08; float_lit 0.10])
               (new_engine tower_label_record) = Ok p)
    by (vm_compute; eexists; reflexivity).
  destruct H as [[res self'] H]. exists res, self'.
  split; [exact H | exact (custom_schedule_projection _ _ _ H)].
Defined.

(** ** Forward normalized FCF *)

(** On binary64, subtracting zero changes nothing, signed zeros, infinities
    and NaN included. *)
Lemma float_sub_zero (x : float) : PrimFloat.sub x PrimFloat.zero = x.
Proof.
  apply Prim2SF_inj. rewrite sub_spec.
  change (Prim2SF PrimFloat.zero) with (S754_zero false).
  destruct (Prim2SF x) as [s|s| |s m e]; try reflexivity.
  destruct s; reflexivity.
Qed.

Lemma last_item_Ok {A : Type} (xs : list A) :
  1 <= length xs -> exists x, last_item xs = Ok x.
Proof.
  induction xs as [|x xs IH]; simpl; [lia|]. intros _.
  destruct xs as [|y ys]; [now exists x|]. apply IH. simpl. lia.
Qed.

Section ForwardFCF.

Context {N : Number} {L : Library N}.

Lemma value_scalar_op (op : num -> num -> num) (a b : scalar) :
  value (scalar_op op a b) = op (value a) (value b).
Proof. unfold scalar_op. destruct (is_numpy a || is_numpy b); reflexivity. Qed.

Lemma sector_in_In (e : InfrastructureSector) (l : list InfrastructureSector) :
  In e l -> sector_in (Some e) l = true.
Proof.
  intros H. simpl. apply existsb_exists. exists e. split; [exact H|].
  destruct e; reflexivity.
Qed.

(** C5.  On the forward path, with maintenance-capex guidance [M] and a
    zero-working-capital sector, the normalized FCF of a validated record is
    [base - M - tax], where [base] is the latest EBITDA unless the
    coefficient of variation of the last three EBITDA values exceeds 0.15,
    when it is their mean, and [tax] is the effective rate applied to
    [base - D&A] when that is positive and 0 otherwise.  The arithmetic is
    asked one thing only: subtracting the literal [0.0] (the working-capital
    change) changes nothing. *)
Theorem forward_fcf_with_guidance (self : InfrastructureDCF)
    (v : ValidationResults) (e : InfrastructureSector) (M : num) :
  (forall x : num, fsub x (lit 0.0) = x) ->
  _validate_data (data self) = Ok tt ->
  validation_results self = Some v -> vr_use_forward_fcf v = true ->
  _sector_enum self = Some e -> In e zero_wc_sectors ->
  maintenance_capex_guidance (data self) = Some M ->
  exists latest da fcf,
    last_item (ebitda (data self)) = Ok latest /\
    last_item (depreciation (data self)) = Ok da /\
    calculate_normalized_fcf self =
      Ok (fcf, "forward_ebitda_based"%string, self) /\
    let recent := last_n 3 (ebitda (data self)) in
    let cv := guarded_ratio (np_std recent) (np_mean recent) in
    let base := if fgt cv (lit 0.15) then np_mean recent else latest in
    let ebit := fsub base da in
    let tax :=
      if fgt ebit (of_int 0)
      then fmul ebit (effective_tax_rate (data self))
      else of_int 0 in
    value fcf = fsub (fsub base M) tax.
Proof.
  intros Hzero Hvalid Hv Hu He Hin HM.
  destruct (validate_data_lengths _ Hvalid) as [Heb [Hdep [_ [_ H3]]]].
  destruct (@last_item_Ok _ (ebitda (data self))) as [latest Hlatest]; [lia|].
  destruct (@last_item_Ok _ (depreciation (data self))) as [da Hda]; [lia|].
  exists latest, da.
  unfold calculate_normalized_fcf.
  rewrite (ensure_validated_cached _ Hv). cbn [bind]. rewrite Hu.
  unfold _calculate_forward_fcf.
  rewrite (ensure_classified_cached _ He). cbn [bind].
  unfold _get_ebitda_baseline. rewrite Hlatest. cbn [bind].
  replace (3 <=? length (ebitda (data self))) with true
    by (symmetry; apply Nat.leb_le; lia).
  unfold _estimate_maintenance_capex. rewrite HM.
  unfold _estimate_wc_change. rewrite He, (sector_in_In _ _ Hin).
  rewrite Hda.
  destruct (fgt (guarded_ratio (np_std (last_n 3 (ebitda (data self))))
                               (np_mean (last_n 3 (ebitda (data self)))))
                (lit 0.15));
    cbn [bind value ssub scalar_op is_numpy orb];
    match goal with
    | |- context [if ?b then smul _ _ else _] => destruct b
    end;
    eexists; (split; [reflexivity|]); (split; [reflexivity|]);
    (split; [reflexivity|]);
    cbn [value ssub smul scalar_op is_numpy orb]; rewrite Hzero; reflexivity.
Qed.

End ForwardFCF.

Lemma forward_fcf_with_guidance_witness :
  exists fcf,
    calculate_normalized_fcf guided_engine =
      Ok (fcf, "forward_ebitda_based"%string, guided_engine) /\
    value fcf = 340%float.
Proof.
  destruct (@forward_fcf_with_guidance float_number float_library
              guided_engine _ TOWERS 60%float float_sub_zero
              eq_refl eq_refl eq_refl eq_refl (or_introl eq_refl) eq_refl)
    as [latest [da [fcf [Hlatest [Hda [Hrun Hvalue]]]]]].
  exists fcf. split; [exact Hrun|].
  inversion Hlatest; subst latest. inversion Hda; subst da.
  rewrite Hvalue. reflexivity.
Defined.

(** [guided_engine] is the state the engine reaches by itself. *)
Example guided_engine_reached :
  __post_init__ guided_record = Ok guided_record /\
  validate_and_classify (new_engine guided_record) =
  Ok (true, [], guided_engine).
Proof. split; vm_compute; reflexivity. Qed.

(** ** Ratios and zero denominators *)

Lemma np_divide_nth_error {N : Number} (a b ratios : list num) (i : nat)
    (x y : num) :
  np_divide a b = Ok ratios ->
  nth_error a i = Some x -> nth_error b i = Some y ->
  nth_error ratios i = Some (fdiv x y).
Proof.
  unfold np_divide. destruct (length a =? length b); [|discriminate].
  intros H Hx Hy. inversion H; subst.
  rewrite nth_error_map, (zip_nth_error _ _ _ Hx Hy). reflexivity.
Qed.

Lemma np_divide_length {N : Number} (a b ratios : list num) :
  np_divide a b = Ok ratios ->
  length a = length b /\ length ratios = length b.
Proof.
  unfold np_divide. destruct (length a =? length b) eqn:Hlen; [|discriminate].
  apply Nat.eqb_eq in Hlen. intros H. inversion H; subst.
  rewrite length_map, zip_length. lia.
Qed.

Lemma np_diff_nth_error {N : Number} (a : list num) (i : nat)
    (previous current : num) :
  nth_error a i = Some previous -> nth_error a (S i) = Some current ->
  nth_error (np_diff a) i = Some (fsub current previous).
Proof.
  revert i. induction a as [|x [|y tl] IH]; intros i Hp Hc.
  - destruct i; discriminate.
  - destruct i as [|[|i]]; discriminate.
  - change (np_diff (x :: y :: tl)) with (fsub y x :: np_diff (y :: tl)).
    destruct i as [|i].
    + cbn in Hp, Hc. inversion Hp; inversion Hc; subst. reflexivity.
    + cbn [nth_error]. apply IH; assumption.
Qed.

Lemma removelast_nth_error {A : Type} (a : list A) (i : nat)
    (previous current : A) :
  nth_error a i = Some previous -> nth_error a (S i) = Some current ->
  nth_error (removelast a) i = Some previous.
Proof.
  revert i. induction a as [|x [|y tl] IH]; intros i Hp Hc.
  - destruct i; discriminate.
  - destruct i as [|[|i]]; discriminate.
  - change (removelast (x :: y :: tl)) with (x :: removelast (y :: tl)).
    destruct i as [|i]; [exact Hp|].
    cbn [nth_error]. apply IH; assumption.
Qed.

Lemma length_removelast {A : Type} (a : list A) :
  length (removelast a) = length a - 1.
Proof.
  induction a as [|x [|y tl] IH]; [reflexivity|reflexivity|].
  change (removelast (x :: y :: tl)) with (x :: removelast (y :: tl)).
  cbn [length] in *. lia.
Qed.

Lemma In_append_if (b : bool) (name x : string) (l : list string) :
  In x (append_if b name l) <-> In x l \/ (b = true /\ x = name).
Proof.
  destruct b; simpl.
  - rewrite in_app_iff. simpl. intuition.
  - intuition discriminate.
Qed.

Section Ratios.

Context {N : Number} {L : Library N}.

Lemma guarded_ratio_zero (a b : num) :
  fgt b (of_int 0) = false -> guarded_ratio a b = of_int 0.
Proof. unfold guarded_ratio. now intros ->. Qed.

(** The year-over-year growth ratios behind [revenue_volatility]. *)
Lemma revenue_volatility_unguarded (self : InfrastructureDCF) (v : num) :
  _calculate_revenue_volatility self = Ok v ->
  2 <= length (revenues (data self)) ->
  exists yoy_growth,
    v = np_std yoy_growth /\
    length yoy_growth = length (revenues (data self)) - 1 /\
    forall i previous current,
      nth_error (revenues (data self)) i = Some previous ->
      nth_error (revenues (data self)) (S i) = Some current ->
      nth_error yoy_growth i = Some (fdiv (fsub current previous) previous).
Proof.
  unfold _calculate_revenue_volatility. intros H Hlen.
  replace (length (revenues (data self)) <? 2) with false in H
    by (symmetry; apply Nat.ltb_ge; exact Hlen).
  bind_inv H. rename a into yoy_growth. inversion H; subst v.
  exists yoy_growth. split; [reflexivity|]. split.
  - destruct (np_divide_length _ _ Ha) as [_ ->]. apply length_removelast.
  - intros i previous current Hp Hc.
    apply (np_divide_nth_error _ _ _ Ha).
    + now apply np_diff_nth_error.
    + eapply removelast_nth_error; eassumption.
Qed.

(** The per-period ratios behind [high_growth_capex]. *)
Lemma capex_to_ebitda_unguarded (historical_fcf : list num)
    (self s : InfrastructureDCF) (use_forward : bool) (flags : list string) :
  _should_use_forward_fcf historical_fcf self = Ok (use_forward, flags, s) ->
  exists capex_to_ebitda,
    np_divide (capex (data self)) (ebitda (data self)) = Ok capex_to_ebitda /\
    (In "high_growth_capex"%string flags <->
     window_rule (fun ratio => fgt ratio (lit 1.0)) capex_to_ebitda = true).
Proof.
  intros H. pose proof (should_use_forward_fcf_state _ _ H) as Hs.
  destruct (ensure_classified_frame _ Hs) as [_ [_ Hd]].
  unfold _should_use_forward_fcf in H. rewrite Hs in H. cbn [bind] in H.
  bind_inv H. rename a into capex_to_ebitda. bind_inv H. bind_inv H.
  exists capex_to_ebitda. split.
  { rewrite <- Ha. unfold sector_only in Hd. rewrite Hd. reflexivity. }
  destruct (5 <=? length (capex (data s))); inversion H; subst flags;
    rewrite !In_append_if; simpl;
    destruct (window_rule (fun ratio => fgt ratio (lit 1.0)) capex_to_ebitda);
    intuition discriminate.
Qed.

(** C4 (as amended).  The four scalar ratios of the classifier are guarded:
    EBITDA margin and asset intensity are 0 when the latest revenue is not
    positive, leverage is 0 when the latest EBITDA is not positive, capex
    intensity is 0 when the mean of the last three revenues is not positive.
    The two element-wise divisions are not: [revenue_volatility] is the
    deviation of the quotients [(current - previous) / previous] of
    consecutive revenues, and [high_growth_capex] is raised on the quotients
    [capex / ebitda] of each period, both as the arithmetic gives them,
    whatever the divisor is. *)
Theorem classifier_ratios_guarded (self s : InfrastructureDCF)
    (c : Characteristics) (historical_fcf : list num) (use_forward : bool)
    (flags : list string) :
  _analyze_business_model self = Ok c ->
  _should_use_forward_fcf historical_fcf self = Ok (use_forward, flags, s) ->
  exists latest_revenue latest_ebitda capex_to_ebitda,
    last_item (revenues (data self)) = Ok latest_revenue /\
    last_item (ebitda (data self)) = Ok latest_ebitda /\
    (fgt latest_revenue (of_int 0) = false ->
     ebitda_margin c = of_int 0 /\ asset_intensity c = of_int 0) /\
    (fgt latest_ebitda (of_int 0) = false -> leverage c = of_int 0) /\
    (fgt (np_mean (last_n 3 (revenues (data self)))) (of_int 0) = false ->
     capex_intensity c = of_int 0) /\
    (2 <= length (revenues (data self)) ->
     exists yoy_growth,
       revenue_volatility c = np_std yoy_growth /\
       length yoy_growth = length (revenues (data self)) - 1 /\
       forall i previous current,
         nth_error (revenues (data self)) i = Some previous ->
         nth_error (revenues (data self)) (S i) = Some current ->
         nth_error yoy_growth i =
           Some (fdiv (fsub current previous) previous)) /\
    length capex_to_ebitda = length (ebitda (data self)) /\
    (forall i cx eb,
        nth_error (capex (data self)) i = Some cx ->
        nth_error (ebitda (data self)) i = Some eb ->
        nth_error capex_to_ebitda i = Some (fdiv cx eb)) /\
    (In "high_growth_capex"%string flags <->
     window_rule (fun ratio => fgt ratio (lit 1.0)) capex_to_ebitda = true).
Proof.
  unfold _analyze_business_model. intros H Hdetect.
  bind_inv H. rename a into latest_ebitda.
  bind_inv H. rename a into latest_revenue.
  bind_inv H. rename a into volatility. inversion H; subst c. cbn.
  destruct (capex_to_ebitda_unguarded _ _ Hdetect)
    as [capex_to_ebitda [Hratios Hflag]].
  exists latest_revenue, latest_ebitda, capex_to_ebitda.
  split; [exact Ha0|]. split; [exact Ha|].
  split; [intros Hz; split; apply guarded_ratio_zero; exact Hz|].
  split; [apply guarded_ratio_zero|].
  split; [apply guarded_ratio_zero|].
  split; [now apply revenue_volatility_unguarded|].
  split; [exact (proj2 (np_divide_length _ _ Hratios))|].
  split; [|exact Hflag].
  intros i cx eb. now apply np_divide_nth_error.
Qed.

End Ratios.

Lemma classifier_ratios_guarded_witness :
  exists c flags s capex_to_ebitda,
    _analyze_business_model (new_engine zero_ebitda_record) = Ok c /\
    _should_use_forward_fcf [100; 100; 100]%float
      (new_engine zero_ebitda_record) = Ok (true, flags, s) /\
    leverage c = 0%float /\
    nth_error capex_to_ebitda 0 = Some infinity /\
    (In "high_growth_capex"%string flags <->
     window_rule (fun ratio => fgt ratio (lit 1.0)) capex_to_ebitda = true).
Proof.
  assert (H : exists c,
             _analyze_business_model (new_engine zero_ebitda_record) = Ok c)
    by (vm_compute; eexists; reflexivity).
  destruct H as [c H].
  assert (Hdetect : exists flags s,
             _should_use_forward_fcf [100; 100; 100]%float
               (new_engine zero_ebitda_record) = Ok (true, flags, s))
    by (vm_compute; do 2 eexists; reflexivity).
  destruct Hdetect as [flags [s Hdetect]].
  destruct (@classifier_ratios_guarded float_number float_library
              _ _ _ _ _ _ H Hdetect)
    as [latest_revenue [latest_ebitda [capex_to_ebitda
         [_ [Heb [_ [Hlev [_ [_ [_ [Hratio Hflag]]]]]]]]]]].
  exists c, flags, s, capex_to_ebitda.
  split; [exact H|]. split; [exact Hdetect|].
  inversion Heb; subst latest_ebitda.
  split; [exact (Hlev eq_refl)|].
  split; [exact (Hratio 0 300%float 0%float eq_refl eq_refl) | exact Hflag].
Defined.

(** C4 as stated fails for the detector: with every EBITDA entry 0 and capex
    300, each capex/EBITDA ratio is [+inf], not 0; it counts as a ratio above
    1.0, so [high_growth_capex] is raised and, with [contracted_revenues],
    switches the engine to the forward method. *)
Lemma detector_ratio_not_guarded :
  __post_init__ zero_ebitda_record = Ok zero_ebitda_record /\
  np_divide (capex zero_ebitda_record) (ebitda zero_ebitda_record) =
    Ok [infinity; infinity; infinity] /\
  PrimFloat.eqb infinity 0%float = false /\
  match validate_and_classify (new_engine zero_ebitda_record) with
  | Ok (_, _, self') =>
      option_map (fun v => (vr_use_forward_fcf v, vr_flags v))
        (validation_results self')
  | Raise _ => None
  end = Some (true, ["high_growth_capex"; "contracted_revenues"]%string).
Proof. repeat split; vm_compute; reflexivity. Qed.

(** The classifier's growth ratio has no guard either: a first revenue of 0
    makes the first ratio [+inf] and the volatility NaN, which fails the
    test [revenue_volatility < 0.15] of the tower fingerprint, and a record
    classified as a tower company on revenues of 1000 throughout falls to
    [OTHER]. *)
Example revenue_growth_ratio_not_guarded :
  __post_init__ (tower_shaped_record 0%float) =
    Ok (tower_shaped_record 0%float) /\
  option_map _sector_enum
    (match _classify_sector (new_engine (tower_shaped_record 1000%float)) with
     | Ok s => Some s
     | Raise _ => None
     end) = Some (Some TOWERS) /\
  match _analyze_business_model (new_engine (tower_shaped_record 0%float)) with
  | Ok c => PrimFloat.eqb (revenue_volatility c) (revenue_volatility c)
  | Raise _ => true
  end = false /\
  option_map _sector_enum
    (match _classify_sector (new_engine (tower_shaped_record 0%float)) with
     | Ok s => Some s
     | Raise _ => None
     end) = Some (Some OTHER).
Proof. repeat split; vm_compute; reflexivity. Qed.

(** ** Binary64 *)

(** What the WACC and the growth taper meet of the arithmetic, proved from
    the specification of binary64. *)

Lemma float_zero_shape (x : float) :
  PrimFloat.eqb x PrimFloat.zero = true ->
  exists s, Prim2SF x = S754_zero s.
Proof.
  rewrite FloatAxioms.eqb_spec.
  change (Prim2SF PrimFloat.zero) with (S754_zero false).
  destruct (Prim2SF x) as [s|s| |s m e]; cbn; try discriminate.
  - intros _. now exists s.
  - destruct s; discriminate.
  - destruct s; discriminate.
Qed.

Lemma float_finite_shape (x : float) :
  finite x = true ->
  (exists s, Prim2SF x = S754_zero s) \/
  (exists s m e, Prim2SF x = S754_finite s m e).
Proof.
  unfold finite. rewrite ltb_spec, abs_spec.
  change (Prim2SF PrimFloat.infinity) with (S754_infinity false).
  destruct (Prim2SF x) as [s|s| |s m e]; cbn; try discriminate.
  - intros _. left. now exists s.
  - intros _. right. now exists s, m, e.
Qed.

Lemma float_positive_shape (x : float) :
  PrimFloat.ltb PrimFloat.zero x = true -> finite x = true ->
  exists m e, Prim2SF x = S754_finite false m e.
Proof.
  intros Hpos Hfin. revert Hpos. rewrite ltb_spec.
  change (Prim2SF PrimFloat.zero) with (S754_zero false).
  destruct (float_finite_shape Hfin) as [[s ->]|[s [m [e ->]]]]; cbn;
    [discriminate|].
  destruct s; [discriminate|]. intros _. now exists m, e.
Qed.


Lemma float_div_self_shape (x : float) (s : bool) (m : positive) (e : Z) :
  Prim2SF x = S754_finite s m e -> PrimFloat.div x x = PrimFloat.one.
Proof.
  intros Hx.
  apply Prim2SF_inj. rewrite div_spec, Hx.
  unfold SF64div, SFdiv, SFdiv_core_binary.
  replace (Zdigits2 (Z.pos m) + e - (Zdigits2 (Z.pos m) + e))%Z with 0%Z by lia.
  replace (e - e)%Z with 0%Z by lia.
  change (Z.min (fexp prec emax 0) 0) with (-53)%Z.
  change (0 - -53)%Z with 53%Z. cbv iota.
  rewrite Z.shiftl_mul_pow2 by lia.
  assert (Hde : Z.div_eucl (Z.pos m * 2 ^ 53) (Z.pos m) = ((2 ^ 53)%Z, 0%Z)).
  { rewrite Z.mul_comm.
    pose proof (Z.div_mul (2 ^ 53) (Z.pos m) ltac:(lia)) as Hq.
    pose proof (Z.mod_mul (2 ^ 53) (Z.pos m) ltac:(lia)) as Hr.
    unfold Z.div, Z.modulo in Hq, Hr.
    destruct (Z.div_eucl (2 ^ 53 * Z.pos m) (Z.pos m)) as [q r].
    cbn [fst snd] in Hq, Hr. now subst. }
  rewrite Hde. unfold new_location.
  destruct s; destruct (Z.even (Z.pos m)); vm_compute; reflexivity.
Qed.

(** [x / x] is exactly [1.0] for a positive finite [x]: the quotient of the
    mantissas is a power of two, which rounding leaves alone. *)
Lemma float_div_self (x : float) :
  PrimFloat.ltb PrimFloat.zero x = true -> finite x = true ->
  PrimFloat.div x x = PrimFloat.one.
Proof.
  intros Hpos Hfin.
  destruct (float_positive_shape Hpos Hfin) as [m [e Hx]].
  eapply float_div_self_shape; exact Hx.
Qed.

(** A zero over a positive finite float is a zero. *)
Lemma float_zero_div (z x : float) :
  PrimFloat.eqb z PrimFloat.zero = true ->
  PrimFloat.ltb PrimFloat.zero x = true -> finite x = true ->
  PrimFloat.eqb (PrimFloat.div z x) PrimFloat.zero = true.
Proof.
  intros Hz Hpos Hfin.
  destruct (float_zero_shape Hz) as [s Hs].
  destruct (float_positive_shape Hpos Hfin) as [m [e Hx]].
  rewrite FloatAxioms.eqb_spec, div_spec, Hs, Hx. reflexivity.
Qed.


Lemma float_add_zero_l (z x : float) :
  PrimFloat.eqb z PrimFloat.zero = true ->
  PrimFloat.ltb PrimFloat.zero x = true ->
  PrimFloat.add z x = x.
Proof.
  intros Hz Hpos. destruct (float_zero_shape Hz) as [s Hs].
  apply Prim2SF_inj. rewrite add_spec, Hs.
  revert Hpos. rewrite ltb_spec.
  change (Prim2SF PrimFloat.zero) with (S754_zero false).
  destruct (Prim2SF x) as [sx|sx| |sx m e]; cbn; try discriminate;
    reflexivity.
Qed.

(** A zero times a finite float, on either side, is a zero. *)
Lemma float_zero_mul (z x : float) :
  PrimFloat.eqb z PrimFloat.zero = true -> finite x = true ->
  PrimFloat.eqb (PrimFloat.mul z x) PrimFloat.zero = true.
Proof.
  intros Hz Hx. destruct (float_zero_shape Hz) as [s Hs].
  rewrite FloatAxioms.eqb_spec, mul_spec, Hs.
  destruct (float_finite_shape Hx) as [[sx ->]|[sx [m [e ->]]]]; reflexivity.
Qed.

Lemma float_mul_zero (x z : float) :
  finite x = true -> PrimFloat.eqb z PrimFloat.zero = true ->
  PrimFloat.eqb (PrimFloat.mul x z) PrimFloat.zero = true.
Proof.
  intros Hx Hz. destruct (float_zero_shape Hz) as [s Hs].
  rewrite FloatAxioms.eqb_spec, mul_spec, Hs.
  destruct (float_finite_shape Hx) as [[sx ->]|[sx [m [e ->]]]]; reflexivity.
Qed.

(** Adding a zero, on either side, gives the same number. *)
Lemma float_add_zero_same (x z : float) :
  PrimFloat.eqb z PrimFloat.zero = true ->
  same_number (PrimFloat.add x z) x /\ same_number (PrimFloat.add z x) x.
Proof.
  intros Hz. destruct (float_zero_shape Hz) as [s Hs].
  assert (Hcases : (PrimFloat.add x z = x /\ PrimFloat.add z x = x) \/
                   (Prim2SF x = S754_zero true /\ s = false)).
  { destruct (Prim2SF x) as [sx|sx| |sx m e] eqn:Hx;
      try (left; split; apply Prim2SF_inj; rewrite add_spec, Hs, Hx;
           reflexivity).
    destruct sx, s;
      try (left; split; apply Prim2SF_inj; rewrite add_spec, Hs, Hx;
           reflexivity).
    right. split; reflexivity. }
  destruct Hcases as [[H1 H2]|[Hx ->]].
  - split; left; assumption.
  - assert (Hneg : x = PrimFloat.neg_zero)
      by (apply Prim2SF_inj; rewrite Hx; reflexivity).
    split; right; (split; [exact Hneg|]);
      apply Prim2SF_inj; rewrite add_spec, Hs, Hx; reflexivity.
Qed.

Lemma digits2_pos_iter_succ (n : nat) (d : positive) :
  (Z.pos (Nat.iter n Pos.succ d) = Z.pos d + Z.of_nat n)%Z.
Proof.
  induction n as [|n IH]; [simpl; lia|].
  rewrite Nat2Z.inj_succ. simpl Nat.iter. rewrite Pos2Z.inj_succ. lia.
Qed.

(** The product of the mantissa of [1.0] and a canonical mantissa is
    shifted back by 52 bits without a bit lost. *)
Lemma SF64mul_one_l (x : spec_float) :
  valid_binary x = true ->
  SF64mul (S754_finite false 4503599627370496 (-52)) x = x.
Proof.
  intros Hvalid.
  destruct x as [s|s| |s m e]; try reflexivity.
  cbn [valid_binary] in Hvalid. unfold bounded, canonical_mantissa in Hvalid.
  apply andb_prop in Hvalid. destruct Hvalid as [Hcanon Hbound].
  apply Z.eqb_eq in Hcanon. apply Z.leb_le in Hbound.
  unfold SF64mul, SFmul. cbn [xorb].
  change (Pos.mul 4503599627370496 m) with (Nat.iter 52 xO m).
  unfold binary_round_aux, shr_fexp.
  assert (Hd : Zdigits2 (Z.pos (Nat.iter 52 xO m)) =
               (Z.pos (digits2_pos m) + 52)%Z).
  { cbn [Nat.iter Zdigits2 digits2_pos].
    change (Z.pos (digits2_pos m) + 52)%Z
      with (Z.pos (digits2_pos m) + Z.of_nat 52)%Z.
    rewrite <- digits2_pos_iter_succ. reflexivity. }
  rewrite Hd.
  replace (Z.pos (digits2_pos m) + 52 + (-52 + e))%Z
    with (Z.pos (digits2_pos m) + e)%Z by lia.
  rewrite Hcanon.
  replace (e - (-52 + e))%Z with 52%Z by lia.
  cbn [shr shr_record_of_loc].
  match goal with
  | |- context [SpecFloat.iter_pos ?f ?n ?r] =>
      change (SpecFloat.iter_pos f n r)
        with {| shr_m := Z.pos m; shr_r := false; shr_s := false |}
  end.
  cbn [shr_m loc_of_shr_record round_nearest_even Zdigits2].
  replace (-52 + e + 52)%Z with e by lia.
  rewrite Hcanon, Z.sub_diag. cbn [shr shr_record_of_loc shr_m].
  change (emax - prec)%Z with 971%Z in *.
  apply Z.leb_le in Hbound. rewrite Hbound. reflexivity.
Qed.

Lemma SF64mul_one_r (x : spec_float) :
  valid_binary x = true ->
  SF64mul x (S754_finite false 4503599627370496 (-52)) = x.
Proof.
  intros Hvalid. rewrite <- (SF64mul_one_l x Hvalid) at 2.
  destruct x as [s|s| |s m e]; try (destruct s; reflexivity); try reflexivity.
  unfold SF64mul, SFmul.
  rewrite xorb_false_r, Pos.mul_comm, Z.add_comm. reflexivity.
Qed.

(** Multiplying by [1.0] changes nothing, whatever the float. *)
Lemma float_mul_one_l (c : float) : PrimFloat.mul PrimFloat.one c = c.
Proof.
  apply Prim2SF_inj. rewrite mul_spec.
  exact (SF64mul_one_l _ (Prim2SF_valid c)).
Qed.

Lemma float_mul_one_r (c : float) : PrimFloat.mul c PrimFloat.one = c.
Proof.
  apply Prim2SF_inj. rewrite mul_spec.
  exact (SF64mul_one_r _ (Prim2SF_valid c)).
Qed.

(** Rounding a canonical mantissa within range leaves it as it is. *)
Lemma binary_round_aux_canonical (s : bool) (m : positive) (e : Z) :
  fexp prec emax (Z.pos (digits2_pos m) + e) = e ->
  (e <= emax - prec)%Z ->
  binary_round_aux prec emax s (Z.pos m) e loc_Exact = S754_finite s m e.
Proof.
  intros Hcanon Hbound.
  unfold binary_round_aux, shr_fexp. cbn [Zdigits2].
  rewrite Hcanon, Z.sub_diag.
  cbn [shr shr_record_of_loc shr_m loc_of_shr_record round_nearest_even
       Zdigits2].
  rewrite Hcanon, Z.sub_diag. cbn [shr shr_record_of_loc shr_m].
  apply Z.leb_le in Hbound. rewrite Hbound. reflexivity.
Qed.

Lemma digits2_pos_lower (p : positive) :
  (2 ^ (Z.pos (digits2_pos p) - 1) <= Z.pos p)%Z.
Proof.
  induction p as [p IH|p IH|]; cbn [digits2_pos]; [| |simpl; lia];
    rewrite Pos2Z.inj_succ;
    replace (Z.succ (Z.pos (digits2_pos p)) - 1)%Z
      with (Z.succ (Z.pos (digits2_pos p) - 1)) by lia;
    rewrite Z.pow_succ_r by lia; lia.
Qed.

Lemma digits2_pos_shift (p k : positive) :
  (Z.pos (digits2_pos (Pos.iter xO p k)) = Z.pos (digits2_pos p) + Z.pos k)%Z.
Proof.
  induction k as [|k IH] using Pos.peano_ind.
  - cbn. lia.
  - rewrite Pos.iter_succ. cbn [digits2_pos]. lia.
Qed.

(** The float of a Python [int] from 1 to 2^53 - 1 is positive and
    finite. *)
Lemma float_of_Z_shape (h : Z) :
  (1 <= h < 2 ^ 53)%Z ->
  exists m e, Prim2SF (float_of_Z h) = S754_finite false m e.
Proof.
  intros [Hlo Hhi]. destruct h as [|p|p]; try lia.
  unfold float_of_Z. rewrite of_uint63_spec, Uint63.of_Z_spec.
  rewrite Z.mod_small
    by (split; [lia|];
        apply Z.lt_trans with (2 ^ 53)%Z; [exact Hhi|reflexivity]).
  cbn [binary_normalize]. unfold binary_round.
  assert (Hd : (Z.pos (digits2_pos p) <= 53)%Z).
  { pose proof (digits2_pos_lower p) as Hl.
    destruct (Z_le_gt_dec (Z.pos (digits2_pos p)) 53) as [|Hgt]; [assumption|].
    assert (2 ^ 53 <= 2 ^ (Z.pos (digits2_pos p) - 1))%Z
      by (apply Z.pow_le_mono_r; lia).
    lia. }
  assert (Hf : fexp prec emax (Z.pos (digits2_pos p) + 0) =
               (Z.pos (digits2_pos p) - 53)%Z).
  { unfold fexp, emin. change prec with 53%Z. change emax with 1024%Z. lia. }
  rewrite Hf. unfold shl_align.
  destruct (Z.pos (digits2_pos p) - 53 - 0)%Z as [|k|k] eqn:Hk; try lia.
  - exists p, 0%Z. apply binary_round_aux_canonical.
    + rewrite Hf. lia.
    + change (emax - prec)%Z with 971%Z. lia.
  - exists (Pos.iter xO p k), (Z.pos (digits2_pos p) - 53)%Z.
    apply binary_round_aux_canonical.
    + rewrite digits2_pos_shift. unfold fexp, emin.
      change prec with 53%Z. change emax with 1024%Z. lia.
    + change (emax - prec)%Z with 971%Z. lia.
Qed.

(** ** WACC under zero debt *)



(** The proviso on the market capitalisation is needed: an infinite one
    makes the equity weight [inf / inf], and the WACC NaN. *)
Example wacc_zero_debt_infinite_market_cap :
  calculate_wacc (new_engine (zero_debt_record infinity)) = Ok nan.
Proof. vm_compute. reflexivity. Qed.


(** ** Completion of the pipeline *)

Lemma np_diff_length {N : Number} (a : list num) :
  length (np_diff a) = length (removelast a).
Proof.
  induction a as [|x [|y tl] IH]; [reflexivity|reflexivity|].
  change (S (length (np_diff (y :: tl))) = S (length (removelast (y :: tl)))).
  now rewrite IH.
Qed.

Lemma approximate_fcf_Ok {N : Number} (tax_rate : num)
    (ebitda depreciation capex : list num) :
  length depreciation = length ebitda -> length capex = length ebitda ->
  exists fcf,
    approximate_fcf tax_rate ebitda depreciation capex = Ok fcf /\
    length fcf = length ebitda.
Proof.
  revert depreciation capex.
  induction ebitda as [|e eb IH]; intros [|d dep] [|c cap] Hd Hc;
    try discriminate.
  - exists []. split; reflexivity.
  - simpl in Hd, Hc.
    destruct (IH dep cap) as [rest [Hrest Hlen]]; [lia|lia|].
    cbn [approximate_fcf]. rewrite Hrest. cbn [bind].
    eexists. split; [reflexivity|]. simpl. now rewrite Hlen.
Qed.

Section Completion.

Context {N : Number} {L : Library N}.

Lemma revenue_volatility_Ok (self : InfrastructureDCF) :
  exists vol, _calculate_revenue_volatility self = Ok vol.
Proof.
  unfold _calculate_revenue_volatility.
  destruct (length (revenues (data self)) <? 2); [eexists; reflexivity|].
  unfold np_divide. rewrite np_diff_length, Nat.eqb_refl. cbn [bind].
  eexists. reflexivity.
Qed.

Lemma analyze_business_model_Ok (self : InfrastructureDCF) :
  _validate_data (data self) = Ok tt ->
  exists c, _analyze_business_model self = Ok c.
Proof.
  intros Hvalid.
  destruct (validate_data_lengths _ Hvalid) as [Heb [_ [_ [_ H3]]]].
  destruct (@last_item_Ok _ (ebitda (data self))) as [eb Hlast]; [lia|].
  destruct (@last_item_Ok _ (revenues (data self))) as [rev Hrev]; [lia|].
  destruct (revenue_volatility_Ok self) as [vol Hvol].
  unfold _analyze_business_model. rewrite Hlast, Hrev. cbn [bind].
  rewrite Hvol. cbn [bind]. eexists. reflexivity.
Qed.

Lemma classify_sector_Ok (self : InfrastructureDCF) :
  _validate_data (data self) = Ok tt ->
  exists self', _classify_sector self = Ok self'.
Proof.
  intros Hvalid. destruct (analyze_business_model_Ok _ Hvalid) as [c Hc].
  unfold _classify_sector. rewrite Hc. cbn [bind].
  destruct (tower_fingerprint c); [eexists; reflexivity|].
  destruct (reit_fingerprint c); [eexists; reflexivity|].
  destruct (match_label sector_mapping (lower (sector (data self))));
    eexists; reflexivity.
Qed.

Lemma sector_only_valid (d d' : CompanyFinancials) :
  sector_only d d' -> _validate_data d = Ok tt -> _validate_data d' = Ok tt.
Proof. unfold sector_only. intros -> H. exact H. Qed.

Lemma historical_fcf_Ok (self : InfrastructureDCF) :
  _validate_data (data self) = Ok tt ->
  exists fcf, _calculate_historical_fcf self = Ok fcf /\ 1 <= length fcf.
Proof.
  intros Hvalid.
  destruct (validate_data_lengths _ Hvalid) as [Heb [Hdep [Hcap [_ H3]]]].
  unfold _calculate_historical_fcf.
  destruct (supplied (operating_cash_flow (data self))) as [ocf|] eqn:Hocf.
  - eexists. split; [reflexivity|].
    rewrite length_map, zip_length.
    assert (1 <= length ocf).
    { unfold supplied in Hocf.
      destruct (operating_cash_flow (data self)) as [[|x xs]|];
        try discriminate.
      inversion Hocf; subst. simpl. lia. }
    lia.
  - destruct (approximate_fcf_Ok (effective_tax_rate (data self))
                (ebitda (data self)) (depreciation (data self))
                (capex (data self))) as [fcf [Hfcf Hlen]]; [lia|lia|].
    exists fcf. split; [exact Hfcf|lia].
Qed.

Lemma should_use_forward_fcf_Ok (historical_fcf : list num)
    (self : InfrastructureDCF) (e : InfrastructureSector) :
  _validate_data (data self) = Ok tt -> _sector_enum self = Some e ->
  1 <= length historical_fcf ->
  exists use_forward flags,
    _should_use_forward_fcf historical_fcf self = Ok (use_forward, flags, self).
Proof.
  intros Hvalid He Hh.
  destruct (validate_data_lengths _ Hvalid) as [Heb [_ [Hcap [_ H3]]]].
  destruct (@last_item_Ok _ (ebitda (data self))) as [eb Hlast]; [lia|].
  destruct (last_item_Ok _ Hh) as [fcf Hfcf].
  unfold _should_use_forward_fcf.
  rewrite (ensure_classified_cached _ He). cbn [bind].
  unfold np_divide.
  replace (length (capex (data self)) =? length (ebitda (data self)))
    with true by (symmetry; apply Nat.eqb_eq; lia).
  cbn [bind]. rewrite Hlast, Hfcf. cbn [bind].
  eexists. eexists. reflexivity.
Qed.

Lemma validate_and_classify_Ok (self : InfrastructureDCF) :
  _validate_data (data self) = Ok tt ->
  exists self', validate_and_classify self = Ok (true, [], self').
Proof.
  intros Hvalid.
  destruct (classify_sector_Ok _ Hvalid) as [cl Hcl].
  destruct (classify_sector_frame _ Hcl) as [_ [[e He] Hd]].
  pose proof (sector_only_valid Hd Hvalid) as Hvalid'.
  destruct (historical_fcf_Ok _ Hvalid') as [fcf [Hfcf Hlen]].
  destruct (@should_use_forward_fcf_Ok fcf cl e Hvalid' He Hlen) as [u [f Hu]].
  unfold validate_and_classify. rewrite Hcl. cbn [bind].
  rewrite Hfcf. cbn [bind]. rewrite Hu. cbn [bind].
  eexists. reflexivity.
Qed.

Lemma forward_fcf_Ok (self : InfrastructureDCF) :
  _validate_data (data self) = Ok tt ->
  exists fcf self', _calculate_forward_fcf self = Ok (fcf, self').
Proof.
  intros Hvalid.
  assert (Hcl : exists s, ensure_classified self = Ok s).
  { unfold ensure_classified. destruct (_sector_enum self).
    - eexists; reflexivity.
    - apply classify_sector_Ok; exact Hvalid. }
  destruct Hcl as [s Hs].
  destruct (ensure_classified_frame _ Hs) as [_ [_ Hd]].
  pose proof (sector_only_valid Hd Hvalid) as Hvalid'.
  destruct (validate_data_lengths _ Hvalid') as [Heb [Hdep [_ [_ H3]]]].
  destruct (@last_item_Ok _ (ebitda (data s))) as [eb Hlast]; [lia|].
  destruct (@last_item_Ok _ (revenues (data s))) as [rev Hrev]; [lia|].
  destruct (@last_item_Ok _ (depreciation (data s))) as [da Hda]; [lia|].
  assert (Hbase : exists b, _get_ebitda_baseline s = Ok b).
  { unfold _get_ebitda_baseline. rewrite Hlast. cbn [bind].
    destruct (3 <=? length (ebitda (data s))); [|eexists; reflexivity].
    match goal with
    | |- context [if ?b then _ else _] => destruct b
    end; eexists; reflexivity. }
  assert (Hmc : exists c, _estimate_maintenance_capex s = Ok c).
  { unfold _estimate_maintenance_capex.
    destruct (maintenance_capex_guidance (data s)); [eexists; reflexivity|].
    match goal with
    | |- context [match ?b with Some _ => _ | None => _ end] => destruct b
    end; [rewrite Hrev|]; eexists; reflexivity. }
  assert (Hwc : exists c, _estimate_wc_change s = Ok c).
  { unfold _estimate_wc_change.
    destruct (sector_in (_sector_enum s) zero_wc_sectors);
      [|rewrite Hrev]; eexists; reflexivity. }
  destruct Hbase as [b Hb], Hmc as [mc Hmc], Hwc as [wc Hwc].
  unfold _calculate_forward_fcf. rewrite Hs. cbn [bind].
  rewrite Hb. cbn [bind]. rewrite Hmc. cbn [bind]. rewrite Hda. cbn [bind].
  rewrite Hwc. cbn [bind]. eexists. eexists. reflexivity.
Qed.

Lemma normalized_fcf_Ok (self : InfrastructureDCF) :
  _validate_data (data self) = Ok tt ->
  exists fcf m self', calculate_normalized_fcf self = Ok (fcf, m, self').
Proof.
  intros Hvalid.
  assert (Hv : exists v s, ensure_validated self = Ok (v, s)).
  { unfold ensure_validated.
    destruct (validation_results self) as [v|]; [eexists; eexists; reflexivity|].
    destruct (validate_and_classify_Ok _ Hvalid) as [s Hs].
    rewrite Hs. cbn [bind].
    apply validate_and_classify_frame in Hs.
    destruct Hs as [_ [[v Hv] _]]. rewrite Hv. eexists; eexists; reflexivity. }
  destruct Hv as [v [s Hs]].
  destruct (ensure_validated_frame _ Hs) as [_ Hd].
  pose proof (sector_only_valid Hd Hvalid) as Hvalid'.
  unfold calculate_normalized_fcf. rewrite Hs. cbn [bind].
  destruct (vr_use_forward_fcf v).
  - destruct (forward_fcf_Ok _ Hvalid') as [fcf [s' Hf]].
    rewrite Hf. cbn [bind]. eexists; eexists; eexists; reflexivity.
  - destruct (historical_fcf_Ok _ Hvalid') as [fcf [Hf _]].
    unfold _calculate_historical_average_fcf. rewrite Hf. cbn [bind].
    destruct (3 <=? length fcf); cbn [bind];
      eexists; eexists; eexists; reflexivity.
Qed.

Lemma wacc_Ok (self : InfrastructureDCF) :
  _validate_data (data self) = Ok tt -> exists w, calculate_wacc self = Ok w.
Proof.
  intros Hvalid.
  destruct (validate_data_lengths _ Hvalid) as [_ [_ [_ [Hint H3]]]].
  destruct (@last_item_Ok _ (interest_expense (data self))) as [i Hi]; [lia|].
  unfold calculate_wacc. rewrite Hi. cbn [bind].
  match goal with
  | |- context [if ?b then (_, _) else _] => destruct b
  end; eexists; reflexivity.
Qed.

End Completion.

Section CompletionTheorem.

Context {N : Number} {L : Library N}.

Lemma is_numpy_smul_py (a : scalar) (x : num) :
  is_numpy (smul a (PyFloat x)) = is_numpy a.
Proof. destruct a; reflexivity. Qed.

Lemma truediv_Ok (a b : scalar) :
  is_numpy a = true \/ feqb (value b) (of_int 0) = false ->
  exists q, truediv a b = Ok q /\ is_numpy q = is_numpy a || is_numpy b.
Proof.
  intros H. unfold truediv.
  destruct (is_numpy a || is_numpy b) eqn:Hnp; [eexists; split; reflexivity|].
  destruct H as [Ha|Hb].
  - rewrite Ha in Hnp. discriminate.
  - rewrite Hb. eexists; split; reflexivity.
Qed.

(** A loop whose growth rates are all defined runs to the end, one FCF per
    year, each of the kind (Python or NumPy) of the base. *)
Lemma project_Ok (growth : Z -> result num) (years : list Z) (base : scalar) :
  (forall year, In year years -> exists g, growth year = Ok g) ->
  exists projected,
    project growth years base = Ok projected /\
    length projected = length years /\
    Forall (fun fcf => is_numpy fcf = is_numpy base) projected.
Proof.
  revert base. induction years as [|year rest IH]; intros base Hg.
  - exists []. repeat split. constructor.
  - destruct (Hg year (or_introl eq_refl)) as [g Hyear].
    destruct (IH (smul base (PyFloat (fadd (of_int 1) g))))
      as [projected [Hp [Hlen Hall]]].
    { intros y Hy. apply Hg. now right. }
    cbn [project]. rewrite Hyear. cbn [bind]. rewrite Hp. cbn [bind].
    eexists. split; [reflexivity|]. split; [simpl; now rewrite Hlen|].
    constructor; [apply is_numpy_smul_py|].
    eapply Forall_impl; [|exact Hall].
    intros fcf Hfcf. cbn beta in Hfcf. now rewrite Hfcf, is_numpy_smul_py.
Qed.

Lemma growth_of_year_Ok (custom : option (list num)) (high g : num) (h : Z)
    (year : Z) :
  In year (years_of h) ->
  exists rate,
    growth_of_year (option_map (fun rates => extend_rates rates g h) custom)
      high g h year = Ok rate.
Proof.
  unfold years_of. intros Hin. apply in_map_iff in Hin.
  destruct Hin as [k [<- Hk]]. apply in_seq in Hk.
  destruct custom as [schedule|]; cbn [option_map growth_of_year];
    [|eexists; reflexivity].
  rewrite extend_rates_nth by lia. eexists; reflexivity.
Qed.

Lemma last_item_Forall {A : Type} (P : A -> Prop) (xs : list A) (x : A) :
  Forall P xs -> last_item xs = Ok x -> P x.
Proof.
  induction xs as [|y [|z tl] IH]; simpl; intros Hall H; try discriminate.
  - inversion H; subst. now inversion Hall.
  - apply IH; [now inversion Hall | exact H].
Qed.

Lemma sum_discounted_Ok (w : num) (np : bool) (projected : list scalar) :
  Forall (fun fcf => is_numpy fcf = np) projected ->
  forall (acc : scalar) (i : Z),
    (forall k, (i + 1 <= k <= i + Z.of_nat (length projected))%Z ->
       exists factor,
         float_pow (fadd (of_int 1) w) k = Ok factor /\
         (np = true \/ feqb factor (of_int 0) = false)) ->
    exists total, sum_discounted w acc i projected = Ok total.
Proof.
  induction 1 as [|fcf rest Hfcf Hrest IH]; intros acc i Hpow.
  - eexists; reflexivity.
  - destruct (Hpow (i + 1)%Z) as [factor [Hfactor Hnz]];
      [simpl length; lia|].
    destruct (@truediv_Ok fcf (PyFloat factor)) as [term [Hterm _]].
    { rewrite Hfcf. exact Hnz. }
    cbn [sum_discounted]. rewrite Hfactor. cbn [bind].
    rewrite Hterm. cbn [bind]. apply IH.
    intros k Hk. apply Hpow. simpl length. lia.
Qed.

Lemma normalized_fcf_after_validation (self s1 : InfrastructureDCF) (b : bool)
    (errs : list string) :
  validation_results self = None ->
  validate_and_classify self = Ok (b, errs, s1) ->
  calculate_normalized_fcf self = calculate_normalized_fcf s1.
Proof.
  intros Hnone Hv.
  destruct (validate_and_classify_frame _ Hv) as [_ [[v Hs1] _]].
  unfold calculate_normalized_fcf, ensure_validated.
  rewrite Hnone, Hv. cbn [bind]. rewrite Hs1. reflexivity.
Qed.

(** C2 (as amended).  On a validated record and a horizon of at least one
    year [calculate_valuation] returns a result, provided the arithmetic of
    the last steps does not raise: every discount factor [(1 + wacc) ** k],
    [1 <= k <= horizon], is computed, and, unless the normalized FCF is a
    NumPy scalar (whose division never raises), neither a discount factor nor
    [wacc - terminal_growth_rate] is zero.  In particular it returns for
    [wacc < terminal_growth_rate]. *)
Theorem calculate_valuation_completes (h : Z) (custom : option (list num))
    (self : InfrastructureDCF) :
  _validate_data (data self) = Ok tt ->
  (1 <= h)%Z ->
  (forall fcf m self' w,
      calculate_normalized_fcf self = Ok (fcf, m, self') ->
      calculate_wacc self' = Ok w ->
      (is_numpy fcf = true \/
       feqb (fsub w (terminal_growth_rate (data self))) (of_int 0) = false) /\
      forall k, (1 <= k <= h)%Z ->
        exists factor,
          float_pow (fadd (of_int 1) w) k = Ok factor /\
          (is_numpy fcf = true \/ feqb factor (of_int 0) = false)) ->
  exists res self', calculate_valuation h custom self = Ok (res, self').
Proof.
  intros Hvalid Hh Harith.
  destruct (normalized_fcf_Ok _ Hvalid) as [f [m [s2 Hn]]].
  destruct (normalized_fcf_rerun _ Hn) as [[v Hv2] [Hd _]].
  pose proof (sector_only_valid Hd Hvalid) as Hvalid2.
  destruct (wacc_Ok _ Hvalid2) as [w Hw].
  destruct (Harith f m s2 w Hn Hw) as [Hterm Hpow].
  rewrite <- (sector_only_terminal_growth Hd) in Hterm.
  assert (Hstep : exists s1,
             match validation_results self with
             | None =>
                 let* (valid, errors, self0) := validate_and_classify self in
                 if negb valid then Raise ValueError else Ok self0
             | Some _ => Ok self
             end = Ok s1 /\
             calculate_normalized_fcf s1 = Ok (f, m, s2)).
  { destruct (validation_results self) as [v0|] eqn:Hv0.
    - exists self. split; [reflexivity | exact Hn].
    - destruct (validate_and_classify_Ok _ Hvalid) as [s1 Hs1].
      exists s1. rewrite Hs1. split; [reflexivity|].
      rewrite <- (normalized_fcf_after_validation _ Hv0 Hs1). exact Hn. }
  destruct Hstep as [s1 [Hs1 Hn1]].
  destruct (@project_Ok
              (growth_of_year
                 (option_map
                    (fun rates =>
                       extend_rates rates (terminal_growth_rate (data s2)) h)
                    custom)
                 (revenue_growth_rate (data s2))
                 (terminal_growth_rate (data s2)) h)
              (years_of h) f)
    as [projected [Hp [Hlen Hall]]].
  { intros year. apply growth_of_year_Ok. }
  assert (Hn_years : length (years_of h) = Z.to_nat h)
    by (unfold years_of; now rewrite length_map, length_seq).
  destruct (@last_item_Ok _ projected) as [final Hfinal]; [lia|].
  pose proof (@last_item_Forall _ _ _ _ Hall Hfinal) as Hfinal_np.
  cbn beta in Hfinal_np.
  destruct (@truediv_Ok
              (smul final
                 (PyFloat (fadd (of_int 1) (terminal_growth_rate (data s2)))))
              (PyFloat (fsub w (terminal_growth_rate (data s2)))))
    as [tv [Htv Htv_np]].
  { rewrite is_numpy_smul_py, Hfinal_np. exact Hterm. }
  destruct (@sum_discounted_Ok w (is_numpy f) projected Hall
              (PyFloat (of_int 0)) 0%Z) as [pv Hpv].
  { intros k Hk. apply Hpow. lia. }
  destruct (Hpow h) as [factor [Hfactor Hnz]]; [lia|].
  destruct (@truediv_Ok tv (PyFloat factor)) as [pvt [Hpvt _]].
  { rewrite Htv_np, is_numpy_smul_py, Hfinal_np. cbn [is_numpy].
    rewrite orb_false_r. exact Hnz. }
  unfold calculate_valuation. rewrite Hs1. cbn [bind].
  rewrite Hn1. cbn [bind]. rewrite Hw. cbn [bind].
  rewrite Hp. cbn [bind]. rewrite Hfinal. cbn [bind].
  rewrite Htv. cbn [bind]. rewrite Hpv. cbn [bind].
  rewrite Hfactor. cbn [bind]. rewrite Hpvt. cbn [bind].
  rewrite Hv2. eexists. eexists. reflexivity.
Qed.

End CompletionTheorem.

(** The stages of the pipeline on [guided_record]. *)
Example guided_record_stages :
  calculate_normalized_fcf (new_engine guided_record) =
    Ok (PyFloat 340%float, "forward_ebitda_based"%string, guided_engine) /\
  calculate_wacc guided_engine =
    Ok (PrimFloat.add
          (PrimFloat.mul (PrimFloat.div 5000 7000)
             (PrimFloat.add (float_lit 0.025)
                (PrimFloat.mul (float_lit 0.6) (float_lit 0.06))))
          (PrimFloat.mul (PrimFloat.div 2000 7000)
             (PrimFloat.mul (PrimFloat.div 50 2000)
                (PrimFloat.sub 1 (float_lit 0.25)))))%float.
Proof. split; vm_compute; reflexivity. Qed.

Lemma calculate_valuation_completes_witness :
  exists res self',
    calculate_valuation 10 None (new_engine guided_record) = Ok (res, self').
Proof.
  apply (@calculate_valuation_completes float_number float_library 10 None
           (new_engine guided_record)).
  - reflexivity.
  - lia.
  - intros fcf m self' w Hn Hw.
    destruct guided_record_stages as [Hn0 Hw0].
    rewrite Hn0 in Hn. apply Ok_inj in Hn.
    pose proof (f_equal (fun p => fst (fst p)) Hn) as Hfcf.
    pose proof (f_equal snd Hn) as Hself.
    cbn [fst snd] in Hfcf, Hself. subst fcf self'.
    rewrite Hw0 in Hw. apply Ok_inj in Hw. subst w.
    split; [right; vm_compute; reflexivity|].
    intros k Hk.
    assert (Hcases : In k [1; 2; 3; 4; 5; 6; 7; 8; 9; 10]%Z)
      by (simpl; lia).
    simpl in Hcases.
    repeat (destruct Hcases as [<-|Hcases];
            [eexists; split; [vm_compute; reflexivity|right; vm_compute; reflexivity]|]).
    contradiction.
Defined.

(** C2 as stated fails.  On a validated record on the forward path whose
    WACC equals its terminal growth rate exactly, the terminal-value division
    of two Python floats raises [ZeroDivisionError]; and with a horizon of 0
    the projection is empty, so [projected_fcf[-1]] raises [IndexError]. *)
Lemma calculate_valuation_raises :
  __post_init__ equal_rates_record = Ok equal_rates_record /\
  calculate_wacc (new_engine equal_rates_record) =
    Ok (terminal_growth_rate equal_rates_record) /\
  calculate_valuation 10 None (new_engine equal_rates_record) =
    Raise ZeroDivisionError /\
  __post_init__ guided_record = Ok guided_record /\
  calculate_valuation 0 None (new_engine guided_record) = Raise IndexError.
Proof. repeat split; vm_compute; reflexivity. Qed.

(** Below the terminal growth rate nothing is raised: with terminal growth
    0.10 against a WACC of 0.03 the same record is valued, its terminal
    value negative. *)
Example valuation_below_terminal_growth :
  match
    calculate_valuation 10 None
      (new_engine (set_terminal_growth_rate (float_lit 0.10) equal_rates_record))
  with
  | Ok (res, _) => PrimFloat.ltb (value (terminal_value res)) 0%float
  | Raise _ => false
  end = true.
Proof. vm_compute. reflexivity. Qed.

(** * Further properties of the engine *)

(** ** Construction *)

Lemma nodup_repeat (a n : nat) : nodup Nat.eq_dec (repeat a (S n)) = [a].
Proof.
  induction n as [|n IH]; [reflexivity|].
  change (repeat a (S (S n))) with (a :: repeat a (S n)).
  cbn [nodup].
  destruct (in_dec Nat.eq_dec a (repeat a (S n))) as [_|Hn]; [exact IH|].
  exfalso. apply Hn. left. reflexivity.
Qed.

Lemma nodup_all_equal (a b c d e : nat) :
  (1 <? length (nodup Nat.eq_dec [a; b; c; d; e])) =
  negb ((b =? a) && (c =? a) && (d =? a) && (e =? a)).
Proof.
  destruct ((b =? a) && (c =? a) && (d =? a) && (e =? a)) eqn:Heq.
  - repeat (apply andb_prop in Heq; destruct Heq as [Heq ?]).
    repeat match goal with
           | H : (_ =? _) = true |- _ => apply Nat.eqb_eq in H
           end.
    subst. cbn [negb]. apply Nat.ltb_ge.
    change [a; a; a; a; a] with (repeat a 5).
    rewrite nodup_repeat. simpl. lia.
  - cbn [negb]. apply Nat.ltb_lt.
    destruct (Nat.le_gt_cases (length (nodup Nat.eq_dec [a; b; c; d; e])) 1)
      as [Hle|Hgt]; [|exact Hgt].
    pose proof (nodup_single _ Hle) as Hall.
    assert (b = a) by (apply Hall; simpl; auto).
    assert (c = a) by (apply Hall; simpl; auto).
    assert (d = a) by (apply Hall; simpl; auto 10).
    assert (e = a) by (apply Hall; simpl; auto 10).
    subst. rewrite !Nat.eqb_refl in Heq. discriminate.
Qed.

(** X1.  Construction decides on the lengths of the five series alone: it
    returns the record with [net_debt] filled in when they agree and there
    are at least three periods, and raises [ValueError] in every other
    case, so also when all five agree on fewer than three. *)
Theorem post_init_outcome {N : Number} (d : CompanyFinancials) :
  __post_init__ d =
  if (length (ebitda d) =? length (revenues d)) &&
     (length (depreciation d) =? length (revenues d)) &&
     (length (capex d) =? length (revenues d)) &&
     (length (interest_expense d) =? length (revenues d)) &&
     (3 <=? length (revenues d))
  then Ok (set_net_debt (fsub (total_debt d) (cash d)) d)
  else Raise ValueError.
Proof.
  unfold __post_init__, _validate_data.
  cbn [revenues ebitda depreciation capex interest_expense set_net_debt].
  rewrite nodup_all_equal.
  destruct ((length (ebitda d) =? length (revenues d)) &&
            (length (depreciation d) =? length (revenues d)) &&
            (length (capex d) =? length (revenues d)) &&
            (length (interest_expense d) =? length (revenues d)));
    cbn [negb andb bind]; [|reflexivity].
  rewrite Nat.leb_antisym.
  destruct (length (revenues d) <? 3); reflexivity.
Qed.

(** ** Classifying a record twice *)

(** The label dictionary read on the canonical labels themselves: every
    sector is found again but [DATA_CENTERS], whose label ["data_centers"]
    holds neither ["data center"] nor ["datacenter"]. *)
Lemma canonical_label_match (e : InfrastructureSector) :
  match_label sector_mapping (lower (sector_value e)) =
  match e with
  | DATA_CENTERS | OTHER => None
  | _ => Some e
  end.
Proof. destruct e; reflexivity. Qed.

Section Reclassification.

Context {N : Number} {L : Library N}.

Lemma analyze_business_model_sector (self : InfrastructureDCF) (s : string)
    (v : option ValidationResults) (e : option InfrastructureSector) :
  _analyze_business_model
    {| data := set_sector s (data self);
       validation_results := v;
       _sector_enum := e |} =
  _analyze_business_model self.
Proof. reflexivity. Qed.

Lemma classify_sector_unfold (self : InfrastructureDCF) (c : Characteristics) :
  _analyze_business_model self = Ok c ->
  _classify_sector self =
  if tower_fingerprint c then Ok (assign_sector TOWERS self)
  else if reit_fingerprint c then Ok (assign_sector REITS self)
  else
    match match_label sector_mapping (lower (sector (data self))) with
    | Some sector_enum => Ok (assign_sector sector_enum self)
    | None =>
        Ok {| data := data self;
              validation_results := validation_results self;
              _sector_enum := Some OTHER |}
    end.
Proof. intros H. unfold _classify_sector. rewrite H. reflexivity. Qed.

(** X2.  Classification is stable when it is run again on the state it
    left, for every sector but [DATA_CENTERS]: the fingerprints read numbers
    only, and the canonical label written into the record is found again by
    the label dictionary. *)
Theorem reclassification_stable (self s1 : InfrastructureDCF)
    (e : InfrastructureSector) :
  _classify_sector self = Ok s1 ->
  _sector_enum s1 = Some e ->
  e <> DATA_CENTERS ->
  _classify_sector s1 = Ok s1.
Proof.
  intros H He Hdc. apply classify_sector_inv in H.
  destruct H as [c [Hc Hcl]].
  destruct Hcl as [Ht|Ht Hr|e' Ht Hr Hm|Ht Hr Hm].
  - rewrite (@classify_sector_unfold (assign_sector TOWERS self) c)
      by exact Hc.
    rewrite Ht. reflexivity.
  - rewrite (@classify_sector_unfold (assign_sector REITS self) c)
      by exact Hc.
    rewrite Ht, Hr. reflexivity.
  - cbn in He. inversion He; subst e'.
    pose proof (sector_mapping_not_other _ Hm) as Hother.
    rewrite (@classify_sector_unfold (assign_sector e self) c) by exact Hc.
    rewrite Ht, Hr. cbn [assign_sector data sector set_sector].
    rewrite canonical_label_match.
    destruct e; try contradiction; reflexivity.
  - rewrite (@classify_sector_unfold _ c) by exact Hc.
    rewrite Ht, Hr. cbn [data]. rewrite Hm. reflexivity.
Qed.

(** X3.  A record that the label dictionary classified as a data-centre
    company is left with the sector string ["data_centers"], which no key
    matches: a new engine on that record classifies it as [OTHER] and
    leaves the string as it is. *)
Theorem data_centers_not_recognised_again (self s1 : InfrastructureDCF)
    (c : Characteristics) :
  _classify_sector self = Ok s1 ->
  _analyze_business_model self = Ok c ->
  tower_fingerprint c = false -> reit_fingerprint c = false ->
  _sector_enum s1 = Some DATA_CENTERS ->
  sector (data s1) = "data_centers"%string /\
  _classify_sector (new_engine (data s1)) =
  Ok {| data := data s1;
        validation_results := None;
        _sector_enum := Some OTHER |}.
Proof.
  intros H Hc Ht Hr He.
  rewrite (classify_sector_unfold _ Hc), Ht, Hr in H.
  destruct (match_label sector_mapping (lower (sector (data self))))
    as [e|] eqn:Hm; inversion H; subst s1; cbn in He; inversion He; subst e.
  split; [reflexivity|].
  rewrite (@classify_sector_unfold _ c) by exact Hc.
  rewrite Ht, Hr. reflexivity.
Qed.

End Reclassification.

Lemma reclassification_stable_witness :
  exists s1,
    _classify_sector (new_engine tower_label_record) = Ok s1 /\
    sector (data s1) = "towers"%string /\
    _classify_sector s1 = Ok s1.
Proof.
  assert (H : exists s1,
             _classify_sector (new_engine tower_label_record) = Ok s1 /\
             _sector_enum s1 = Some TOWERS /\
             sector (data s1) = "towers"%string)
    by (vm_compute; eexists; repeat split; reflexivity).
  destruct H as [s1 [H [He Hs]]]. exists s1.
  split; [exact H|]. split; [exact Hs|].
  apply (reclassification_stable _ H He). discriminate.
Defined.

Lemma data_centers_not_recognised_again_witness :
  exists s1,
    _classify_sector (new_engine data_center_record) = Ok s1 /\
    _sector_enum s1 = Some DATA_CENTERS /\
    _classify_sector (new_engine (data s1)) =
    Ok {| data := data s1;
          validation_results := None;
          _sector_enum := Some OTHER |}.
Proof.
  assert (H : exists s1 c,
             _classify_sector (new_engine data_center_record) = Ok s1 /\
             _analyze_business_model (new_engine data_center_record) = Ok c /\
             tower_fingerprint c = false /\ reit_fingerprint c = false /\
             _sector_enum s1 = Some DATA_CENTERS)
    by (vm_compute; eexists; eexists; repeat split; reflexivity).
  destruct H as [s1 [c [H [Hc [Ht [Hr He]]]]]]. exists s1.
  split; [exact H|]. split; [exact He|].
  exact (proj2 (data_centers_not_recognised_again _ H Hc Ht Hr He)).
Defined.

(** ** Detection signals *)

Lemma subsequence_snoc_skip {A : Type} (l p : list A) (x : A) :
  subsequence l p -> subsequence l (p ++ [x]).
Proof.
  induction 1; simpl.
  - apply subsequence_skip. constructor.
  - now apply subsequence_skip.
  - now apply subsequence_take.
Qed.

Lemma subsequence_snoc_take {A : Type} (l p : list A) (x : A) :
  subsequence l p -> subsequence (l ++ [x]) (p ++ [x]).
Proof.
  induction 1; simpl.
  - apply subsequence_take. constructor.
  - now apply subsequence_skip.
  - now apply subsequence_take.
Qed.

Lemma append_if_subsequence (b : bool) (name : string) (l p : list string) :
  subsequence l p -> subsequence (append_if b name l) (p ++ [name]).
Proof.
  destruct b; simpl;
    [apply subsequence_snoc_take | apply subsequence_snoc_skip].
Qed.

Lemma length_append_if (b : bool) (name : string) (l : list string) :
  length (append_if b name l) = length l + (if b then 1 else 0).
Proof. destruct b; simpl; [now rewrite length_app | lia]. Qed.

Lemma sector_in_infrastructure (se : option InfrastructureSector) :
  sector_in se infrastructure_sectors = true <->
  exists e, se = Some e /\ e <> OTHER.
Proof.
  destruct se as [e|]; simpl.
  - split.
    + intros H. exists e. split; [reflexivity|]. intros ->. discriminate.
    + intros [e' [He Hne]]. inversion He; subst e'.
      destruct e; try reflexivity. contradiction.
  - split; [discriminate|]. intros [e [He _]]. discriminate.
Qed.

Section Detection.

Context {N : Number} {L : Library N}.

(** The flags the detector returns, rule by rule. *)
Lemma should_use_forward_fcf_inv (historical_fcf : list num)
    (self s : InfrastructureDCF) (u : bool) (f : list string) :
  _should_use_forward_fcf historical_fcf self = Ok (u, f, s) ->
  ensure_classified self = Ok s /\
  exists b1 b2 b4 b6,
    (b6 = true -> 5 <= length (capex (data s))) /\
    f = append_if b6 "high_capex_volatility"
          (append_if
             (truthy (avg_contract_duration (data s)) &&
              match avg_contract_duration (data s) with
              | Some d => fgt d (of_int 5)
              | None => false
              end)
             "contracted_revenues"
             (append_if b4 "ebitda_fcf_divergence"
                (append_if
                   (sector_in (_sector_enum s) infrastructure_sectors)
                   "infrastructure_sector"
                   (append_if b2 "high_growth_capex"
                      (append_if b1 "sustained_negative_fcf" []))))) /\
    u = (2 <=? length f).
Proof.
  unfold _should_use_forward_fcf. intros H.
  bind_inv H. rename a into s0. bind_inv H. bind_inv H. bind_inv H.
  split; [inversion H; subst; exact Ha|].
  destruct (5 <=? length (capex (data s0))) eqn:H5.
  - inversion H; subst. do 3 eexists.
    eexists (fgt _ (lit 0.5)). split.
    + intros _. now apply Nat.leb_le.
    + split; reflexivity.
  - inversion H; subst. do 3 eexists. exists false.
    split; [discriminate|]. split; reflexivity.
Qed.

(** X4.  The detector returns its signals in the fixed order of the six
    rules, each at most once; the forward method is chosen exactly when at
    least two are raised; [infrastructure_sector] is raised exactly when the
    cached sector is not [OTHER]; and [high_capex_volatility] is never raised
    on fewer than five periods of capex. *)
Theorem detection_flags_shape (historical_fcf : list num)
    (self s : InfrastructureDCF) (u : bool) (f : list string) :
  _should_use_forward_fcf historical_fcf self = Ok (u, f, s) ->
  subsequence f all_flags /\
  NoDup f /\
  u = (2 <=? length f) /\
  (In "infrastructure_sector"%string f <->
   exists e, _sector_enum s = Some e /\ e <> OTHER) /\
  (In "high_capex_volatility"%string f -> 5 <= length (capex (data s))).
Proof.
  intros H. apply should_use_forward_fcf_inv in H.
  destruct H as [_ [b1 [b2 [b4 [b6 [H6 [Hf Hu]]]]]]].
  assert (Hsub : subsequence f all_flags).
  { rewrite Hf. unfold all_flags.
    apply (append_if_subsequence _ _
             (p := [ "sustained_negative_fcf"; "high_growth_capex";
                     "infrastructure_sector"; "ebitda_fcf_divergence";
                     "contracted_revenues" ]%string)).
    apply (append_if_subsequence _ _
             (p := [ "sustained_negative_fcf"; "high_growth_capex";
                     "infrastructure_sector";
                     "ebitda_fcf_divergence" ]%string)).
    apply (append_if_subsequence _ _
             (p := [ "sustained_negative_fcf"; "high_growth_capex";
                     "infrastructure_sector" ]%string)).
    apply (append_if_subsequence _ _
             (p := [ "sustained_negative_fcf"; "high_growth_capex" ]%string)).
    apply (append_if_subsequence _ _
             (p := [ "sustained_negative_fcf" ]%string)).
    apply (append_if_subsequence _ _ (p := [])).
    constructor. }
  split; [exact Hsub|]. split.
  { assert (Hnd : NoDup all_flags).
    { unfold all_flags.
      repeat (constructor; [simpl; intuition discriminate|]). constructor. }
    clear - Hsub Hnd. induction Hsub.
    - constructor.
    - inversion Hnd; auto.
    - inversion Hnd as [|? ? Hnotin Hnd']; subst. constructor; [|auto].
      intros Hin. apply Hnotin. clear - Hin Hsub.
      induction Hsub; simpl in *; intuition. }
  split; [exact Hu|]. rewrite Hf. split.
  - rewrite !In_append_if. rewrite <- sector_in_infrastructure. simpl.
    intuition discriminate.
  - rewrite !In_append_if. simpl. intros Hin. apply H6.
    intuition discriminate.
Qed.

End Detection.

Lemma detection_flags_shape_witness :
  exists s,
    _should_use_forward_fcf [100; 100; 100]%float (new_engine guided_record) =
      Ok (true, ["infrastructure_sector"; "contracted_revenues"]%string, s) /\
    subsequence ["infrastructure_sector"; "contracted_revenues"]%string
      all_flags.
Proof.
  assert (H : exists s,
             _should_use_forward_fcf [100; 100; 100]%float
               (new_engine guided_record) =
             Ok (true, ["infrastructure_sector"; "contracted_revenues"]%string,
                 s))
    by (vm_compute; eexists; reflexivity).
  destruct H as [s H]. exists s. split; [exact H|].
  exact (proj1 (detection_flags_shape _ _ H)).
Defined.

Section ForwardChoice.

Context {N : Number} {L : Library N}.

(** [validate_and_classify] in terms of the detection it caches. *)
Lemma validate_and_classify_detection (self s' : InfrastructureDCF) (b : bool)
    (errs : list string) :
  validate_and_classify self = Ok (b, errs, s') ->
  exists cl hist u f v,
    _classify_sector self = Ok cl /\
    _calculate_historical_fcf cl = Ok hist /\
    _should_use_forward_fcf hist cl = Ok (u, f, cl) /\
    validation_results s' = Some v /\
    vr_use_forward_fcf v = u /\ vr_flags v = f /\
    data s' = data cl /\ _sector_enum s' = _sector_enum cl.
Proof.
  unfold validate_and_classify. intros H.
  bind_inv H. rename a into cl. bind_inv H. rename a into hist.
  bind_inv H. destruct a as [[u f] s2].
  pose proof (should_use_forward_fcf_state _ _ Ha1) as Hs.
  destruct (classify_sector_frame _ Ha) as [_ [[e He] _]].
  rewrite (ensure_classified_cached _ He) in Hs. inversion Hs; subst s2.
  inversion H; subst. exists cl, hist, u, f. eexists.
  repeat split; try eassumption; reflexivity.
Qed.

(** X5.  A record classified into one of the eight infrastructure sectors
    whose average contract duration is non-zero and above 5 is always
    valued by the forward method: [infrastructure_sector] and
    [contracted_revenues] are both raised, whatever its cash flows are. *)
Theorem contracted_infrastructure_uses_forward (self s' : InfrastructureDCF)
    (b : bool) (errs : list string) (e : InfrastructureSector) (d : num) :
  validate_and_classify self = Ok (b, errs, s') ->
  _sector_enum s' = Some e -> e <> OTHER ->
  avg_contract_duration (data self) = Some d ->
  feqb d (of_int 0) = false -> fgt d (of_int 5) = true ->
  exists v,
    validation_results s' = Some v /\
    vr_use_forward_fcf v = true /\
    In "infrastructure_sector"%string (vr_flags v) /\
    In "contracted_revenues"%string (vr_flags v).
Proof.
  intros H He Hne Hd Hnz Hgt.
  apply validate_and_classify_detection in H.
  destruct H as [cl [hist [u [f [v [Hcl [_ [Hdet [Hv [Hu [Hf [_ Hse]]]]]]]]]]]].
  exists v. split; [exact Hv|]. rewrite Hu, Hf.
  destruct (classify_sector_frame _ Hcl) as [_ [_ Hframe]].
  assert (Hd' : avg_contract_duration (data cl) = Some d)
    by (unfold sector_only in Hframe; rewrite Hframe; exact Hd).
  rewrite Hse in He.
  apply should_use_forward_fcf_inv in Hdet.
  destruct Hdet as [_ [b1 [b2 [b4 [b6 [_ [Hflags ->]]]]]]].
  assert (Hinfra : sector_in (_sector_enum cl) infrastructure_sectors = true)
    by (apply sector_in_infrastructure; now exists e).
  rewrite Hd', Hinfra in Hflags. cbn [truthy] in Hflags.
  rewrite Hnz, Hgt in Hflags. cbn [negb andb] in Hflags.
  subst f. split; [|split].
  - apply Nat.leb_le. rewrite !length_append_if. simpl. lia.
  - rewrite !In_append_if. auto 10.
  - rewrite !In_append_if. auto 10.
Qed.

End ForwardChoice.

Lemma contracted_infrastructure_uses_forward_witness :
  exists v,
    validation_results guided_engine = Some v /\
    vr_use_forward_fcf v = true.
Proof.
  destruct (@contracted_infrastructure_uses_forward float_number float_library
              (new_engine guided_record) guided_engine true [] TOWERS
              10%float eq_refl eq_refl)
    as [v [Hv [Hu _]]]; try reflexivity; [discriminate|].
  exists v. split; assumption.
Defined.

(** ** Historical FCF without an operating cash flow *)

Lemma approximate_fcf_short {N : Number} (tax_rate : num)
    (ebitda depreciation capex : list num) :
  length depreciation < length ebitda \/ length capex < length ebitda ->
  approximate_fcf tax_rate ebitda depreciation capex = Raise IndexError.
Proof.
  revert depreciation capex.
  induction ebitda as [|e eb IH]; intros dep cap H; [simpl in H; lia|].
  destruct dep as [|d dep]; [reflexivity|].
  destruct cap as [|c cap]; [reflexivity|].
  cbn [approximate_fcf]. rewrite IH; [reflexivity|]. simpl in H. lia.
Qed.

Lemma approximate_fcf_nth {N : Number} (tax_rate : num)
    (ebitda depreciation capex fcf : list num) :
  approximate_fcf tax_rate ebitda depreciation capex = Ok fcf ->
  length fcf = length ebitda /\
  forall i e d c,
    nth_error ebitda i = Some e -> nth_error depreciation i = Some d ->
    nth_error capex i = Some c ->
    nth_error fcf i =
    Some (fsub (fsub e (if fgt (fsub e d) (of_int 0)
                        then fmul (fsub e d) tax_rate
                        else of_int 0)) c).
Proof.
  revert depreciation capex fcf.
  induction ebitda as [|e0 eb IH]; intros dep cap fcf H.
  - inversion H; subst. split; [reflexivity|].
    intros [|i] e d c He; discriminate.
  - destruct dep as [|d0 dep]; [discriminate|].
    destruct cap as [|c0 cap]; [discriminate|].
    cbn [approximate_fcf] in H. bind_inv H. inversion H; subst fcf.
    destruct (IH _ _ _ Ha) as [Hlen Hnth].
    split; [simpl; now rewrite Hlen|].
    intros [|i] e d c He Hd Hc; simpl in *.
    + inversion He; inversion Hd; inversion Hc; subst. reflexivity.
    + now apply Hnth.
Qed.

(** X6.  Without a (non-empty) operating cash flow, historical FCF is
    computed per EBITDA period as [EBITDA - tax - capex], where tax is the
    effective rate on [EBITDA - depreciation] when that is positive and 0
    otherwise.  Entries of depreciation and capex beyond the EBITDA series
    are not read; if either is shorter than the EBITDA series (possible only
    on a record altered after construction) the computation raises
    [IndexError]. *)
Theorem historical_fcf_approximation {N : Number} (self : InfrastructureDCF) :
  supplied (operating_cash_flow (data self)) = None ->
  (length (depreciation (data self)) < length (ebitda (data self)) \/
   length (capex (data self)) < length (ebitda (data self)) ->
   _calculate_historical_fcf self = Raise IndexError) /\
  (length (ebitda (data self)) <= length (depreciation (data self)) ->
   length (ebitda (data self)) <= length (capex (data self)) ->
   exists fcf,
     _calculate_historical_fcf self = Ok fcf /\
     length fcf = length (ebitda (data self)) /\
     forall i e d c,
       nth_error (ebitda (data self)) i = Some e ->
       nth_error (depreciation (data self)) i = Some d ->
       nth_error (capex (data self)) i = Some c ->
       nth_error fcf i =
       Some (fsub (fsub e (if fgt (fsub e d) (of_int 0)
                           then fmul (fsub e d) (effective_tax_rate (data self))
                           else of_int 0)) c)).
Proof.
  intros Hocf. unfold _calculate_historical_fcf. rewrite Hocf. split.
  - apply approximate_fcf_short.
  - intros Hd Hc.
    destruct (approximate_fcf (effective_tax_rate (data self))
                (ebitda (data self)) (depreciation (data self))
                (capex (data self))) as [fcf|err] eqn:Hfcf.
    + exists fcf. split; [reflexivity|]. exact (approximate_fcf_nth _ _ _ _ Hfcf).
    + exfalso. clear Hocf.
      revert Hd Hc Hfcf.
      generalize (effective_tax_rate (data self)) (depreciation (data self))
                 (capex (data self)).
      induction (ebitda (data self)) as [|e eb IH]; intros t dep cap Hd Hc H;
        [discriminate|].
      destruct dep as [|d dep]; [simpl in Hd; lia|].
      destruct cap as [|c cap]; [simpl in Hc; lia|].
      cbn [approximate_fcf] in H.
      destruct (approximate_fcf t eb dep cap) eqn:Hrest; [discriminate|].
      cbn [bind] in H. inversion H; subst.
      apply (IH t dep cap); simpl in *; try lia. exact Hrest.
Qed.

Lemma historical_fcf_approximation_witness :
  _calculate_historical_fcf (new_engine test_record) =
  Ok [100; 100; 100]%float.
Proof.
  destruct (@historical_fcf_approximation float_number
              (new_engine test_record) eq_refl) as [_ H].
  destruct H as [fcf [Hfcf _]]; [simpl; lia|simpl; lia|].
  rewrite Hfcf. f_equal.
  apply Ok_inj. rewrite <- Hfcf. reflexivity.
Defined.

(** ** The trusted path *)

Section TrustedPath.

Context {N : Number} {L : Library N}.

(** X7.  When detection chose the historical method, the normalized FCF
    is NumPy's mean of the last three historical FCFs, or of all of them
    when there are fewer (the slice [[-3:]] of a shorter list is the list
    itself, so the two branches of the source agree); it is a NumPy scalar,
    the method is ["historical_average"] and the engine is left as it
    was. *)
Theorem historical_average_normalization (self : InfrastructureDCF)
    (v : ValidationResults) (hist : list num) :
  validation_results self = Some v ->
  vr_use_forward_fcf v = false ->
  _calculate_historical_fcf self = Ok hist ->
  calculate_normalized_fcf self =
  Ok (NpFloat (np_mean (last_n 3 hist)), "historical_average"%string, self).
Proof.
  intros Hv Hu Hh. unfold calculate_normalized_fcf.
  rewrite (ensure_validated_cached _ Hv). cbn [bind]. rewrite Hu.
  unfold _calculate_historical_average_fcf. rewrite Hh. cbn [bind].
  destruct (3 <=? length hist) eqn:H3; [reflexivity|].
  apply Nat.leb_gt in H3. unfold last_n.
  replace (length hist - 3) with 0 by lia. reflexivity.
Qed.

(** The run of [calculate_valuation] once the normalized FCF and the WACC
    are known. *)
Lemma calculate_valuation_runs (h : Z) (custom : option (list num))
    (self s2 : InfrastructureDCF) (f : scalar) (m : string) (w : num) :
  _validate_data (data self) = Ok tt ->
  (1 <= h)%Z ->
  calculate_normalized_fcf self = Ok (f, m, s2) ->
  calculate_wacc s2 = Ok w ->
  (is_numpy f = true \/
   feqb (fsub w (terminal_growth_rate (data self))) (of_int 0) = false) ->
  (forall k, (1 <= k <= h)%Z ->
     exists factor,
       float_pow (fadd (of_int 1) w) k = Ok factor /\
       (is_numpy f = true \/ feqb factor (of_int 0) = false)) ->
  exists res,
    calculate_valuation h custom self = Ok (res, s2) /\
    normalized_fcf res = f /\ wacc res = w /\
    is_numpy (terminal_value res) = is_numpy f.
Proof.
  intros Hvalid Hh Hn Hw Hterm Hpow.
  destruct (normalized_fcf_rerun _ Hn) as [[v Hv2] [Hd _]].
  rewrite <- (sector_only_terminal_growth Hd) in Hterm.
  assert (Hstep : exists s1,
             match validation_results self with
             | None =>
                 let* (valid, errors, self0) := validate_and_classify self in
                 if negb valid then Raise ValueError else Ok self0
             | Some _ => Ok self
             end = Ok s1 /\
             calculate_normalized_fcf s1 = Ok (f, m, s2)).
  { destruct (validation_results self) as [v0|] eqn:Hv0.
    - exists self. split; [reflexivity | exact Hn].
    - destruct (validate_and_classify_Ok _ Hvalid) as [s1 Hs1].
      exists s1. rewrite Hs1. split; [reflexivity|].
      rewrite <- (normalized_fcf_after_validation _ Hv0 Hs1). exact Hn. }
  destruct Hstep as [s1 [Hs1 Hn1]].
  destruct (@project_Ok _
              (growth_of_year
                 (option_map
                    (fun rates =>
                       extend_rates rates (terminal_growth_rate (data s2)) h)
                    custom)
                 (revenue_growth_rate (data s2))
                 (terminal_growth_rate (data s2)) h)
              (years_of h) f)
    as [projected [Hp [Hlen Hall]]].
  { intros year. apply growth_of_year_Ok. }
  assert (Hn_years : length (years_of h) = Z.to_nat h)
    by (unfold years_of; now rewrite length_map, length_seq).
  destruct (@last_item_Ok _ projected) as [final Hfinal]; [lia|].
  pose proof (@last_item_Forall _ _ _ _ Hall Hfinal) as Hfinal_np.
  cbn beta in Hfinal_np.
  destruct (@truediv_Ok _
              (smul final
                 (PyFloat (fadd (of_int 1) (terminal_growth_rate (data s2)))))
              (PyFloat (fsub w (terminal_growth_rate (data s2)))))
    as [tv [Htv Htv_np]].
  { rewrite is_numpy_smul_py, Hfinal_np. exact Hterm. }
  destruct (@sum_discounted_Ok _ _ w (is_numpy f) projected Hall
              (PyFloat (of_int 0)) 0%Z) as [pv Hpv].
  { intros k Hk. apply Hpow. lia. }
  destruct (Hpow h) as [factor [Hfactor Hnz]]; [lia|].
  destruct (@truediv_Ok _ tv (PyFloat factor)) as [pvt [Hpvt _]].
  { rewrite Htv_np, is_numpy_smul_py, Hfinal_np. cbn [is_numpy].
    rewrite orb_false_r. exact Hnz. }
  unfold calculate_valuation. rewrite Hs1. cbn [bind].
  rewrite Hn1. cbn [bind]. rewrite Hw. cbn [bind].
  rewrite Hp. cbn [bind]. rewrite Hfinal. cbn [bind].
  rewrite Htv. cbn [bind]. rewrite Hpv. cbn [bind].
  rewrite Hfactor. cbn [bind]. rewrite Hpvt. cbn [bind].
  rewrite Hv2. eexists. split; [reflexivity|].
  cbn [normalized_fcf wacc terminal_value].
  rewrite Htv_np, is_numpy_smul_py, Hfinal_np. cbn [is_numpy].
  rewrite orb_false_r. repeat split.
Qed.

End TrustedPath.

Lemma historical_average_normalization_witness :
  calculate_normalized_fcf infrastructure_engine =
  Ok (NpFloat 100%float, "historical_average"%string, infrastructure_engine).
Proof.
  rewrite (@historical_average_normalization float_number float_library
             infrastructure_engine _ [100; 100; 100]%float
             eq_refl eq_refl eq_refl).
  reflexivity.
Defined.

Section TrustedPathDivision.

Context {N : Number} {L : Library N}.

Lemma historical_average_is_numpy (self s2 : InfrastructureDCF) (f : scalar) :
  calculate_normalized_fcf self = Ok (f, "historical_average"%string, s2) ->
  is_numpy f = true.
Proof.
  unfold calculate_normalized_fcf. intros H. bind_inv H.
  destruct a as [v s1]. destruct (vr_use_forward_fcf v).
  - bind_inv H. destruct a as [f0 s]. inversion H.
  - bind_inv H. inversion H; subst.
    unfold _calculate_historical_average_fcf in Ha0.
    apply bind_Ok in Ha0. destruct Ha0 as [hist [_ Hmean]].
    destruct (3 <=? length hist); inversion Hmean; reflexivity.
Qed.

(** X8.  On the historical method no division of the valuation can raise:
    the normalized FCF is a NumPy scalar, so on a validated record and a
    horizon of at least one year [calculate_valuation] returns as soon as
    the discount factors are computed, also when WACC equals the terminal
    growth rate or a discount factor is zero; the terminal value is then a
    NumPy scalar too (an infinity or a NaN in those cases). *)
Theorem historical_method_never_divides_by_zero (h : Z)
    (custom : option (list num)) (self s2 : InfrastructureDCF) (f : scalar)
    (w : num) :
  _validate_data (data self) = Ok tt ->
  (1 <= h)%Z ->
  calculate_normalized_fcf self = Ok (f, "historical_average"%string, s2) ->
  calculate_wacc s2 = Ok w ->
  (forall k, (1 <= k <= h)%Z ->
     exists factor, float_pow (fadd (of_int 1) w) k = Ok factor) ->
  exists res,
    calculate_valuation h custom self = Ok (res, s2) /\
    is_numpy (terminal_value res) = true.
Proof.
  intros Hvalid Hh Hn Hw Hpow.
  pose proof (historical_average_is_numpy _ Hn) as Hnp.
  destruct (@calculate_valuation_runs _ _ h custom self s2 f _ w
              Hvalid Hh Hn Hw) as [res [Hres [_ [_ Htv]]]].
  - now left.
  - intros k Hk. destruct (Hpow k Hk) as [factor Hfactor].
    exists factor. split; [exact Hfactor | now left].
  - exists res. split; [exact Hres|]. now rewrite Htv.
Qed.

End TrustedPathDivision.

(** The stages of the pipeline on [trusted_equal_rates_record]: the WACC is
    the terminal growth rate to the last bit. *)
Example trusted_equal_rates_stages :
  exists s2,
    __post_init__ trusted_equal_rates_record = Ok trusted_equal_rates_record /\
    calculate_normalized_fcf (new_engine trusted_equal_rates_record) =
      Ok (NpFloat 100%float, "historical_average"%string, s2) /\
    calculate_wacc s2 = Ok (terminal_growth_rate trusted_equal_rates_record).
Proof. vm_compute. eexists. repeat split; reflexivity. Qed.

Lemma historical_method_never_divides_by_zero_witness :
  exists res s2,
    calculate_valuation 10 None (new_engine trusted_equal_rates_record) =
      Ok (res, s2) /\
    is_numpy (terminal_value res) = true.
Proof.
  destruct trusted_equal_rates_stages as [s2 [_ [Hn Hw]]].
  destruct (@historical_method_never_divides_by_zero float_number
              float_library 10 None (new_engine trusted_equal_rates_record)
              s2 _ _ eq_refl ltac:(lia) Hn Hw) as [res Hres].
  - intros k Hk.
    assert (Hcases : In k [1; 2; 3; 4; 5; 6; 7; 8; 9; 10]%Z)
      by (simpl; lia).
    simpl in Hcases.
    repeat (destruct Hcases as [<-|Hcases];
            [eexists; vm_compute; reflexivity|]).
    contradiction.
  - exists res, s2. exact Hres.
Defined.

(** There the terminal value is [+inf]: nothing is raised. *)
Example trusted_equal_rates_terminal_value :
  match
    calculate_valuation 10 None (new_engine trusted_equal_rates_record)
  with
  | Ok (res, _) => value (terminal_value res)
  | Raise _ => 0%float
  end = infinity.
Proof. vm_compute. reflexivity. Qed.

(** ** The assembled result *)

Section Assembly.

Context {N : Number} {L : Library N}.

Lemma truediv_value (a b q : scalar) :
  truediv a b = Ok q -> value q = fdiv (value a) (value b).
Proof.
  unfold truediv. destruct (is_numpy a || is_numpy b).
  - intros H. inversion H. reflexivity.
  - destruct (feqb (value b) (of_int 0)); [discriminate|].
    intros H. inversion H. reflexivity.
Qed.

Lemma project_length (growth : Z -> result num) (years : list Z)
    (base : scalar) (projected : list scalar) :
  project growth years base = Ok projected ->
  length projected = length years.
Proof.
  revert base projected. induction years as [|y rest IH];
    intros base projected H.
  - inversion H. reflexivity.
  - cbn [project] in H. bind_inv H. bind_inv H. inversion H; subst.
    simpl. f_equal. eapply IH. eassumption.
Qed.

Lemma sector_only_net_debt (d d' : CompanyFinancials) :
  sector_only d d' ->
  net_debt d' = net_debt d /\
  shares_outstanding d' = shares_outstanding d /\
  company_name d' = company_name d /\
  revenue_growth_rate d' = revenue_growth_rate d.
Proof. unfold sector_only. intros ->. repeat split. Qed.

(** Every step of a successful [calculate_valuation], read off its
    result. *)
Lemma calculate_valuation_result (h : Z) (c : option (list num))
    (self s : InfrastructureDCF) (res : ValuationResult) :
  calculate_valuation h c self = Ok (res, s) ->
  exists final factor,
    calculate_wacc s = Ok (wacc res) /\
    project
      (growth_of_year
         (option_map
            (fun rates =>
               extend_rates rates (terminal_growth_rate (data s)) h) c)
         (revenue_growth_rate (data s)) (terminal_growth_rate (data s)) h)
      (years_of h) (normalized_fcf res) = Ok (projected_fcf res) /\
    last_item (projected_fcf res) = Ok final /\
    truediv
      (smul final (PyFloat (fadd (of_int 1) (terminal_growth_rate (data s)))))
      (PyFloat (fsub (wacc res) (terminal_growth_rate (data s)))) =
      Ok (terminal_value res) /\
    sum_discounted (wacc res) (PyFloat (of_int 0)) 0 (projected_fcf res) =
      Ok (pv_explicit_period res) /\
    float_pow (fadd (of_int 1) (wacc res)) h = Ok factor /\
    truediv (terminal_value res) (PyFloat factor) =
      Ok (pv_terminal_value res) /\
    enterprise_value res =
      sadd (pv_explicit_period res) (pv_terminal_value res) /\
    equity_value res =
      ssub (enterprise_value res) (PyFloat (net_debt (data s))) /\
    intrinsic_value_per_share res =
      (if fgt (shares_outstanding (data s)) (of_int 0)
       then scalar_op fdiv (equity_value res)
              (PyFloat (shares_outstanding (data s)))
       else PyFloat (lit 0.0)) /\
    method res = DCF_FCFF_value /\
    result_company_name res = company_name (data s).
Proof.
  unfold calculate_valuation. intros H.
  bind_inv H. bind_inv H. destruct a0 as [[f m] s2].
  bind_inv H. rename a0 into w. bind_inv H. rename a0 into projected.
  bind_inv H. rename a0 into final. bind_inv H. rename a0 into tv.
  bind_inv H. rename a0 into pv. bind_inv H. rename a0 into factor.
  bind_inv H. rename a0 into pvt.
  destruct (validation_results s2); [|discriminate].
  inversion H; subst. cbn.
  exists final, factor. repeat split; assumption.
Qed.

End Assembly.

Section AssemblyTheorems.

Context {N : Number} {L : Library N}.

(** X9.  In a result of [calculate_valuation] the enterprise value is the
    sum of the two present values; the equity value is the enterprise value
    less the record's stored [net_debt] field (not [total_debt - cash]
    recomputed); the per-share value is the equity value over the shares
    outstanding when these are positive and the literal [0.0] otherwise; the
    method is ["dcf_fcff"] and the company name is the record's. *)
Theorem valuation_result_accounting (h : Z) (c : option (list num))
    (self s : InfrastructureDCF) (res : ValuationResult) :
  calculate_valuation h c self = Ok (res, s) ->
  value (enterprise_value res) =
    fadd (value (pv_explicit_period res)) (value (pv_terminal_value res)) /\
  value (equity_value res) =
    fsub (value (enterprise_value res)) (net_debt (data self)) /\
  (fgt (shares_outstanding (data self)) (of_int 0) = true ->
   value (intrinsic_value_per_share res) =
   fdiv (value (equity_value res)) (shares_outstanding (data self))) /\
  (fgt (shares_outstanding (data self)) (of_int 0) = false ->
   intrinsic_value_per_share res = PyFloat (lit 0.0)) /\
  method res = "dcf_fcff"%string /\
  result_company_name res = company_name (data self).
Proof.
  intros H.
  pose proof (calculate_valuation_record_frame _ _ _ H) as Hframe.
  destruct (sector_only_net_debt Hframe) as [Hnd [Hsh [Hname _]]].
  apply calculate_valuation_result in H.
  destruct H as [final [factor [_ [_ [_ [_ [_ [_ [_ [Hev [Heq [Hps [Hm Hn]]]]]]]]]]]]].
  rewrite <- Hnd, <- Hsh, <- Hname.
  split; [rewrite Hev; apply value_scalar_op|].
  split; [rewrite Heq; apply value_scalar_op|].
  split; [intros Hpos; rewrite Hps, Hpos; apply value_scalar_op|].
  split; [intros Hzero; rewrite Hps, Hzero; reflexivity|].
  split; assumption.
Qed.

(** X10.  A result exists only for a horizon of at least one year, and
    holds exactly that many projected FCFs.  Its terminal value is the last
    projected FCF times [1 + terminal_growth_rate] over
    [wacc - terminal_growth_rate], and the present value of the terminal
    value is the terminal value over [(1 + wacc) ** horizon]. *)
Theorem terminal_value_formula (h : Z) (c : option (list num))
    (self s : InfrastructureDCF) (res : ValuationResult) :
  calculate_valuation h c self = Ok (res, s) ->
  (1 <= h)%Z /\
  length (projected_fcf res) = Z.to_nat h /\
  exists final factor,
    last_item (projected_fcf res) = Ok final /\
    value (terminal_value res) =
      fdiv (fmul (value final)
              (fadd (of_int 1) (terminal_growth_rate (data self))))
           (fsub (wacc res) (terminal_growth_rate (data self))) /\
    float_pow (fadd (of_int 1) (wacc res)) h = Ok factor /\
    value (pv_terminal_value res) = fdiv (value (terminal_value res)) factor.
Proof.
  intros H.
  pose proof (calculate_valuation_record_frame _ _ _ H) as Hframe.
  pose proof (sector_only_terminal_growth Hframe) as Hg.
  apply calculate_valuation_result in H.
  destruct H as [final [factor [_ [Hp [Hlast [Htv [_ [Hpow [Hpvt _]]]]]]]]].
  apply project_length in Hp. unfold years_of in Hp.
  rewrite length_map, length_seq in Hp.
  assert (Hne : 1 <= length (projected_fcf res)).
  { destruct (projected_fcf res); [discriminate|simpl; lia]. }
  split; [lia|]. split; [exact Hp|].
  exists final, factor. rewrite <- Hg.
  split; [exact Hlast|].
  split; [rewrite (truediv_value _ _ Htv); unfold smul;
          rewrite value_scalar_op; reflexivity|].
  split; [exact Hpow|].
  rewrite (truediv_value _ _ Hpvt). reflexivity.
Qed.

Lemma project_taper (high g : num) (h : Z) (years : list Z) (base : scalar) :
  project (growth_of_year None high g h) years base =
  Ok (compound base (map (taper_rate high g h) years)).
Proof.
  revert base. induction years as [|y rest IH]; intros base; [reflexivity|].
  cbn [project growth_of_year bind map compound]. rewrite IH. reflexivity.
Qed.

(** X11.  Without a custom schedule the projected FCFs compound from the
    normalized base with, for year [y] of the horizon [h], the rate
    [high * (1 - y/h) + terminal * (y/h)], [high] being the record's
    [revenue_growth_rate] and [terminal] its [terminal_growth_rate]. *)
Theorem tapered_projection (h : Z) (self s : InfrastructureDCF)
    (res : ValuationResult) :
  calculate_valuation h None self = Ok (res, s) ->
  projected_fcf res =
  compound (normalized_fcf res)
    (map (taper_rate (revenue_growth_rate (data self))
            (terminal_growth_rate (data self)) h)
         (years_of h)).
Proof.
  intros H.
  pose proof (calculate_valuation_record_frame _ _ _ H) as Hframe.
  pose proof (sector_only_terminal_growth Hframe) as Hg.
  destruct (sector_only_net_debt Hframe) as [_ [_ [_ Hhigh]]].
  apply calculate_valuation_result in H.
  destruct H as [final [factor [_ [Hp _]]]].
  cbn [option_map] in Hp. rewrite project_taper in Hp.
  rewrite <- Hg, <- Hhigh. now inversion Hp.
Qed.

End AssemblyTheorems.

Lemma valuation_result_accounting_witness :
  exists res s,
    calculate_valuation 10 None (new_engine guided_record) = Ok (res, s) /\
    value (equity_value res) =
      PrimFloat.sub (value (enterprise_value res)) 1900%float /\
    method res = "dcf_fcff"%string.
Proof.
  assert (H : exists p,
             calculate_valuation 10 None (new_engine guided_record) = Ok p)
    by (vm_compute; eexists; reflexivity).
  destruct H as [[res s] H]. exists res, s. split; [exact H|].
  destruct (valuation_result_accounting _ _ _ H) as [_ [Heq [_ [_ [Hm _]]]]].
  split; [exact Heq | exact Hm].
Defined.

Lemma terminal_value_formula_witness :
  exists res s,
    calculate_valuation 10 None (new_engine guided_record) = Ok (res, s) /\
    length (projected_fcf res) = 10.
Proof.
  assert (H : exists p,
             calculate_valuation 10 None (new_engine guided_record) = Ok p)
    by (vm_compute; eexists; reflexivity).
  destruct H as [[res s] H]. exists res, s. split; [exact H|].
  exact (proj1 (proj2 (terminal_value_formula _ _ _ H))).
Defined.

Lemma tapered_projection_witness :
  exists res s,
    calculate_valuation 2 None (new_engine guided_record) = Ok (res, s) /\
    projected_fcf res =
    compound (normalized_fcf res)
      [taper_rate (float_lit 0.03) (float_lit 0.02) 2 1;
       taper_rate (float_lit 0.03) (float_lit 0.02) 2 2].
Proof.
  assert (H : exists p,
             calculate_valuation 2 None (new_engine guided_record) = Ok p)
    by (vm_compute; eexists; reflexivity).
  destruct H as [[res s] H]. exists res, s. split; [exact H|].
  exact (@tapered_projection _ _ _ _ _ _ H).
Defined.

(** ** Cached detection *)

Section CachedDetection.

Context {N : Number} {L : Library N}.

Lemma normalized_fcf_keeps_validation (self s : InfrastructureDCF)
    (v : ValidationResults) (f : scalar) (m : string) :
  validation_results self = Some v ->
  calculate_normalized_fcf self = Ok (f, m, s) ->
  validation_results s = Some v.
Proof.
  intros Hv. unfold calculate_normalized_fcf.
  rewrite (ensure_validated_cached _ Hv). cbn [bind].
  destruct (vr_use_forward_fcf v).
  - intros H. bind_inv H. destruct a as [f0 s0]. inversion H; subst.
    apply forward_fcf_state in Ha.
    destruct (ensure_classified_frame _ Ha) as [Hsame _]. now rewrite Hsame.
  - intros H. bind_inv H. inversion H; subst. exact Hv.
Qed.

(** X12.  Once an engine holds validation results, [calculate_valuation]
    never runs classification-and-detection again: whatever the record
    holds by then, the result reports the cached method choice, flags,
    sector, override flag and original sector, and the cache is left as it
    was. *)
Theorem cached_detection_is_reused (h : Z) (c : option (list num))
    (self s : InfrastructureDCF) (v : ValidationResults)
    (res : ValuationResult) :
  validation_results self = Some v ->
  calculate_valuation h c self = Ok (res, s) ->
  validation_results s = Some v /\
  forward_fcf_used res = vr_use_forward_fcf v /\
  flags res = vr_flags v /\
  result_sector res = vr_sector v /\
  sector_override res = vr_sector_override v /\
  original_sector res = vr_original_sector v.
Proof.
  intros Hv H. apply calculate_valuation_steps in H.
  destruct H as [s1 [f [m [Hs1 [Hn [_ [_ [v' [Hv' Hres]]]]]]]]].
  destruct Hs1 as [[Hnone _]|[_ ->]]; [congruence|].
  pose proof (normalized_fcf_keeps_validation _ Hv Hn) as Hsame.
  rewrite Hsame in Hv'. inversion Hv'; subst v'.
  split; [exact Hsame | exact Hres].
Qed.

End CachedDetection.

(** An engine whose record was replaced by [zero_ebitda_record] after
    detection ran on [guided_record] still reports the signals of the
    latter. *)
Lemma cached_detection_is_reused_witness :
  exists res s,
    calculate_valuation 10 None
      {| data := zero_ebitda_record;
         validation_results := validation_results guided_engine;
         _sector_enum := Some TOWERS |} = Ok (res, s) /\
    flags res = ["infrastructure_sector"; "contracted_revenues"]%string /\
    result_sector res = "towers"%string.
Proof.
  assert (H : exists p,
             calculate_valuation 10 None
               {| data := zero_ebitda_record;
                  validation_results := validation_results guided_engine;
                  _sector_enum := Some TOWERS |} = Ok p)
    by (vm_compute; eexists; reflexivity).
  destruct H as [[res s] H]. exists res, s. split; [exact H|].
  pose proof (fun v Hv => @cached_detection_is_reused _ _ _ _ _ _ v _ Hv H)
    as Hcached.
  destruct (Hcached _ eq_refl) as [_ [_ [Hf [Hs _]]]].
  split; [exact Hf | exact Hs].
Defined.

(** ** The taper and the WACC on binary64 *)

(** X13.  On binary64 the default growth schedule ends on the terminal
    rate: for a horizon [h] from 1 to 2^53 - 1 and a finite
    [revenue_growth_rate], the rate of the last year is
    [terminal_growth_rate] itself.  The share [h / h] is exactly [1.0], the
    weight [1 - 1.0] of the high rate is exactly [0.0], and the product
    [terminal * 1.0] is not rounded; only a terminal rate of [-0.0] comes
    back as [+0.0]. *)
Theorem taper_ends_at_terminal_rate (high terminal : float) (h : Z) :
  (1 <= h < 2 ^ 53)%Z ->
  finite high = true ->
  exists rate,
    @growth_of_year float_number None high terminal h h = Ok rate /\
    same_number rate terminal.
Proof.
  intros Hh Hhigh.
  destruct (float_of_Z_shape Hh) as [m [e Hshape]].
  assert (Hone : PrimFloat.div (float_of_Z h) (float_of_Z h) = PrimFloat.one)
    by (eapply float_div_self_shape; exact Hshape).
  unfold growth_of_year.
  change (@of_int float_number) with float_of_Z.
  change (@fdiv float_number) with PrimFloat.div.
  change (@fmul float_number) with PrimFloat.mul.
  change (@fsub float_number) with PrimFloat.sub.
  change (@fadd float_number) with PrimFloat.add.
  rewrite Hone.
  change (PrimFloat.sub (float_of_Z 1) PrimFloat.one) with PrimFloat.zero.
  rewrite float_mul_one_r.
  eexists. split; [reflexivity|].
  apply float_add_zero_same.
  apply float_mul_zero; [exact Hhigh | reflexivity].
Qed.

Lemma taper_ends_at_terminal_rate_witness :
  @growth_of_year float_number None (float_lit 0.03) (float_lit 0.02) 10 10 =
  Ok (float_lit 0.02).
Proof.
  destruct (@taper_ends_at_terminal_rate (float_lit 0.03) (float_lit 0.02) 10
              ltac:(lia) eq_refl)
    as [rate [Hrate Hsame]].
  rewrite Hrate. f_equal.
  destruct Hsame as [Hsame|[Hneg _]]; [exact Hsame|].
  exfalso. revert Hneg. apply float_neq; vm_compute; reflexivity.
Defined.

(** Before the last year the rate is rounded: the straight line from 0.03
    to 0.02 over ten years passes through 0.027 in year 3, and the code
    gives the float below it. *)
Example taper_is_rounded :
  @growth_of_year float_number None (float_lit 0.03) (float_lit 0.02) 10 3 =
    Ok 0x1.ba5e353f7ced8p-6%float /\
  float_lit 0.027 = 0x1.ba5e353f7ced9p-6%float.
Proof. split; vm_compute; reflexivity. Qed.

(** X14.  On binary64, a record whose [market_cap] is zero (the default of
    the field) and whose debt is positive and finite has WACC equal to the
    after-tax cost of debt, [latest interest / total_debt * (1 - tax rate)]:
    the weights are a zero and exactly [1.0], and a finite cost of equity
    plays no part.  The float returned is the cost of debt bit for bit, a
    cost of debt of [-0.0] apart. *)
Theorem wacc_without_equity_is_cost_of_debt
    (self : @InfrastructureDCF float_number) (latest_interest : float) :
  last_item (interest_expense (data self)) = Ok latest_interest ->
  feqb (market_cap (data self)) (of_int 0) = true ->
  fgt (total_debt (data self)) (of_int 0) = true ->
  finite (total_debt (data self)) = true ->
  finite (cost_of_equity self) = true ->
  exists wacc,
    calculate_wacc self = Ok wacc /\
    same_number wacc
      (fmul (fdiv latest_interest (total_debt (data self)))
            (fsub (of_int 1) (effective_tax_rate (data self)))).
Proof.
  intros Hlatest Hcap Hdebt Hfin Hcoe.
  unfold calculate_wacc. rewrite Hlatest. cbn [bind].
  unfold fgt in *.
  change (@of_int float_number 0) with PrimFloat.zero in *.
  change (@flt float_number) with PrimFloat.ltb in *.
  change (@feqb float_number) with PrimFloat.eqb in *.
  change (@fadd float_number) with PrimFloat.add in *.
  change (@fmul float_number) with PrimFloat.mul.
  change (@fdiv float_number) with PrimFloat.div.
  change (@fsub float_number) with PrimFloat.sub.
  rewrite Hdebt, (float_add_zero_l Hcap Hdebt), Hdebt.
  rewrite (float_div_self Hdebt Hfin), float_mul_one_l.
  eexists. split; [reflexivity|].
  apply float_add_zero_same.
  apply float_zero_mul; [|exact Hcoe].
  apply float_zero_div; assumption.
Qed.

Lemma wacc_without_equity_is_cost_of_debt_witness :
  calculate_wacc (new_engine no_equity_record) =
  Ok (PrimFloat.mul (PrimFloat.div 50 2000)
        (PrimFloat.sub 1 (float_lit 0.25))).
Proof.
  destruct (@wacc_without_equity_is_cost_of_debt
              (new_engine no_equity_record) 50%float
              eq_refl eq_refl eq_refl eq_refl eq_refl)
    as [wacc [Hwacc Hsame]].
  rewrite Hwacc. f_equal.
  destruct Hsame as [Hsame|[Hneg _]]; [exact Hsame|].
  exfalso. revert Hneg. apply float_neq; vm_compute; reflexivity.
Defined.

(** ** The forward method in full *)

Section ForwardMethod.

Context {N : Number} {L : Library N}.

(** X15.  With the sector cached, the forward FCF of a validated record is
    [base - maintenance - tax - working capital].  Maintenance capex is the
    guidance when supplied, else the sector's benchmark share of the latest
    revenue, else (sector [OTHER]) NumPy's 25th percentile of capex.  The
    working-capital change is [0.0] for towers, telecom infrastructure,
    utilities and pipelines and 2% of [latest revenue * growth rate]
    otherwise.  The value is a NumPy scalar exactly when the EBITDA base is
    the mean (volatile EBITDA) or maintenance capex is the percentile. *)
Theorem forward_fcf_decomposition (self : InfrastructureDCF)
    (e : InfrastructureSector) :
  _validate_data (data self) = Ok tt ->
  _sector_enum self = Some e ->
  exists latest_ebitda latest_revenue latest_depreciation fcf,
    last_item (ebitda (data self)) = Ok latest_ebitda /\
    last_item (revenues (data self)) = Ok latest_revenue /\
    last_item (depreciation (data self)) = Ok latest_depreciation /\
    _calculate_forward_fcf self = Ok (fcf, self) /\
    let recent := last_n 3 (ebitda (data self)) in
    let volatile :=
      fgt (guarded_ratio (np_std recent) (np_mean recent)) (lit 0.15) in
    let base := if volatile then np_mean recent else latest_ebitda in
    let maintenance :=
      match maintenance_capex_guidance (data self) with
      | Some guidance => guidance
      | None =>
          match MAINTENANCE_CAPEX_BENCHMARKS e with
          | Some rate => fmul latest_revenue rate
          | None => np_percentile (capex (data self)) (of_int 25)
          end
      end in
    let ebit := fsub base latest_depreciation in
    let tax :=
      if fgt ebit (of_int 0)
      then fmul ebit (effective_tax_rate (data self))
      else of_int 0 in
    let working_capital :=
      if existsb (sector_eqb e) zero_wc_sectors then lit 0.0
      else fmul (fmul latest_revenue (revenue_growth_rate (data self)))
                (lit 0.02) in
    value fcf = fsub (fsub (fsub base maintenance) tax) working_capital /\
    is_numpy fcf =
      volatile ||
      match maintenance_capex_guidance (data self) with
      | Some _ => false
      | None => sector_eqb e OTHER
      end.
Proof.
  intros Hvalid He.
  destruct (validate_data_lengths _ Hvalid) as [Heb [Hdep [_ [_ H3]]]].
  destruct (@last_item_Ok _ (ebitda (data self))) as [eb Hlast]; [lia|].
  destruct (@last_item_Ok _ (revenues (data self))) as [rev Hrev]; [lia|].
  destruct (@last_item_Ok _ (depreciation (data self))) as [da Hda]; [lia|].
  exists eb, rev, da.
  unfold _calculate_forward_fcf.
  rewrite (ensure_classified_cached _ He). cbn [bind].
  unfold _get_ebitda_baseline. rewrite Hlast. cbn [bind].
  replace (3 <=? length (ebitda (data self))) with true
    by (symmetry; apply Nat.leb_le; lia).
  unfold _estimate_maintenance_capex, _estimate_wc_change.
  rewrite He, Hrev, Hda. cbn [sector_in].
  destruct (fgt (guarded_ratio (np_std (last_n 3 (ebitda (data self))))
                               (np_mean (last_n 3 (ebitda (data self)))))
                (lit 0.15));
    destruct (maintenance_capex_guidance (data self)) as [guidance|];
    destruct e; cbn [MAINTENANCE_CAPEX_BENCHMARKS bind existsb sector_eqb
                     zero_wc_sectors orb];
    cbn [value ssub scalar_op is_numpy orb];
    match goal with
    | |- context [if ?b then smul _ _ else _] => destruct b
    end;
    eexists; repeat split.
Qed.

End ForwardMethod.

Lemma forward_fcf_decomposition_witness :
  exists fcf,
    _calculate_forward_fcf guided_engine = Ok (fcf, guided_engine) /\
    is_numpy fcf = false.
Proof.
  destruct (@forward_fcf_decomposition float_number float_library
              guided_engine TOWERS eq_refl eq_refl)
    as [eb [rev [da [fcf [_ [_ [_ [Hrun [_ Hnp]]]]]]]]].
  exists fcf. split; [exact Hrun|]. rewrite Hnp. reflexivity.
Defined.

(** ** Keys of the label dictionary *)

Lemma prefix_append (k t s : string) :
  String.prefix (k ++ t) s = true -> String.prefix k s = true.
Proof.
  revert s. induction k as [|c k IH]; intros s;
    [intros _; destruct s; reflexivity|].
  destruct s as [|c' s]; simpl; [discriminate|].
  destruct (ascii_dec c c'); [apply IH|discriminate].
Qed.

Lemma contains_append (k t s : string) :
  contains (k ++ t) s = true -> contains k s = true.
Proof.
  induction s as [|c s IH]; cbn [contains]; intros H;
    apply orb_true_iff in H; apply orb_true_iff; destruct H as [H|H].
  - left. exact (prefix_append _ _ _ H).
  - discriminate.
  - left. exact (prefix_append _ _ _ H).
  - right. now apply IH.
Qed.

Lemma contains_append_false (k t s : string) :
  contains k s = false -> contains (k ++ t) s = false.
Proof.
  intros H. destruct (contains (k ++ t) s) eqn:E; [|reflexivity].
  apply contains_append in E. congruence.
Qed.

(** X16.  Five keys of the label dictionary never decide a
    classification: on every label, the dictionary gives the same sector
    with ["towers"], ["reits"], ["pipelines"], ["airports"] and
    ["telecommunications"] left out. *)
Theorem redundant_label_keys (label : string) :
  match_label sector_mapping label = match_label deciding_keys label.
Proof.
  assert (Hdead : forall k t key,
             key = (k ++ t)%string -> contains k label = false ->
             contains key label = false)
    by (intros k t key ->; apply contains_append_false).
  unfold sector_mapping, deciding_keys. cbn [match_label].
  destruct (contains "tower" label) eqn:Htower.
  - destruct (contains "towers" label); reflexivity.
  - rewrite (Hdead "tower" "s" "towers" eq_refl Htower)%string.
    destruct (contains "reit" label) eqn:Hreit; [reflexivity|].
    rewrite (Hdead "reit" "s" "reits" eq_refl Hreit)%string.
    destruct (contains "utilities" label); [reflexivity|].
    destruct (contains "utility" label); [reflexivity|].
    destruct (contains "pipeline" label) eqn:Hpipe; [reflexivity|].
    rewrite (Hdead "pipeline" "s" "pipelines" eq_refl Hpipe)%string.
    destruct (contains "toll" label); [reflexivity|].
    destruct (contains "airport" label) eqn:Hair; [reflexivity|].
    rewrite (Hdead "airport" "s" "airports" eq_refl Hair)%string.
    destruct (contains "data center" label); [reflexivity|].
    destruct (contains "datacenter" label); [reflexivity|].
    destruct (contains "telecom" label) eqn:Htel; [reflexivity|].
    rewrite (Hdead "telecom" "munications" "telecommunications" eq_refl
               Htel)%string.
    reflexivity.
Qed.

(** ** [quick_valuation] *)

Section QuickValuation.

Context {N : Number} {L : Library N}.

(** X17.  [quick_valuation] builds a three-period record, so the only way
    its construction can fail is a [capex] keyword of another length, which
    raises [ValueError] before anything is valued; an [operating_cash_flow]
    keyword of any length is accepted.  Otherwise the result is that of
    [calculate_valuation] with the default horizon of 10 and no custom
    schedule on a new engine for that record. *)
Theorem quick_valuation_construction (company_name : string)
    (ebitda_ttm revenues_ttm total_debt cash market_cap shares_outstanding
       current_price : num)
    (sector : string) (kwargs : QuickKwargs) :
  let financials :=
    quick_financials company_name ebitda_ttm revenues_ttm total_debt cash
      market_cap shares_outstanding current_price sector kwargs in
  quick_valuation company_name ebitda_ttm revenues_ttm total_debt cash
    market_cap shares_outstanding current_price sector kwargs =
  match kw_capex kwargs with
  | Some capex =>
      if length capex =? 3
      then let* (result, _) :=
             calculate_valuation 10 None (new_engine financials) in
           Ok result
      else Raise ValueError
  | None =>
      let* (result, _) :=
        calculate_valuation 10 None (new_engine financials) in
      Ok result
  end.
Proof.
  intros financials. unfold quick_valuation. fold financials.
  assert (Hpost : __post_init__ financials =
                  if length (capex financials) =? 3
                  then Ok financials else Raise ValueError).
  { unfold __post_init__, _validate_data.
    cbn [revenues ebitda depreciation capex interest_expense set_net_debt
         financials quick_financials].
    rewrite nodup_all_equal. cbn [length repeat Nat.eqb andb].
    match goal with
    | |- context [?len =? 3] => destruct (len =? 3)
    end; reflexivity. }
  rewrite Hpost. subst financials. cbn [capex quick_financials].
  destruct (kw_capex kwargs) as [capex|]; cbn [get_or].
  - destruct (length capex =? 3); reflexivity.
  - reflexivity.
Qed.

End QuickValuation.

(** The call of [test_quick_valuation_minimal_inputs] returns a result
    with a positive enterprise value, and a two-entry [capex] keyword is
    refused. *)
Example quick_valuation_runs :
  match
    @quick_valuation float_number float_library "Quick Test Co" 500%float
      1000%float 2000%float 200%float 5000%float 100%float 50%float "towers"
      no_kwargs
  with
  | Ok res => PrimFloat.ltb 0 (value (enterprise_value res))
  | Raise _ => false
  end = true /\
  @quick_valuation float_number float_library "Quick Test Co" 500%float
    1000%float 2000%float 200%float 5000%float 100%float 50%float "towers"
    short_capex_kwargs = Raise ValueError.
Proof. split; vm_compute; reflexivity. Qed.

(** ** Validating a record a second time *)

Section Revalidation.

Context {N : Number} {L : Library N}.

Lemma analyze_business_model_data (a b : InfrastructureDCF) :
  data a = data b ->
  _analyze_business_model a = _analyze_business_model b.
Proof.
  intros H. unfold _analyze_business_model, _calculate_revenue_volatility.
  now rewrite H.
Qed.

(** Classifying the record an engine has classified leaves the record as it
    is. *)
Lemma classify_classified_record (self cl s2 : InfrastructureDCF)
    (c : Characteristics) :
  _analyze_business_model self = Ok c ->
  classified self c cl ->
  _classify_sector (new_engine (data cl)) = Ok s2 ->
  data s2 = data cl.
Proof.
  intros Hc Hcl H2.
  assert (Hc2 : _analyze_business_model (new_engine (data cl)) = Ok c).
  { rewrite <- Hc. destruct Hcl; reflexivity. }
  rewrite (classify_sector_unfold _ Hc2) in H2.
  destruct Hcl as [Ht|Ht Hr|e Ht Hr Hm|Ht Hr Hm].
  - rewrite Ht in H2. inversion H2. reflexivity.
  - rewrite Ht, Hr in H2. inversion H2. reflexivity.
  - rewrite Ht, Hr in H2. cbn [new_engine data assign_sector sector
                                set_sector] in H2.
    rewrite canonical_label_match in H2.
    destruct e; inversion H2; reflexivity.
  - rewrite Ht, Hr in H2. cbn [new_engine data] in H2. rewrite Hm in H2.
    inversion H2. reflexivity.
Qed.

(** X18.  The override flag does not survive a second validation: a new
    engine on a record that an engine has already validated finds the sector
    string it would write already there, so it reports no override and gives
    the canonical label (not the caller's) as the original sector. *)
Theorem override_lost_on_revalidation (self s1 s2 : InfrastructureDCF)
    (b1 b2 : bool) (errs1 errs2 : list string) :
  validate_and_classify self = Ok (b1, errs1, s1) ->
  validate_and_classify (new_engine (data s1)) = Ok (b2, errs2, s2) ->
  data s2 = data s1 /\
  exists v,
    validation_results s2 = Some v /\
    vr_sector_override v = false /\
    vr_original_sector v = sector (data s1).
Proof.
  intros H1 H2.
  apply validate_and_classify_inv in H1.
  destruct H1 as [_ [_ [c [cl [e [u [f [Hc [Hcl [_ [Hd1 _]]]]]]]]]]].
  pose proof H2 as H2'.
  apply validate_and_classify_inv in H2.
  destruct H2 as [_ [_ [c2 [cl2 [e2 [u2 [f2 [_ [_ [_ [Hd2 [_ Hv2]]]]]]]]]]]].
  apply validate_and_classify_detection in H2'.
  destruct H2' as [cl2' [_ [_ [_ [_ [Hcl2 [_ [_ [_ [_ [_ [Hd2' _]]]]]]]]]]]].
  rewrite Hd1 in Hcl2.
  pose proof (classify_classified_record Hc Hcl Hcl2) as Hsame.
  assert (Hdata : data s2 = data s1) by congruence.
  split; [exact Hdata|].
  eexists. split; [exact Hv2|]. cbn [vr_sector_override vr_original_sector].
  cbn [new_engine data].
  replace (sector (data cl2)) with (sector (data s1)) by congruence.
  rewrite String.eqb_refl. split; reflexivity.
Qed.

End Revalidation.

Lemma override_lost_on_revalidation_witness :
  exists s1 s2 v1 v2,
    validate_and_classify (new_engine tower_label_record) =
      Ok (true, [], s1) /\
    validation_results s1 = Some v1 /\ vr_sector_override v1 = true /\
    validate_and_classify (new_engine (data s1)) = Ok (true, [], s2) /\
    validation_results s2 = Some v2 /\ vr_sector_override v2 = false.
Proof.
  assert (H1 : exists s1 v1,
             validate_and_classify (new_engine tower_label_record) =
               Ok (true, [], s1) /\
             validation_results s1 = Some v1 /\
             vr_sector_override v1 = true /\
             data s1 = set_sector "towers" tower_label_record)
    by (vm_compute; do 2 eexists; repeat split; reflexivity).
  destruct H1 as [s1 [v1 [H1 [Hv1 [Ho1 Hd1]]]]].
  assert (H2 : exists s2,
             validate_and_classify
               (new_engine (set_sector "towers" tower_label_record)) =
               Ok (true, [], s2))
    by (vm_compute; eexists; reflexivity).
  destruct H2 as [s2 H2]. rewrite <- Hd1 in H2.
  destruct (override_lost_on_revalidation _ H1 H2) as [_ [v2 [Hv2 [Ho2 _]]]].
  exists s1, s2, v1, v2. repeat split; assumption.
Defined.

(** ** The present value of the explicit period *)

Section ExplicitPeriod.

Context {N : Number} {L : Library N}.



End ExplicitPeriod.

